(** * Kismet Sentinel Dashboard: the alert / automation engine

    A shallow embedding of the alerting core of
    [kismet-sentinel-dashboard.py]: filename sanitisation, the detector
    rules of [analyze_devices], the bounded alert store of [push_alert],
    the watch policy [_auto_watch_device], the alert-save automation
    [_save_alert_device] and the mirror poll [poll_kismet_alerts].

    Conventions of the embedding.
    - A Python [str] is a Rocq [string]; one [ascii] stands for one code
      point in the range 0..255, and [isalnum] / [lower] are CPython's
      tables on that range.  The pictographs of the alert titles lie
      outside that range and are carried as the bytes of the source
      literal; no operation of the model inspects them.
    - JSON values reaching the code are [pyval]: null, integers and
      strings (booleans, floats and arrays as field values are not
      modelled); a device record is a dict with the keys the code reads.
    - Exceptions are explicit: a computation returns [Ok] or [Raise],
      and the state reached before a raise is kept, as in Python.
    - The clock, the file system and the upstream feed are oracles of
      the environment [env], indexed by the number of interactions made
      so far ([tick]). *)

From Stdlib Require Import ZArith NArith String Ascii List Bool Sorted.
From stdpp Require Import base option list gmap strings pretty.

Local Open Scope Z_scope.

(** ** Python strings *)

Module PyStr.

Definition between (lo hi n : N) : bool := ((lo <=? n) && (n <=? hi))%N.

(** [c.isalnum()] for one character: letters, decimal digits and the
    other numeric characters of the first 256 code points. *)
Definition isalnum (c : ascii) : bool :=
  let n := N_of_ascii c in
  between 48 57 n || between 65 90 n || between 97 122 n
  || (n =? 170)%N || (n =? 178)%N || (n =? 179)%N || (n =? 181)%N
  || (n =? 185)%N || (n =? 186)%N || between 188 190 n
  || between 192 214 n || between 216 246 n || between 248 255 n.

(** [c.lower()] for one character. *)
Definition lower_char (c : ascii) : ascii :=
  let n := N_of_ascii c in
  if between 65 90 n || between 192 214 n || between 216 222 n
  then ascii_of_N (n + 32) else c.

Fixpoint map (f : ascii -> ascii) (s : string) : string :=
  match s with
  | EmptyString => EmptyString
  | String c s' => String (f c) (map f s')
  end.

Fixpoint filter (p : ascii -> bool) (s : string) : string :=
  match s with
  | EmptyString => EmptyString
  | String c s' => if p c then String c (filter p s') else filter p s'
  end.

Fixpoint forallb (p : ascii -> bool) (s : string) : bool :=
  match s with
  | EmptyString => true
  | String c s' => p c && forallb p s'
  end.

(** [s[:n]] *)
Fixpoint take (n : nat) (s : string) : string :=
  match n, s with
  | S n', String c s' => String c (take n' s')
  | _, _ => EmptyString
  end.

(** [s.lower()] *)
Definition lower (s : string) : string := map lower_char s.

(** [s.startswith(p)] *)
Fixpoint startswith (p s : string) : bool :=
  match p, s with
  | EmptyString, _ => true
  | String a p', String b s' => Ascii.eqb a b && startswith p' s'
  | String _ _, EmptyString => false
  end.

(** [sub in s] on strings: [sub] occurs in [s] as a contiguous block. *)
Fixpoint contains (sub s : string) : bool :=
  startswith sub s ||
  match s with
  | EmptyString => false
  | String _ s' => contains sub s'
  end.

(** [c in chars] for a one-character [c]. *)
Fixpoint char_in (c : ascii) (chars : string) : bool :=
  match chars with
  | EmptyString => false
  | String a rest => Ascii.eqb c a || char_in c rest
  end.

End PyStr.

(** ** Filename sanitisation *)

(** The characters that survive sanitisation unchanged. *)
Definition filename_safe (c : ascii) : bool :=
  PyStr.isalnum c || PyStr.char_in c "-_".

(** [_sanitize_filename(s)]:
    ["".join(c if c.isalnum() or c in "-_" else "_" for c in s)[:80]] *)
Definition _sanitize_filename (s : string) : string :=
  PyStr.take 80 (PyStr.map (fun c => if filename_safe c then c else "_"%char) s).

(** The reading of "strip to alphanumerics, hyphen, underscore; cap at 80":
    unsafe characters are dropped, then the length is capped.  It follows
    the words of the specification and is only compared with the code. *)
Definition strip_then_cap (s : string) : string :=
  PyStr.take 80 (PyStr.filter filename_safe s).

(** ** Python values, exceptions *)

(** The JSON values the code meets as field values: null, integers and
    text.  Numbers with a fraction, booleans, arrays and objects are not
    values of this type; a statement about a field that is "not an
    integer" names null and text explicitly. *)
Inductive pyval :=
| PNone
| PInt (z : Z)
| PStr (s : string).

#[global] Instance pyval_eq_dec : EqDecision pyval.
Proof. solve_decision. Defined.

#[global] Instance pyval_countable : Countable pyval.
Proof.
  refine (inj_countable'
    (fun v => match v with
              | PNone => inl tt
              | PInt z => inr (inl z)
              | PStr s => inr (inr s)
              end)
    (fun x => match x with
              | inl _ => PNone
              | inr (inl z) => PInt z
              | inr (inr s) => PStr s
              end) _).
  intros []; reflexivity.
Defined.

(** [bool(v)] *)
Definition truthy (v : pyval) : bool :=
  match v with
  | PNone => false
  | PInt z => negb (z =? 0)
  | PStr s => negb (String.eqb s "")
  end.

(** [a or b] *)
Definition py_or (a b : pyval) : pyval := if truthy a then a else b.

(** [str(v)], as an f-string renders [{v}]. *)
Definition py_str (v : pyval) : string :=
  match v with
  | PNone => "None"
  | PInt z => pretty z
  | PStr s => s
  end.

(** [v == s] for a string literal [s]. *)
Definition py_eq_str (v : pyval) (s : string) : bool :=
  match v with
  | PStr t => String.eqb t s
  | _ => false
  end.

(** [type(v).__name__] *)
Definition type_name (v : pyval) : string :=
  match v with
  | PNone => "NoneType"
  | PInt _ => "int"
  | PStr _ => "str"
  end.

(** [d.get(key, default)] once the key has been looked up. *)
Definition dict_get (field : option pyval) (dflt : pyval) : pyval :=
  default dflt field.

Record exn := Exn { exn_class : string; exn_text : string }.

(** [str(e)] *)
Definition exn_str (e : exn) : string := exn_text e.

Definition dq : string := String (ascii_of_nat 34) EmptyString.

Definition no_attribute (v : pyval) (attr : string) : exn :=
  Exn "AttributeError"
      ("'" +:+ type_name v +:+ "' object has no attribute '" +:+ attr +:+ "'").

Definition not_supported (op : string) (v : pyval) : exn :=
  Exn "TypeError"
      ("'" +:+ op +:+ "' not supported between instances of '"
           +:+ type_name v +:+ "' and 'int'").

Definition bad_operands (a b : pyval) : exn :=
  match a with
  | PStr _ =>
      Exn "TypeError"
          ("can only concatenate str (not " +:+ dq +:+ type_name b +:+ dq +:+ ") to str")
  | _ =>
      Exn "TypeError"
          ("unsupported operand type(s) for +: '" +:+ type_name a
             +:+ "' and '" +:+ type_name b +:+ "'")
  end.

Inductive result (A : Type) :=
| Ok (a : A)
| Raise (e : exn).
Arguments Ok {A} a.
Arguments Raise {A} e.

(** [a + b] *)
Definition py_add (a b : pyval) : result pyval :=
  match a, b with
  | PStr s, PStr t => Ok (PStr (s +:+ t))
  | PInt x, PInt y => Ok (PInt (x + y))
  | _, _ => Raise (bad_operands a b)
  end.

(** [v.lower()] *)
Definition py_lower (v : pyval) : result string :=
  match v with
  | PStr s => Ok (PyStr.lower s)
  | _ => Raise (no_attribute v "lower")
  end.

(** [v > n] and [v < n] against an integer literal. *)
Definition py_gt (v : pyval) (n : Z) : result bool :=
  match v with
  | PInt z => Ok (n <? z)
  | _ => Raise (not_supported ">" v)
  end.

Definition py_lt (v : pyval) (n : Z) : result bool :=
  match v with
  | PInt z => Ok (z <? n)
  | _ => Raise (not_supported "<" v)
  end.

(** ** Records of the data model *)

(** The value under ["kismet_device_base_signal"]: the signal block (of
    which only the last-signal key is read) or some other value. *)
Inductive signal_field :=
| SigDict (kismet_common_signal_last_signal : option pyval)
| SigVal (v : pyval).

(** A device dict.  A key that is absent is [None]; the keys the
    detectors do not read are kept in [other_fields]. *)
Record device := Device {
  kismet_device_base_name : option pyval;
  kismet_device_base_macaddr : option pyval;
  kismet_device_base_phyname : option pyval;
  kismet_device_base_manuf : option pyval;
  kismet_device_base_signal : option signal_field;
  other_fields : list (string * pyval)
}.

(** [bool(device)]: a dict is true when it has at least one key. *)
Definition device_truthy (d : device) : bool :=
  bool_decide (is_Some (kismet_device_base_name d))
  || bool_decide (is_Some (kismet_device_base_macaddr d))
  || bool_decide (is_Some (kismet_device_base_phyname d))
  || bool_decide (is_Some (kismet_device_base_manuf d))
  || bool_decide (is_Some (kismet_device_base_signal d))
  || negb (bool_decide (other_fields d = [])).

(** One element of the device feed: a dict, or a value that is not one. *)
Inductive record :=
| RDict (d : device)
| RVal (v : pyval).

(** One element of the upstream alert feed. *)
Inductive upstream_alert :=
| ADict (kismet_alert_severity kismet_alert_header kismet_alert_text : option pyval)
| AVal (v : pyval).

(** A decoded JSON document: a list, or anything else. *)
Inductive json_doc (A : Type) :=
| JList (l : list A)
| JOther.
Arguments JList {A} l.
Arguments JOther {A}.

Record alert_entry := AlertEntry {
  alert_ts : string;
  alert_type : string;
  alert_severity : string;
  alert_title : pyval;
  alert_body : pyval;
  alert_id : Z
}.

Record watch_entry := WatchEntry {
  watch_mac : pyval;
  watch_name : pyval;
  watch_phyname : pyval;
  watch_added_at : string;
  watch_auto : option bool
}.

Record save_record := SaveRecord {
  save_ts : string;
  save_file : string;
  save_alert_type : string;
  save_device : pyval;
  save_ok : bool;
  save_error : option string
}.

(** What [json.dump] is given: the alert, and the device and traffic
    blocks when they are included.  The device block is a projection of
    the record kept here; the traffic block carries its raw part, the
    fields whose key contains "packet", "data" or "crypt" (none of the
    five keys named in [device] does, so they are among
    [other_fields]). *)
Record payload := Payload {
  payload_saved_at : string;
  payload_alert : alert_entry;
  payload_device : option device;
  payload_traffic : option (list (string * pyval))
}.

Record watch_rules := WatchRules {
  drone_alerts : bool;
  btle_alerts : bool;
  strong_signal : bool
}.

Record automations_cfg := Automations {
  alert_save_enabled : bool;
  save_device_details : bool;
  save_device_traffic : bool;
  save_watched_only : bool;
  auto_watch_rules : watch_rules
}.

(** The in-memory [state] dict (the entries the engine uses), the files
    written so far, the save threads started so far (oldest first) and
    the number of interactions with the environment. *)
Record state := State {
  alerts : list alert_entry;
  alert_saves : list save_record;
  watched_devices : gmap pyval watch_entry;
  automations : automations_cfg;
  disk : list (string * payload);
  threads : list (alert_entry * device);
  tick : nat
}.

(** The environment: clocks, file system and upstream feed, each answer
    indexed by the number of interactions made before it.
    - [datetime_now_isoformat k] is [datetime.now().isoformat()],
      [datetime_now_strftime k] is [datetime.now().strftime("%Y%m%d_%H%M%S")]
      and [time_time_ms k] is [int(time.time() * 1000)], each as read at
      interaction [k];
    - [SAVE_DIR] is [str(SAVE_DIR)], and [join_path dir name] is the text
      of the path [dir / name] as [pathlib] builds it;
    - [mkdir_raises k] and [write_raises k] tell whether
      [SAVE_DIR.mkdir(parents=True, exist_ok=True)], respectively the
      [open] / [json.dump] pair, raises at interaction [k], and with what;
    - [kismet_get_alerts k] is the outcome of
      [kismet_get("/alerts/all_alerts.json")]. *)
Record env := Env {
  datetime_now_isoformat : nat -> string;
  datetime_now_strftime : nat -> string;
  time_time_ms : nat -> Z;
  SAVE_DIR : string;
  join_path : string -> string -> string;
  mkdir_raises : nat -> option exn;
  write_raises : nat -> option exn;
  kismet_get_alerts : nat -> result (json_doc upstream_alert)
}.

Definition MAX_ALERTS : nat := 500.

Definition DRONE_KEYWORDS : list string :=
  [ "dji"; "parrot"; "yuneec"; "autel"; "skydio"; "bebop"; "phantom";
    "mavic"; "inspire"; "matrice"; "tello"; "fpv"; "drone"; "uav";
    "ardupilot"; "pixhawk"; "droneid" ]%string.

Definition INTERESTING_SIGNAL : Z := -60.

Definition initial_automations : automations_cfg :=
  Automations true true true false (WatchRules true true false).

Definition initial_state : state :=
  State [] [] ∅ initial_automations [] [] 0.

(** ** Computations: state passing with exceptions *)

(** A computation runs from a state to an outcome and the state reached;
    the state reached is kept when the outcome is a raise. *)
Definition M (A : Type) : Type := state -> result A * state.

Definition ret {A} (a : A) : M A := fun st => (Ok a, st).

Definition bind {A B} (m : M A) (k : A -> M B) : M B :=
  fun st =>
    match m st with
    | (Ok a, st') => k a st'
    | (Raise e, st') => (Raise e, st')
    end.

Definition raise {A} (e : exn) : M A := fun st => (Raise e, st).

(** [try: m  except Exception as e: h e] *)
Definition try_except {A} (m : M A) (h : exn -> M A) : M A :=
  fun st =>
    match m st with
    | (Ok a, st') => (Ok a, st')
    | (Raise e, st') => h e st'
    end.

Definition lift {A} (r : result A) : M A := fun st => (r, st).

Definition get_state : M state := fun st => (Ok st, st).

Definition modify (f : state -> state) : M unit := fun st => (Ok tt, f st).

(** With these instances a block reads [x ← m; k] and [m;; k]. *)
#[global] Instance M_ret : MRet M := @ret.
#[global] Instance M_bind : MBind M := fun A B k m => bind m k.

(** [for x in xs: body x] *)
Fixpoint for_each {A} (xs : list A) (body : A -> M unit) : M unit :=
  match xs with
  | [] => mret tt
  | x :: rest => body x;; for_each rest body
  end.

(** The state reached by a computation, and its outcome. *)
Definition exec {A} (m : M A) (st : state) : state := snd (m st).
Definition outcome {A} (m : M A) (st : state) : result A := fst (m st).

Definition set_alerts (l : list alert_entry) (st : state) : state :=
  State l (alert_saves st) (watched_devices st) (automations st)
        (disk st) (threads st) (tick st).

Definition set_alert_saves (l : list save_record) (st : state) : state :=
  State (alerts st) l (watched_devices st) (automations st)
        (disk st) (threads st) (tick st).

Definition set_watched_devices (w : gmap pyval watch_entry) (st : state) : state :=
  State (alerts st) (alert_saves st) w (automations st)
        (disk st) (threads st) (tick st).

Definition set_disk (d : list (string * payload)) (st : state) : state :=
  State (alerts st) (alert_saves st) (watched_devices st) (automations st)
        d (threads st) (tick st).

Definition set_threads (t : list (alert_entry * device)) (st : state) : state :=
  State (alerts st) (alert_saves st) (watched_devices st) (automations st)
        (disk st) t (tick st).

Definition set_tick (n : nat) (st : state) : state :=
  State (alerts st) (alert_saves st) (watched_devices st) (automations st)
        (disk st) (threads st) n.

(** One interaction with the environment: the oracle is asked at the
    current tick, which then advances. *)
Definition ask {A} (oracle : nat -> A) : M A :=
  fun st => (Ok (oracle (tick st)), set_tick (S (tick st)) st).

(** [lst.insert(0, x)]; [lst.pop()]; [lst[:n]]; [lst[-n:]] *)
Definition insert0 {A} (x : A) (l : list A) : list A := x :: l.
Definition pop {A} (l : list A) : list A := removelast l.
Definition slice_to {A} (n : nat) (l : list A) : list A := firstn n l.
Definition slice_last {A} (n : nat) (l : list A) : list A :=
  skipn (length l - n) l.

(** The three rule checks of the watch policy, or-ed together. *)
Definition should_watch (rules : watch_rules) (atype : string) (phy : pyval) : bool :=
  (drone_alerts rules && String.eqb atype "drone")
  || (btle_alerts rules
      && (String.eqb atype "signal" || String.eqb atype "kismet")
      && (py_eq_str phy "BTLE" || py_eq_str phy "Bluetooth"))
  || (strong_signal rules && String.eqb atype "signal").

(** The device label of a save: the name, else the identifier. *)
Definition dev_name_of (device : option device) : pyval :=
  match device with
  | Some d =>
      if device_truthy d then
        py_or (dict_get (kismet_device_base_name d) (PStr ""))
              (dict_get (kismet_device_base_macaddr d) (PStr "unknown"))
      else PStr ""
  | None => PStr ""
  end.

Section Engine.

Variable E : env.

(** *** Watch policy *)

(** [_auto_watch_device(atype, device)] *)
Definition _auto_watch_device (atype : string) (device : option device) : M unit :=
  match device with
  | None => mret tt
  | Some device =>
      st ← get_state;
      let rules := auto_watch_rules (automations st) in
      let mac := dict_get (kismet_device_base_macaddr device) (PStr "") in
      if negb (truthy mac) || bool_decide (is_Some (watched_devices st !! mac))
      then mret tt
      else
        let phy := dict_get (kismet_device_base_phyname device) (PStr "") in
        if should_watch rules atype phy then
          let name := py_or (dict_get (kismet_device_base_name device) (PStr "")) mac in
          added_at ← ask (datetime_now_isoformat E);
          modify (fun st =>
            set_watched_devices
              (<[mac := WatchEntry mac name phy added_at (Some true)]>
                 (watched_devices st)) st)
        else mret tt
  end.

(** *** Alert store *)

(** [push_alert(atype, severity, title, body, device=None)].  The entry
    is built and stored under [ALERT_LOCK]; the watch policy then runs,
    and a save thread is started when a device is attached. *)
Definition push_alert (atype severity : string) (title body : pyval)
           (device : option device) : M unit :=
  ts ← ask (datetime_now_isoformat E);
  id ← ask (time_time_ms E);
  let alert_entry := AlertEntry ts atype severity title body id in
  modify (fun st =>
    let l := insert0 alert_entry (alerts st) in
    set_alerts (if (MAX_ALERTS <? length l)%nat then pop l else l) st);;
  _auto_watch_device atype device;;
  match device with
  | Some d => modify (fun st => set_threads (threads st ++ [(alert_entry, d)]) st)
  | None => mret tt
  end.

(** *** Detector set *)

(** The body of the keyword loop: [for kw in ...: if kw in combined:
    push_alert(...); break]. *)
Fixpoint keyword_loop (combined : string) (alert : string -> M unit)
         (keywords : list string) : M unit :=
  match keywords with
  | [] => mret tt
  | kw :: rest =>
      if PyStr.contains kw combined then alert kw
      else keyword_loop combined alert rest
  end.

(** [signal.get("kismet_common_signal_last_signal", -100)] *)
Definition signal_get (signal : signal_field) (dflt : pyval) : result pyval :=
  match signal with
  | SigDict last => Ok (dict_get last dflt)
  | SigVal v => Raise (no_attribute v "get")
  end.

(** The three rule blocks of the [try] body, in source order. *)

(** Drone keyword match in SSID or manuf. *)
Definition keyword_rule (dev : device) (ssid_map mac phy manuf last_signal : pyval)
           (combined : string) : M unit :=
  keyword_loop combined
    (fun kw =>
       push_alert "drone" "critical"
         (PStr ("🚁 Drone detected: " +:+ py_str (py_or ssid_map mac)))
         (PStr ("MAC: " +:+ py_str mac +:+ " | PHY: " +:+ py_str phy
                +:+ " | Manuf: " +:+ py_str manuf
                +:+ " | Signal: " +:+ py_str last_signal
                +:+ " dBm | Keyword matched: '" +:+ kw +:+ "'"))
         (Some dev))
    DRONE_KEYWORDS.

(** UAV PHY sighting. *)
Definition phy_rule (dev : device) (ssid_map mac phy manuf last_signal : pyval)
  : M unit :=
  if py_eq_str phy "UAV" then
    push_alert "drone" "critical"
      (PStr ("🚁 UAV PHY device: " +:+ py_str (py_or ssid_map mac)))
      (PStr ("MAC: " +:+ py_str mac +:+ " | Manuf: " +:+ py_str manuf
             +:+ " | Signal: " +:+ py_str last_signal +:+ " dBm"))
      (Some dev)
  else mret tt.

(** Unusually strong signal. *)
Definition signal_rule (dev : device) (ssid_map mac phy last_signal : pyval)
  : M unit :=
  strong ← lift (py_gt last_signal INTERESTING_SIGNAL);
  if (strong : bool) then
    push_alert "signal" "warning"
      (PStr ("📶 Strong signal: " +:+ py_str (py_or ssid_map mac)))
      (PStr ("MAC: " +:+ py_str mac +:+ " | Signal: " +:+ py_str last_signal
             +:+ " dBm | PHY: " +:+ py_str phy))
      (Some dev)
  else mret tt.

(** The body of the [try] block of [analyze_devices], for one element. *)
Definition analyze_device (dev : record) : M unit :=
  match dev with
  | RVal v => raise (no_attribute v "get")
  | RDict dev =>
      let ssid_map := dict_get (kismet_device_base_name dev) (PStr "") in
      let mac := dict_get (kismet_device_base_macaddr dev) (PStr "") in
      let phy := dict_get (kismet_device_base_phyname dev) (PStr "") in
      let signal := default (SigDict None) (kismet_device_base_signal dev) in
      last_signal ← lift (signal_get signal (PInt (-100)));
      let manuf := dict_get (kismet_device_base_manuf dev) (PStr "") in
      joined ← lift (py_add ssid_map (PStr " "));
      joined ← lift (py_add joined manuf);
      combined ← lift (py_lower joined);
      keyword_rule dev ssid_map mac phy manuf last_signal combined;;
      phy_rule dev ssid_map mac phy manuf last_signal;;
      signal_rule dev ssid_map mac phy last_signal
  end.

(** [analyze_devices(devices)] *)
Definition analyze_devices (devices : json_doc record) : M unit :=
  match devices with
  | JOther => mret tt
  | JList devices =>
      for_each devices
        (fun dev => try_except (analyze_device dev) (fun _ => mret tt))
  end.

(** *** Mirror poll of the upstream alert feed *)

(** The body of the loop of [poll_kismet_alerts], for one record. *)
Definition mirror_alert (a : upstream_alert) : M unit :=
  match a with
  | AVal v => raise (no_attribute v "get")
  | ADict severity header text =>
      low ← lift (py_lt (dict_get severity (PInt 5)) 10);
      push_alert "kismet"
        (if (low : bool) then "warning" else "info")
        (dict_get header (PStr "Kismet Alert"))
        (dict_get text (PStr ""))
        None
  end.

(** [poll_kismet_alerts()] *)
Definition poll_kismet_alerts : M unit :=
  try_except
    (fetched ← ask (kismet_get_alerts E);
     data ← lift fetched;
     match (data : json_doc upstream_alert) with
     | JList data => for_each (slice_last 20 data) mirror_alert
     | JOther => mret tt
     end)
    (fun e =>
       push_alert "error" "error" (PStr "Kismet alert poll failed")
         (PStr (exn_str e)) None).

(** *** Alert-save automation *)

(** [_sanitize_filename] applied to a value: iterating over a value that
    is not a string raises. *)
Definition sanitize_value (v : pyval) : result string :=
  match v with
  | PStr s => Ok (_sanitize_filename s)
  | _ => Raise (Exn "TypeError" ("'" +:+ type_name v +:+ "' object is not iterable"))
  end.

(** [bool(device)] for the optional argument. *)
Definition attached (device : option device) : bool :=
  match device with
  | Some d => device_truthy d
  | None => false
  end.

Definition traffic_key (k : string) : bool :=
  PyStr.contains "packet" (PyStr.lower k)
  || PyStr.contains "data" (PyStr.lower k)
  || PyStr.contains "crypt" (PyStr.lower k).

(** An oracle that may raise. *)
Definition ask_may_raise (oracle : nat -> option exn) : M unit :=
  failure ← ask oracle;
  match (failure : option exn) with
  | Some e => raise e
  | None => mret tt
  end.

(** [_save_alert_device(alert_entry, device=None)] *)
Definition _save_alert_device (alert_entry : alert_entry)
           (device : option device) : M unit :=
  st ← get_state;
  let auto := automations st in
  if negb (alert_save_enabled auto) then mret tt
  else if negb (save_device_details auto) && negb (save_device_traffic auto)
  then mret tt
  else if save_watched_only auto && attached device
          && negb (bool_decide (is_Some
               (watched_devices st
                  !! dict_get (device ≫= kismet_device_base_macaddr) (PStr ""))))
  then mret tt
  else
    ask_may_raise (mkdir_raises E);;
    ts_str ← ask (datetime_now_strftime E);
    let dev_name := dev_name_of device in
    let alert_type := alert_type alert_entry in
    part1 ← lift (sanitize_value (PStr alert_type));
    part2 ← lift (sanitize_value dev_name);
    let filename :=
      "alert_" +:+ part1 +:+ "_" +:+ part2 +:+ "_" +:+ ts_str +:+ ".json" in
    let out_file := join_path E (SAVE_DIR E) filename in
    let payload :=
      Payload ts_str alert_entry
        (if save_device_details auto && attached device then device else None)
        (if save_device_traffic auto && attached device
         then (fun d => List.filter (fun kv => traffic_key (fst kv)) (other_fields d))
                <$> device
         else None) in
    try_except
      (ask_may_raise (write_raises E);;
       modify (fun st => set_disk (disk st ++ [(out_file, payload)]) st);;
       modify (fun st =>
         set_alert_saves
           (insert0 (SaveRecord ts_str out_file alert_type dev_name true None)
                    (alert_saves st)) st);;
       modify (fun st => set_alert_saves (slice_to 100 (alert_saves st)) st))
      (fun e =>
         modify (fun st =>
           set_alert_saves
             (insert0 (SaveRecord ts_str out_file alert_type dev_name false
                                  (Some (exn_str e)))
                      (alert_saves st)) st)).

End Engine.

(** ** Notions used in the statements *)

(** The entry [push_alert] builds when called in state [st]: its
    timestamp and identifier are the next two answers of the clock. *)
Definition new_entry (E : env) (atype severity : string) (title body : pyval)
           (st : state) : alert_entry :=
  AlertEntry (datetime_now_isoformat E (tick st)) atype severity title body
             (time_time_ms E (S (tick st))).

(** The arguments of one call of [push_alert]. *)
Record push_call := PushCall {
  call_type : string;
  call_severity : string;
  call_title : pyval;
  call_body : pyval;
  call_device : option device
}.

Definition do_push (E : env) (c : push_call) : M unit :=
  push_alert E (call_type c) (call_severity c) (call_title c) (call_body c)
             (call_device c).

(** The entries built by a sequence of calls run from [st], newest first. *)
Fixpoint appended (E : env) (calls : list push_call) (st : state) : list alert_entry :=
  match calls with
  | [] => []
  | c :: rest =>
      appended E rest (exec (do_push E c) st)
      ++ [new_entry E (call_type c) (call_severity c) (call_title c) (call_body c) st]
  end.

(** The gates of the alert-save automation all pass. *)
Definition gates_pass (st : state) (device : option device) : bool :=
  let auto := automations st in
  alert_save_enabled auto
  && (save_device_details auto || save_device_traffic auto)
  && negb (save_watched_only auto && attached device
           && negb (bool_decide (is_Some
                (watched_devices st
                   !! dict_get (device ≫= kismet_device_base_macaddr) (PStr ""))))).

(** The watchlist entries held for one identifier. *)
Definition entries_for (mac : pyval) (w : gmap pyval watch_entry)
  : list (pyval * watch_entry) :=
  List.filter (fun kv => bool_decide (fst kv = mac)) (map_to_list w).

(** What the mirror poll makes of one upstream record. *)
Definition mirrored (a : upstream_alert) : string * string * pyval * pyval :=
  match a with
  | ADict severity header text =>
      ("kismet"%string,
       match dict_get severity (PInt 5) with
       | PInt z => if z <? 10 then "warning"%string else "info"%string
       | _ => "info"%string
       end,
       dict_get header (PStr "Kismet Alert"),
       dict_get text (PStr ""))
  | AVal _ => ("kismet"%string, "info"%string, PNone, PNone)
  end.

(** An upstream record the poll can mirror: a dict whose severity, when
    present, is an integer. *)
Definition mirrorable (a : upstream_alert) : Prop :=
  match a with
  | ADict (Some (PInt _)) _ _ => True
  | ADict None _ _ => True
  | _ => False
  end.

(** Category, severity, title and body of an entry. *)
Definition view (e : alert_entry) : string * string * pyval * pyval :=
  (alert_type e, alert_severity e, alert_title e, alert_body e).

(** The first keyword of the list that occurs in [combined]. *)
Definition first_keyword (combined : string) : option string :=
  List.find (fun kw => PyStr.contains kw combined) DRONE_KEYWORDS.

(** Every stored identifier is a reading of the millisecond clock taken
    before the current tick, and the store is ordered by identifier. *)
Definition ids_from_clock (E : env) (st : state) : Prop :=
  StronglySorted (fun newer older => alert_id older <= alert_id newer) (alerts st)
  /\ Forall (fun a => exists k, (k < tick st)%nat /\ alert_id a = time_time_ms E k)
            (alerts st).

(** The lower-cased text the keyword rule searches, as the code joins
    it: name, a blank, manufacturer. *)
Definition combined_of (name manuf : string) : string :=
  PyStr.lower ((name +:+ " ") +:+ manuf).

(** What the keyword rule and the PHY rule report for a record with the
    text fields [name] and [manuf], identifier [mac], link-layer tag
    [phy] and last signal [last_signal]: category, severity, title and
    body of the alert each raises, if any. *)
Definition keyword_views (name : string) (mac phy : pyval) (manuf : string)
           (last_signal : pyval) : list (string * string * pyval * pyval) :=
  match first_keyword (combined_of name manuf) with
  | Some kw =>
      [("drone"%string, "critical"%string,
        PStr ("🚁 Drone detected: " +:+ py_str (py_or (PStr name) mac)),
        PStr ("MAC: " +:+ py_str mac +:+ " | PHY: " +:+ py_str phy
              +:+ " | Manuf: " +:+ manuf
              +:+ " | Signal: " +:+ py_str last_signal
              +:+ " dBm | Keyword matched: '" +:+ kw +:+ "'"))]
  | None => []
  end.

Definition uav_views (name : string) (mac phy : pyval) (manuf : string)
           (last_signal : pyval) : list (string * string * pyval * pyval) :=
  if py_eq_str phy "UAV" then
    [("drone"%string, "critical"%string,
      PStr ("🚁 UAV PHY device: " +:+ py_str (py_or (PStr name) mac)),
      PStr ("MAC: " +:+ py_str mac +:+ " | Manuf: " +:+ manuf
            +:+ " | Signal: " +:+ py_str last_signal +:+ " dBm"))]
  else [].

(** The text searched if name and manufacturer were concatenated with
    nothing between them, as the specification words the keyword rule. *)
Definition concatenated (name manuf : string) : string :=
  PyStr.lower (name +:+ manuf).

(** The signal block is absent, or has no last-signal key. *)
Definition signal_absent (d : device) : Prop :=
  kismet_device_base_signal d = None
  \/ kismet_device_base_signal d = Some (SigDict None).

(** *** Concrete environments and inputs *)

Definition demo_env : env :=
  Env (fun n => "2026-02-24T14:00:00." +:+ pretty n)
      (fun n => "20260224_1400" +:+ pretty n)
      (fun n => 1771941600000 + Z.of_nat n)
      "kismet_saves"
      (fun dir name => dir +:+ "/" +:+ name)
      (fun _ => None) (fun _ => None)
      (fun _ => Ok (JList [])).

(** A clock that answers the same millisecond twice in a row. *)
Definition same_ms_env : env :=
  Env (datetime_now_isoformat demo_env) (datetime_now_strftime demo_env)
      (fun _ => 1771941600000)
      "kismet_saves"
      (join_path demo_env)
      (fun _ => None) (fun _ => None)
      (fun _ => Ok (JList [])).

(** A save directory that cannot be made. *)
Definition read_only_env : env :=
  Env (datetime_now_isoformat demo_env) (datetime_now_strftime demo_env)
      (time_time_ms demo_env)
      "kismet_saves"
      (join_path demo_env)
      (fun _ => Some (Exn "PermissionError" "[Errno 13] Permission denied"))
      (fun _ => None)
      (fun _ => Ok (JList [])).

(** A file system on which every write fails. *)
Definition disk_full_env : env :=
  Env (datetime_now_isoformat demo_env) (datetime_now_strftime demo_env)
      (time_time_ms demo_env)
      "kismet_saves"
      (join_path demo_env)
      (fun _ => None)
      (fun _ => Some (Exn "OSError" "[Errno 28] No space left on device"))
      (fun _ => Ok (JList [])).

Definition mavic : device :=
  Device (Some (PStr "DJI-Mavic-3-Pro")) (Some (PStr "60:60:1F:AA:BB:CC"))
         (Some (PStr "IEEE802.11")) (Some (PStr "DJI Technology"))
         (Some (SigDict (Some (PInt (-38)))))
         [("kismet_device_base_packets_total", PInt 34100)]%string.

(** A device at exactly the threshold, without a drone keyword. *)
Definition ring_doorbell : device :=
  Device (Some (PStr "Ring-Doorbell")) (Some (PStr "33:44:55:CC:DD:EE"))
         (Some (PStr "IEEE802.11")) (Some (PStr "Amazon"))
         (Some (SigDict (Some (PInt (-60)))))
         [("kismet_device_base_channel", PStr "6")]%string.

(** A device whose name ends and whose manufacturer starts inside a
    keyword. *)
Definition dj_i_corp : device :=
  Device (Some (PStr "DJ")) (Some (PStr "44:55:66:DD:EE:FF"))
         (Some (PStr "IEEE802.11")) (Some (PStr "I Corp"))
         (Some (SigDict (Some (PInt (-80)))))
         [].

(** A device whose record carries no signal block. *)
Definition parrot_no_signal : device :=
  Device (Some (PStr "Parrot-ANAFI")) (Some (PStr "90:3A:E6:DD:EE:FF"))
         (Some (PStr "UAV")) (Some (PStr "Parrot SA"))
         None [].

Definition info_call : push_call :=
  PushCall "save" "info" (PStr "Batch save complete") (PStr "kismet_saves") None.

Definition drone_alert : alert_entry :=
  AlertEntry "2026-02-24T14:00:00" "drone" "critical"
             (PStr "Drone detected: DJI-Mavic-3-Pro") (PStr "MAC: 60:60:1F:AA:BB:CC")
             1771941600000.

Definition old_save : save_record :=
  SaveRecord "20260224_130000" "kismet_saves/alert_drone_x_20260224_130000.json"
             "drone" (PStr "x") true None.

(** A state whose save log already holds 100 records. *)
Definition full_log_state : state :=
  set_alert_saves (repeat old_save 100) initial_state.

(** An upstream batch of 21 records with severities 0..20. *)
Definition batch21 : list upstream_alert :=
  List.map (fun n => ADict (Some (PInt (Z.of_nat n))) (Some (PStr "DEAUTHFLOOD"))
                           (Some (PStr ("alert " +:+ pretty n))))
           (seq 0 21).

Definition batch21_env : env :=
  Env (datetime_now_isoformat demo_env) (datetime_now_strftime demo_env)
      (time_time_ms demo_env)
      "kismet_saves"
      (join_path demo_env)
      (fun _ => None) (fun _ => None)
      (fun _ => Ok (JList batch21)).

(** What the engine leaves alone while it pushes alerts. *)
Definition frame (st st' : state) : Prop :=
  alert_saves st' = alert_saves st
  /\ automations st' = automations st
  /\ disk st' = disk st
  /\ (tick st <= tick st')%nat.

(** The store after one insertion at the head. *)
Definition stored (e : alert_entry) (l : list alert_entry) : list alert_entry :=
  if (MAX_ALERTS <? length (e :: l))%nat then removelast (e :: l) else e :: l.

(** ** Routes over the engine state *)

(** [lst[:n]] for a bound that may be negative: a negative bound counts
    from the end. *)
Definition py_slice_to {A} (n : Z) (l : list A) : list A :=
  if 0 <=? n then firstn (Z.to_nat n) l
  else firstn (length l - Z.to_nat (- n)) l.

(** [if arg:] for a query argument: it is given and not empty. *)
Definition query_arg (arg : option string) : option string :=
  match arg with
  | Some s => if String.eqb s "" then None else Some s
  | None => None
  end.

(** [api_alerts()]: [severity] and [atype] are the query arguments (absent
    is [None]); [limit] is what [int(request.args.get("limit", 100))]
    returns, [None] standing for the absent argument. *)
Definition api_alerts (severity atype : option string) (limit : option Z)
           (st : state) : list alert_entry :=
  let limit := default 100 limit in
  let alerts := alerts st in
  let alerts :=
    match query_arg severity with
    | Some severity =>
        List.filter (fun a => String.eqb (alert_severity a) severity) alerts
    | None => alerts
    end in
  let alerts :=
    match query_arg atype with
    | Some atype => List.filter (fun a => String.eqb (alert_type a) atype) alerts
    | None => alerts
    end in
  py_slice_to limit alerts.

(** [api_alerts_clear()] *)
Definition api_alerts_clear (st : state) : state := set_alerts [] st.

(** The JSON body of a watchlist POST. *)
Record watchlist_post := WatchlistPost {
  post_mac : option pyval;
  post_name : option pyval;
  post_phyname : option pyval
}.

(** The replies of the watchlist routes: [{"ok": False, "error": "MAC
    required"}] with status 400, or [{"ok": True, "watched": n}]. *)
Inductive watchlist_reply :=
| MacRequired
| Watched (n : nat).

(** A value of a flag in a JSON body: a JSON boolean, or another value. *)
Inductive json_flag :=
| FBool (b : bool)
| FVal (v : pyval).

(** [bool(x)] *)
Definition flag_truthy (x : json_flag) : bool :=
  match x with
  | FBool b => b
  | FVal v => truthy v
  end.

(** The value under ["auto_watch_rules"] in an automations POST: a dict
    with some of the three rule keys, or a value that is not a dict. *)
Inductive rules_field :=
| RulesDict (post_drone_alerts post_btle_alerts post_strong_signal : option json_flag)
| RulesOther.

(** The JSON body of an automations POST; an absent key is [None]. *)
Record automations_post := AutomationsPost {
  post_alert_save_enabled : option json_flag;
  post_save_device_details : option json_flag;
  post_save_device_traffic : option json_flag;
  post_save_watched_only : option json_flag;
  post_auto_watch_rules : option rules_field
}.

(** [if k in data: target = bool(data[k])] *)
Definition set_flag (given : option json_flag) (old : bool) : bool :=
  match given with
  | Some x => flag_truthy x
  | None => old
  end.

Definition set_automations (a : automations_cfg) (st : state) : state :=
  State (alerts st) (alert_saves st) (watched_devices st) a
        (disk st) (threads st) (tick st).

(** The POST branch of [api_automations()]. *)
Definition api_automations_post (data : automations_post) (st : state) : state :=
  let auto := automations st in
  let rules := auto_watch_rules auto in
  set_automations
    (Automations
       (set_flag (post_alert_save_enabled data) (alert_save_enabled auto))
       (set_flag (post_save_device_details data) (save_device_details auto))
       (set_flag (post_save_device_traffic data) (save_device_traffic auto))
       (set_flag (post_save_watched_only data) (save_watched_only auto))
       (match post_auto_watch_rules data with
        | Some (RulesDict drone btle strong) =>
            WatchRules (set_flag drone (drone_alerts rules))
                       (set_flag btle (btle_alerts rules))
                       (set_flag strong (strong_signal rules))
        | _ => rules
        end))
    st.

Section Routes.

Variable E : env.

(** [s.upper()].  Python's upper-casing can leave the first 256 code
    points, so it is a parameter of the routes that use it. *)
Variable upper : string -> string.

(** [v.upper()] *)
Definition py_upper (v : pyval) : result string :=
  match v with
  | PStr s => Ok (upper s)
  | _ => Raise (no_attribute v "upper")
  end.

(** [api_watchlist_add()] *)
Definition api_watchlist_add (data : watchlist_post) : M watchlist_reply :=
  mac ← lift (py_upper (dict_get (post_mac data) (PStr "")));
  if String.eqb (mac : string) "" then mret MacRequired
  else
    added_at ← ask (datetime_now_isoformat E);
    modify (fun st =>
      set_watched_devices
        (<[PStr mac := WatchEntry (PStr mac)
                         (dict_get (post_name data) (PStr ""))
                         (dict_get (post_phyname data) (PStr ""))
                         added_at None]>
           (watched_devices st)) st);;
    st ← get_state;
    mret (Watched (size (watched_devices st))).

(** [api_watchlist_remove(mac)] *)
Definition api_watchlist_remove (mac : string) : M watchlist_reply :=
  let mac := upper mac in
  modify (fun st =>
    set_watched_devices (delete (PStr mac) (watched_devices st)) st);;
  st ← get_state;
  mret (Watched (size (watched_devices st))).

End Routes.

(** Upper-casing of ASCII text, for concrete runs. *)
Definition ascii_upper (s : string) : string :=
  PyStr.map (fun c =>
               let n := N_of_ascii c in
               if PyStr.between 97 122 n then ascii_of_N (n - 32) else c) s.

(** ** Notions used in the further statements *)

(** What every detector and mirror run respects: the save log, the
    automation settings and the files are left alone, the clock only
    advances, watchlist entries are neither removed nor replaced, save
    threads are only started, and a store within capacity stays so. *)
Definition engine_grows (st st' : state) : Prop :=
  alert_saves st' = alert_saves st
  /\ automations st' = automations st
  /\ disk st' = disk st
  /\ (tick st <= tick st')%nat
  /\ watched_devices st ⊆ watched_devices st'
  /\ (exists started, threads st' = threads st ++ started)
  /\ ((length (alerts st) <= MAX_ALERTS)%nat ->
      (length (alerts st') <= MAX_ALERTS)%nat).

(** A field reads as text through [dev.get(key, "")]. *)
Definition reads_as_text (field : option pyval) : bool :=
  match dict_get field (PStr "") with
  | PStr _ => true
  | _ => false
  end.

(** An element of the device feed on which the [try] block reaches the
    detector rules: a dict whose name and manufacturer read as text and
    whose signal entry, when present, is a dict. *)
Definition readable (dev : record) : bool :=
  match dev with
  | RVal _ => false
  | RDict d =>
      reads_as_text (kismet_device_base_name d)
      && reads_as_text (kismet_device_base_manuf d)
      && match kismet_device_base_signal d with
         | Some (SigVal _) => false
         | _ => true
         end
  end.

(** The query of [api_alerts] as one predicate on an entry. *)
Definition matches (severity atype : option string) (a : alert_entry) : bool :=
  match query_arg severity with
  | Some s => String.eqb (alert_severity a) s
  | None => true
  end
  && match query_arg atype with
     | Some t => String.eqb (alert_type a) t
     | None => true
     end.

(** A run from [st] to [st'] whose alerts all carry a device: [started]
    are the save threads it started, oldest first, and the store has
    received exactly their entries. *)
Definition detector_run (st st' : state) (started : list (alert_entry * device))
  : Prop :=
  engine_grows st st'
  /\ threads st' = threads st ++ started
  /\ ((length (alerts st) <= MAX_ALERTS)%nat ->
      alerts st' = firstn MAX_ALERTS (rev (List.map fst started) ++ alerts st)).

(** A record with the UAV link-layer tag and no drone keyword. *)
Definition remote_id_beacon : device :=
  Device (Some (PStr "RemoteID-0x4F2A")) (Some (PStr "A0:B1:C2:D3:E4:F5"))
         (Some (PStr "UAV")) (Some (PStr "Unknown"))
         (Some (SigDict (Some (PInt (-71))))) [].

(** A record whose signal block carries a text instead of a number. *)
Definition mavic_text_signal : device :=
  Device (Some (PStr "DJI-Mavic-3-Pro")) (Some (PStr "60:60:1F:AA:BB:CC"))
         (Some (PStr "IEEE802.11")) (Some (PStr "DJI Technology"))
         (Some (SigDict (Some (PStr "-38")))) [].

(** A record whose name is a number. *)
Definition numeric_name : device :=
  Device (Some (PInt 7)) (Some (PStr "77:88:99:00:11:22")) None None None [].

(** A run that pushes alerts without a device: over [engine_grows], the
    watchlist and the threads are as before. *)
Definition mirror_run (st st' : state) : Prop :=
  watched_devices st' = watched_devices st
  /\ threads st' = threads st
  /\ engine_grows st st'.

(** The category, severity, title and body of the alert that reports a
    failed mirror poll. *)
Definition poll_failed_view (text : string) : string * string * pyval * pyval :=
  ("error"%string, "error"%string, PStr "Kismet alert poll failed", PStr text).

(** An upstream record on which the body of the mirror loop raises: a
    value that is not a dict (it has no [get]), or a dict whose severity
    is null or text (the comparison with 10 is a type error). *)
Definition unmirrorable (a : upstream_alert) : Prop :=
  match a with
  | AVal _ => True
  | ADict (Some PNone) _ _ => True
  | ADict (Some (PStr _)) _ _ => True
  | ADict (Some (PInt _)) _ _ => False
  | ADict None _ _ => False
  end.

(** An upstream feed that cannot be reached. *)
Definition feed_down_env : env :=
  Env (datetime_now_isoformat demo_env) (datetime_now_strftime demo_env)
      (time_time_ms demo_env)
      "kismet_saves"
      (join_path demo_env)
      (fun _ => None) (fun _ => None)
      (fun _ => Raise (Exn "ConnectionError" "Connection refused")).

(** A feed that answers a JSON object where a list is expected. *)
Definition feed_object_env : env :=
  Env (datetime_now_isoformat demo_env) (datetime_now_strftime demo_env)
      (time_time_ms demo_env)
      "kismet_saves"
      (join_path demo_env)
      (fun _ => None) (fun _ => None)
      (fun _ => Ok JOther).

(** An upstream batch whose second record has a null severity. *)
Definition batch_null_severity : list upstream_alert :=
  [ ADict (Some (PInt 3)) (Some (PStr "APSPOOF")) (Some (PStr "first"));
    ADict (Some PNone) (Some (PStr "BADRECORD")) (Some (PStr "second"));
    ADict (Some (PInt 15)) (Some (PStr "PROBECHAN")) (Some (PStr "third")) ].

Definition batch_null_severity_env : env :=
  Env (datetime_now_isoformat demo_env) (datetime_now_strftime demo_env)
      (time_time_ms demo_env)
      "kismet_saves"
      (join_path demo_env)
      (fun _ => None) (fun _ => None)
      (fun _ => Ok (JList batch_null_severity)).

(** A store of five entries, newest first: three critical, two info. *)
Definition five_alerts : list alert_entry :=
  [ AlertEntry "t5" "drone" "critical" (PStr "fifth") PNone 5;
    AlertEntry "t4" "save" "info" (PStr "fourth") PNone 4;
    AlertEntry "t3" "drone" "critical" (PStr "third") PNone 3;
    AlertEntry "t2" "kismet" "info" (PStr "second") PNone 2;
    AlertEntry "t1" "drone" "critical" (PStr "first") PNone 1 ]%string.

(** A manual watchlist request for the Mavic, in lower case. *)
Definition watch_mavic_post : watchlist_post :=
  WatchlistPost (Some (PStr "60:60:1f:aa:bb:cc")) (Some (PStr "Neighbour's drone"))
                (Some (PStr "IEEE802.11")).

(** An automations POST that names the master flag only. *)
Definition only_master (v : json_flag) : automations_post :=
  AutomationsPost (Some v) None None None None.

(** The name of the artifact of an alert save, under the save directory. *)
Definition artifact_path (E : env) (alert_type label ts_str : string) : string :=
  join_path E (SAVE_DIR E)
    ("alert_" +:+ _sanitize_filename alert_type +:+ "_"
       +:+ _sanitize_filename label +:+ "_" +:+ ts_str +:+ ".json").

(** The payload of an alert save, as [_save_alert_device] builds it. *)
Definition payload_of (auto : automations_cfg) (ts_str : string)
           (a : alert_entry) (device : option device) : payload :=
  Payload ts_str a
    (if save_device_details auto && attached device then device else None)
    (if save_device_traffic auto && attached device
     then (fun d => List.filter (fun kv => traffic_key (fst kv)) (other_fields d))
            <$> device
     else None).

(** A device whose name tries to leave the save directory. *)
Definition path_climber : device :=
  Device (Some (PStr "../../etc/cron.d/x")) (Some (PStr "DE:AD:BE:EF:00:01"))
         (Some (PStr "IEEE802.11")) (Some (PStr "DJI"))
         (Some (SigDict (Some (PInt (-40)))))
         [("kismet_device_base_packets_total", PInt 12);
          ("kismet_device_base_channel", PStr "6")]%string.

(** ** The application around the engine: configuration, batch saves,
    schedules *)

(** [s.rstrip(c)] for a one-character [c]. *)
Fixpoint rstrip (c : ascii) (s : string) : string :=
  match s with
  | EmptyString => EmptyString
  | String a s' =>
      match rstrip c s' with
      | EmptyString => if Ascii.eqb a c then EmptyString else String a EmptyString
      | String b r => String a (String b r)
      end
  end.

(** [v.rstrip("/")] *)
Definition py_rstrip_slash (v : pyval) : result string :=
  match v with
  | PStr s => Ok (rstrip "/" s)
  | _ => Raise (no_attribute v "rstrip")
  end.

(** [s.replace(" ", "_").lower()], the label a schedule saves under. *)
Definition schedule_label (name : string) : string :=
  PyStr.lower (PyStr.map (fun c => if Ascii.eqb c " " then "_"%char else c) name).

(** The last character of a text. *)
Fixpoint last_char (s : string) : option ascii :=
  match s with
  | EmptyString => None
  | String a EmptyString => Some a
  | String _ s' => last_char s'
  end.

(** A text made of [n] copies of [c]. *)
Fixpoint str_repeat (c : ascii) (n : nat) : string :=
  match n with
  | O => EmptyString
  | S n' => String c (str_repeat c n')
  end.

(** An entry of [state["save_log"]]. *)
Record batch_record := BatchRecord {
  log_ts : string;
  log_file : string;
  log_count : nat;
  log_ok : bool;
  log_error : option string
}.

(** An entry of [state["schedules"]]. *)
Record schedule := Schedule {
  schedule_id : string;
  schedule_name : pyval;
  schedule_interval_min : Z;
  schedule_enabled : bool;
  schedule_created : string
}.

(** A job held by the scheduler: the name its function will save under
    and its interval in minutes. *)
Record job := Job {
  job_name : pyval;
  job_minutes : Z
}.

(** The whole [state] dict: the engine part, the connection settings,
    the schedules and the batch-save bookkeeping; with it, the job store
    of the scheduler and the batch files written. *)
Record app_state := AppState {
  engine : state;
  kismet_url : string;
  api_key : pyval;
  username : pyval;
  password : pyval;
  schedules : list schedule;
  jobs : gmap string job;
  last_save : option string;
  save_log : list batch_record;
  last_error : option string;
  batch_files : list (string * (string * json_doc record))
}.

(** The environment of the application: that of the engine, and
    - [kismet_get_devices k], the outcome of
      [kismet_get("/devices/all_devices.ekjson")] at interaction [k];
    - [batch_write_raises k], whether the [open] / [json.dump] pair of a
      batch save raises;
    - [time_time_s k], the value of [int(time.time())];
    - [add_job_raises k], whether [scheduler.add_job] raises. *)
Record app_env := AppEnv {
  engine_env : env;
  kismet_get_devices : nat -> result (json_doc record);
  batch_write_raises : nat -> option exn;
  time_time_s : nat -> Z;
  add_job_raises : nat -> option exn
}.

Definition set_engine (e : state) (s : app_state) : app_state :=
  AppState e (kismet_url s) (api_key s) (username s) (password s) (schedules s)
           (jobs s) (last_save s) (save_log s) (last_error s) (batch_files s).

Definition set_kismet_url (u : string) (s : app_state) : app_state :=
  AppState (engine s) u (api_key s) (username s) (password s) (schedules s)
           (jobs s) (last_save s) (save_log s) (last_error s) (batch_files s).

Definition set_api_key (v : pyval) (s : app_state) : app_state :=
  AppState (engine s) (kismet_url s) v (username s) (password s) (schedules s)
           (jobs s) (last_save s) (save_log s) (last_error s) (batch_files s).

Definition set_username (v : pyval) (s : app_state) : app_state :=
  AppState (engine s) (kismet_url s) (api_key s) v (password s) (schedules s)
           (jobs s) (last_save s) (save_log s) (last_error s) (batch_files s).

Definition set_password (v : pyval) (s : app_state) : app_state :=
  AppState (engine s) (kismet_url s) (api_key s) (username s) v (schedules s)
           (jobs s) (last_save s) (save_log s) (last_error s) (batch_files s).

Definition set_schedules (l : list schedule) (s : app_state) : app_state :=
  AppState (engine s) (kismet_url s) (api_key s) (username s) (password s) l
           (jobs s) (last_save s) (save_log s) (last_error s) (batch_files s).

Definition set_jobs (j : gmap string job) (s : app_state) : app_state :=
  AppState (engine s) (kismet_url s) (api_key s) (username s) (password s)
           (schedules s) j (last_save s) (save_log s) (last_error s) (batch_files s).

Definition set_last_save (t : option string) (s : app_state) : app_state :=
  AppState (engine s) (kismet_url s) (api_key s) (username s) (password s)
           (schedules s) (jobs s) t (save_log s) (last_error s) (batch_files s).

Definition set_save_log (l : list batch_record) (s : app_state) : app_state :=
  AppState (engine s) (kismet_url s) (api_key s) (username s) (password s)
           (schedules s) (jobs s) (last_save s) l (last_error s) (batch_files s).

Definition set_last_error (e : option string) (s : app_state) : app_state :=
  AppState (engine s) (kismet_url s) (api_key s) (username s) (password s)
           (schedules s) (jobs s) (last_save s) (save_log s) e (batch_files s).

Definition set_batch_files (f : list (string * (string * json_doc record)))
           (s : app_state) : app_state :=
  AppState (engine s) (kismet_url s) (api_key s) (username s) (password s)
           (schedules s) (jobs s) (last_save s) (save_log s) (last_error s) f.

(** Computations over the whole state, with exceptions as before. *)
Definition MA (A : Type) : Type := app_state -> result A * app_state.

Definition app_ret {A} (a : A) : MA A := fun s => (Ok a, s).

Definition app_bind {A B} (m : MA A) (k : A -> MA B) : MA B :=
  fun s =>
    match m s with
    | (Ok a, s') => k a s'
    | (Raise e, s') => (Raise e, s')
    end.

#[global] Instance MA_ret : MRet MA := @app_ret.
#[global] Instance MA_bind : MBind MA := fun A B k m => app_bind m k.

Definition app_raise {A} (e : exn) : MA A := fun s => (Raise e, s).

Definition app_lift {A} (r : result A) : MA A := fun s => (r, s).

Definition app_modify (f : app_state -> app_state) : MA unit :=
  fun s => (Ok tt, f s).

Definition app_get : MA app_state := fun s => (Ok s, s).

(** [try: m  except Exception as e: h e] *)
Definition app_try_except {A} (m : MA A) (h : exn -> MA A) : MA A :=
  fun s =>
    match m s with
    | (Ok a, s') => (Ok a, s')
    | (Raise e, s') => h e s'
    end.

(** An engine computation run on the engine part of the state. *)
Definition on_engine {A} (m : M A) : MA A :=
  fun s => let (r, e) := m (engine s) in (r, set_engine e s).

Definition app_exec {A} (m : MA A) (s : app_state) : app_state := snd (m s).
Definition app_outcome {A} (m : MA A) (s : app_state) : result A := fst (m s).

(** The JSON body of a configuration POST; an absent key is [None]. *)
Record config_post := ConfigPost {
  cfg_kismet_url : option pyval;
  cfg_api_key : option pyval;
  cfg_username : option pyval;
  cfg_password : option pyval
}.

(** The address [kismet_get] and [kismet_post] request:
    [f"{state['kismet_url']}{path}"]. *)
Definition request_url (s : app_state) (path : string) : string :=
  kismet_url s +:+ path.

(** The POST branch of [api_config()]. *)
Definition api_config_post (data : config_post) : MA unit :=
  match cfg_kismet_url data with
  | Some v =>
      url ← app_lift (py_rstrip_slash v);
      app_modify (set_kismet_url url)
  | None => mret tt
  end;;
  match cfg_api_key data with
  | Some v => app_modify (set_api_key v)
  | None => mret tt
  end;;
  match cfg_username data with
  | Some v => app_modify (set_username v)
  | None => mret tt
  end;;
  match cfg_password data with
  | Some v => app_modify (set_password v)
  | None => mret tt
  end.

(** The GET branch of [api_config()]: the address, the masked key and
    the user name. *)
Definition api_config_get (s : app_state) : string * string * pyval :=
  (kismet_url s, if truthy (api_key s) then "***"%string else ""%string, username s).

(** [len(devices) if isinstance(devices, list) else 0] *)
Definition batch_count (devices : json_doc record) : nat :=
  match devices with
  | JList l => length l
  | JOther => 0%nat
  end.

Section Application.

Variable AE : app_env.

Let E : env := engine_env AE.

(** [do_save(label)] *)
Definition do_save (label : pyval) : MA unit :=
  on_engine (ask_may_raise (mkdir_raises E));;
  ts ← on_engine (ask (datetime_now_strftime E));
  let out_file :=
    join_path E (SAVE_DIR E) ("kismet_" +:+ py_str label +:+ "_" +:+ ts +:+ ".json") in
  app_try_except
    (fetched ← on_engine (ask (kismet_get_devices AE));
     devices ← app_lift fetched;
     on_engine (analyze_devices E devices);;
     let count := batch_count devices in
     on_engine (ask_may_raise (batch_write_raises AE));;
     app_modify (fun s => set_batch_files (batch_files s ++ [(out_file, (ts, devices))]) s);;
     app_modify (set_last_save (Some ts));;
     app_modify (fun s =>
       set_save_log (insert0 (BatchRecord ts out_file count true None) (save_log s)) s);;
     app_modify (fun s => set_save_log (slice_to 50 (save_log s)) s);;
     on_engine
       (push_alert E "save" "info"
          (PStr ("💾 Batch save complete: " +:+ pretty count +:+ " devices"))
          (PStr out_file) None))
    (fun e =>
       let err := exn_str e in
       app_modify (set_last_error (Some err));;
       app_modify (fun s =>
         set_save_log
           (insert0 (BatchRecord ts out_file 0 false (Some err)) (save_log s)) s);;
       on_engine (push_alert E "error" "error" (PStr "Batch save failed") (PStr err) None)).

(** [scheduler.remove_job(job_id)]: raises when there is no such job. *)
Definition scheduler_remove_job (job_id : string) : MA unit :=
  s ← app_get;
  match jobs s !! job_id with
  | Some _ => app_modify (set_jobs (delete job_id (jobs s)))
  | None =>
      app_raise (Exn "JobLookupError" ("No job by the id of " +:+ job_id +:+ " was found"))
  end.

(** [add_schedule(name, interval_min)] *)
Definition add_schedule (name : pyval) (interval_min : Z) : MA schedule :=
  now ← on_engine (ask (time_time_s AE));
  let job_id := "save_" +:+ pretty (now : Z) in
  on_engine (ask_may_raise (add_job_raises AE));;
  app_modify (fun s => set_jobs (<[job_id := Job name interval_min]> (jobs s)) s);;
  created ← on_engine (ask (datetime_now_isoformat E));
  let entry := Schedule job_id name interval_min true created in
  app_modify (fun s => set_schedules (schedules s ++ [entry]) s);;
  mret entry.

(** [remove_schedule(job_id)] *)
Definition remove_schedule (job_id : string) : MA unit :=
  app_try_except (scheduler_remove_job job_id) (fun _ => mret tt);;
  app_modify (fun s =>
    set_schedules
      (List.filter (fun sch => negb (String.eqb (schedule_id sch) job_id))
                   (schedules s)) s).

End Application.

(** The state at start-up: nothing scheduled, nothing saved. *)
Definition initial_app_state (url : string) (key user pass : pyval) : app_state :=
  AppState initial_state url key user pass [] ∅ None [] None [].


(** ** Notions for the application *)

(** The time stamp a batch save started in [s] takes, the path of its
    file, and the engine state after its analysis of [devices]. *)
Definition batch_stamp (AE : app_env) (s : app_state) : string :=
  datetime_now_strftime (engine_env AE) (S (tick (engine s))).

Definition batch_path (AE : app_env) (label : pyval) (s : app_state) : string :=
  join_path (engine_env AE) (SAVE_DIR (engine_env AE))
            ("kismet_" +:+ py_str label +:+ "_" +:+ batch_stamp AE s +:+ ".json").

Definition fetch_tick (s : app_state) : nat := S (S (tick (engine s))).

Definition scanned (AE : app_env) (devices : json_doc record) (s : app_state) : state :=
  exec (analyze_devices (engine_env AE) devices)
       (set_tick (S (fetch_tick s)) (engine s)).

(** The schedule list and the job store name the same identifiers. *)
Definition schedules_match_jobs (s : app_state) : Prop :=
  forall id, is_Some (jobs s !! id) <-> In id (List.map schedule_id (schedules s)).

(** The identifier [add_schedule] gives at second [now]. *)
Definition job_id_at (now : Z) : string := "save_" +:+ pretty now.

(** ** Requests and jobs, one after another *)

(** [name.replace(" ", "_").lower()] on a value. *)
Definition py_schedule_label (name : pyval) : result string :=
  match name with
  | PStr s => Ok (schedule_label s)
  | v => Raise (no_attribute v "replace")
  end.

(** The function of a scheduled job:
    [lambda: do_save(name.replace(" ", "_").lower())]. *)
Definition run_job (AE : app_env) (j : job) : MA unit :=
  label ← app_lift (py_schedule_label (job_name j));
  do_save AE (PStr label).

(** What can happen to the state: a route is called, a thread that was
    started runs, a job of the scheduler fires. *)
Inductive operation :=
| OpSave (label : pyval)
| OpRunJob (job_id : string)
| OpPoll
| OpAnalyze (data : json_doc record)
| OpClear
| OpSaveAlert (a : alert_entry) (device : option device)
| OpWatchAdd (data : watchlist_post)
| OpWatchRemove (mac : string)
| OpAutomations (data : automations_post)
| OpConfig (data : config_post)
| OpAddSchedule (name : pyval) (interval_min : Z)
| OpRemoveSchedule (job_id : string).

Section Operations.

Variable AE : app_env.
Variable upper : string -> string.

Let E : env := engine_env AE.

(** One operation, run to its end. *)
Definition perform (op : operation) : MA unit :=
  match op with
  | OpSave label => do_save AE label
  | OpRunJob job_id =>
      s ← app_get;
      match jobs s !! job_id with
      | Some j => run_job AE j
      | None => mret tt
      end
  | OpPoll => on_engine (poll_kismet_alerts E)
  | OpAnalyze data => on_engine (analyze_devices E data)
  | OpClear => app_modify (fun s => set_engine (api_alerts_clear (engine s)) s)
  | OpSaveAlert a device => on_engine (_save_alert_device E a device)
  | OpWatchAdd data => on_engine (api_watchlist_add E upper data);; mret tt
  | OpWatchRemove mac => on_engine (api_watchlist_remove upper mac);; mret tt
  | OpAutomations data =>
      app_modify (fun s => set_engine (api_automations_post data (engine s)) s)
  | OpConfig data => api_config_post data
  | OpAddSchedule name interval_min => add_schedule AE name interval_min;; mret tt
  | OpRemoveSchedule job_id => remove_schedule job_id
  end.

(** Operations run one after another; one that raises ends alone, the
    next starts from the state it left. *)
Definition perform_all (ops : list operation) (s : app_state) : app_state :=
  fold_left (fun s op => app_exec (perform op) s) ops s.

End Operations.

(** The alert store is within capacity, and the schedule list and the
    scheduler name the same identifiers. *)
Definition healthy (s : app_state) : Prop :=
  (length (alerts (engine s)) <= MAX_ALERTS)%nat /\ schedules_match_jobs s.

(** ** Concrete inputs for the application *)

(** An application whose feed lists two devices and whose clock reads
    second 1771941600. *)
Definition depot_env : app_env :=
  AppEnv demo_env
         (fun _ => Ok (JList [RDict mavic; RDict ring_doorbell]))
         (fun _ => None)
         (fun _ => 1771941600)
         (fun _ => None).

Definition depot_state : app_state :=
  initial_app_state "http://localhost:2501" PNone (PStr "kismet") (PStr "kismet").

(** The same application with the feed down. *)
Definition offline_env : app_env :=
  AppEnv demo_env
         (fun _ => Raise (Exn "ConnectionError" "Connection refused"))
         (fun _ => None)
         (time_time_s depot_env)
         (fun _ => None).

(** The same application with a disk that cannot be written. *)
Definition full_disk_env : app_env :=
  AppEnv demo_env
         (kismet_get_devices depot_env)
         (fun _ => Some (Exn "OSError" "[Errno 28] No space left on device"))
         (time_time_s depot_env)
         (fun _ => None).

(** The same application whose save directory cannot be made. *)
Definition no_dir_env : app_env :=
  AppEnv read_only_env
         (kismet_get_devices depot_env)
         (fun _ => None)
         (time_time_s depot_env)
         (fun _ => None).

(** ** Strings *)

Lemma forallb_take p n s :
  PyStr.forallb p s = true -> PyStr.forallb p (PyStr.take n s) = true.
Proof.
  revert n; induction s as [|c s IH]; intros [|n]; simpl; auto.
  intros [Hc Hs]%andb_prop. rewrite Hc. simpl. auto.
Qed.

Lemma str_length_take n s :
  String.length (PyStr.take n s) = Nat.min n (String.length s).
Proof.
  revert n; induction s as [|c s IH]; intros [|n]; simpl; auto.
Qed.

Lemma str_length_map f s : String.length (PyStr.map f s) = String.length s.
Proof. induction s; simpl; auto. Qed.

Lemma get_take n i s :
  (i < n)%nat -> String.get i (PyStr.take n s) = String.get i s.
Proof.
  revert n i; induction s as [|c s IH]; intros [|n] [|i] H; simpl; auto; try lia.
  apply IH; lia.
Qed.

Lemma get_map f i s :
  String.get i (PyStr.map f s) = f <$> String.get i s.
Proof.
  revert i; induction s as [|c s IH]; intros [|i]; simpl; auto.
Qed.

Lemma startswith_app p s : PyStr.startswith p (p +:+ s) = true.
Proof.
  induction p as [|c p IH]; simpl; auto.
  rewrite Ascii.eqb_refl. exact IH.
Qed.

Lemma contains_startswith sub s :
  PyStr.startswith sub s = true -> PyStr.contains sub s = true.
Proof. intros H. destruct s; simpl; rewrite H; reflexivity. Qed.

Lemma contains_app_r a sub b : PyStr.contains sub (a +:+ sub +:+ b) = true.
Proof.
  induction a as [|c a IH].
  - change (PyStr.contains sub (sub +:+ b) = true).
    apply contains_startswith, startswith_app.
  - simpl. change (String.append a (String.append sub b)) with (a +:+ sub +:+ b).
    rewrite IH. apply orb_true_r.
Qed.

(** ** Filename sanitisation *)

Lemma forallb_map p f s :
  (forall c, p (f c) = true) -> PyStr.forallb p (PyStr.map f s) = true.
Proof.
  intros H. induction s as [|c s IH]; simpl; auto.
  rewrite H, IH. reflexivity.
Qed.

Lemma sanitize_safe s :
  PyStr.forallb filename_safe (_sanitize_filename s) = true.
Proof.
  unfold _sanitize_filename. apply forallb_take, forallb_map.
  intros c. destruct (filename_safe c) eqn:Hc; [exact Hc | vm_compute; reflexivity].
Qed.

(** C9, as the code has it: every character of the result is
    alphanumeric, a hyphen or an underscore; the result keeps the first 80
    positions of the input (so its length is at most 80); and a character
    outside the safe set is not dropped but replaced, in place, by an
    underscore. *)
Theorem sanitize_filename_replaces (s : string) :
  PyStr.forallb filename_safe (_sanitize_filename s) = true
  /\ String.length (_sanitize_filename s) = Nat.min 80 (String.length s)
  /\ (String.length (_sanitize_filename s) <= 80)%nat
  /\ forall i c, (i < 80)%nat -> String.get i s = Some c ->
       String.get i (_sanitize_filename s)
       = Some (if filename_safe c then c else "_"%char).
Proof.
  split; [apply sanitize_safe|].
  assert (Hlen : String.length (_sanitize_filename s) = Nat.min 80 (String.length s)).
  { unfold _sanitize_filename. rewrite str_length_take, str_length_map. reflexivity. }
  split; [exact Hlen|]. split; [lia|].
  intros i c Hi Hget. unfold _sanitize_filename.
  rewrite get_take by exact Hi. rewrite get_map, Hget. reflexivity.
Qed.

Lemma sanitize_filename_replaces_witness :
  String.get 1 (_sanitize_filename "a b") = Some "_"%char.
Proof.
  apply (proj2 (proj2 (proj2 (sanitize_filename_replaces "a b"))) 1%nat " "%char);
    [lia | vm_compute; reflexivity].
Defined.

(** C9, as the claim has it, fails: an unsafe character is not removed.
    The blank of ["a b"] becomes an underscore, where stripping would
    give ["ab"]. *)
Lemma sanitize_filename_keeps_positions :
  _sanitize_filename "a b" = "a_b"%string
  /\ strip_then_cap "a b" = "ab"%string
  /\ _sanitize_filename "a b" <> strip_then_cap "a b".
Proof.
  assert (H1 : _sanitize_filename "a b" = "a_b"%string) by (vm_compute; reflexivity).
  assert (H2 : strip_then_cap "a b" = "ab"%string) by (vm_compute; reflexivity).
  split; [exact H1|]. split; [exact H2|].
  rewrite H1, H2. discriminate.
Qed.

(** ** The bounded store *)

Ltac state_fields :=
  cbn [fst snd alerts alert_saves watched_devices automations disk threads tick
       set_alerts set_alert_saves set_watched_devices set_disk set_threads
       set_tick] in *.

Ltac run_monad :=
  unfold ask_may_raise in *;
  unfold mbind, M_bind, bind, mret, M_ret, ret, modify, ask, get_state, lift,
         raise, try_except in *;
  state_fields.

Lemma cap_insert {A} (n : nat) (e : A) (l : list A) :
  (length l <= n)%nat ->
  (if (n <? length (e :: l))%nat then removelast (e :: l) else e :: l)
  = firstn n (e :: l).
Proof.
  intros Hle. destruct (Nat.ltb_spec n (length (e :: l))) as [Hlt|Hge].
  - rewrite removelast_firstn_len.
    cbn [length] in *. f_equal. lia.
  - symmetry. apply firstn_all2. exact Hge.
Qed.

Lemma firstn_app_firstn {A} (m n : nat) (a l : list A) :
  (m <= n)%nat -> firstn m (a ++ firstn n l) = firstn m (a ++ l).
Proof.
  revert m; induction a as [|x a IH]; intros m Hmn.
  - cbn [app]. rewrite firstn_firstn. f_equal. lia.
  - destruct m as [|m]; [reflexivity|].
    cbn [app firstn]. f_equal. apply IH. lia.
Qed.

Lemma stored_firstn e l :
  (length l <= MAX_ALERTS)%nat -> stored e l = firstn MAX_ALERTS (e :: l).
Proof. apply cap_insert. Qed.

Lemma stored_length e l :
  (length l <= MAX_ALERTS)%nat -> (length (stored e l) <= MAX_ALERTS)%nat.
Proof.
  intros H. rewrite stored_firstn by exact H. apply firstn_le_length.
Qed.

Lemma stored_at_capacity e l :
  length l = MAX_ALERTS -> stored e l = e :: removelast l.
Proof.
  intros H. unfold stored.
  destruct (Nat.ltb_spec MAX_ALERTS (length (e :: l))) as [_|Hge].
  - destruct l as [|x l]; [discriminate H | reflexivity].
  - cbn [length] in Hge. lia.
Qed.

Lemma stored_below_capacity e l :
  (length l < MAX_ALERTS)%nat -> stored e l = e :: l.
Proof.
  intros H. unfold stored.
  destruct (Nat.ltb_spec MAX_ALERTS (length (e :: l))) as [Hlt|_]; [|reflexivity].
  cbn [length] in Hlt. lia.
Qed.

Lemma In_removelast {A} (x : A) (l : list A) : In x (removelast l) -> In x l.
Proof.
  induction l as [|a l IH]; [auto|].
  destruct l as [|b l]; [intros []|].
  intros [H|H]; [left; exact H | right; apply IH, H].
Qed.

Lemma stored_incl e l x : In x (stored e l) -> x = e \/ In x l.
Proof.
  unfold stored.
  destruct (MAX_ALERTS <? length (e :: l))%nat; intros H.
  - apply In_removelast in H. destruct H; auto.
  - destruct H; auto.
Qed.

Lemma stored_head e l : hd_error (stored e l) = Some e.
Proof.
  unfold stored. destruct (Nat.ltb_spec MAX_ALERTS (length (e :: l))) as [Hlt|_];
    [|reflexivity].
  destruct l as [|x l]; [|reflexivity].
  cbn [length] in Hlt. unfold MAX_ALERTS in Hlt. lia.
Qed.

Lemma frame_refl st : frame st st.
Proof. unfold frame; auto. Qed.

Lemma frame_trans st1 st2 st3 : frame st1 st2 -> frame st2 st3 -> frame st1 st3.
Proof.
  unfold frame. intros (a1 & b1 & c1 & d1) (a2 & b2 & c2 & d2).
  repeat split; try congruence. lia.
Qed.

(** The watch policy always returns, and touches the watchlist and the
    clock only. *)
Lemma auto_watch_run E atype device st :
  exists st', _auto_watch_device E atype device st = (Ok tt, st')
              /\ alerts st' = alerts st
              /\ threads st' = threads st
              /\ frame st st'.
Proof.
  unfold _auto_watch_device. destruct device as [d|].
  - run_monad.
    repeat match goal with
           | |- context [if ?b then _ else _] => destruct b
           end;
      eexists; (split; [reflexivity|]); unfold frame; cbn; auto 10.
  - exists st. split; [reflexivity|]. auto using frame_refl.
Qed.

(** One call of [push_alert] always returns; the store receives the new
    entry at its head and is cut back to the capacity. *)
Lemma push_alert_run E atype severity title body device st :
  exists st', push_alert E atype severity title body device st = (Ok tt, st')
              /\ alerts st' = stored (new_entry E atype severity title body st) (alerts st)
              /\ frame st st'
              /\ (tick st + 2 <= tick st')%nat.
Proof.
  unfold push_alert. run_monad.
  match goal with
  | |- context [_auto_watch_device E atype device ?s] =>
      destruct (auto_watch_run E atype device s) as (st3 & Heq & Ha & Ht & Hf);
      rewrite Heq
  end.
  cbn in Ha. destruct Hf as (f1 & f2 & f3 & f4). cbn in f1, f2, f3, f4.
  destruct device as [d|]; eexists; (split; [reflexivity|]);
    unfold frame, stored, new_entry; cbn; rewrite Ha;
    (split; [reflexivity|]); repeat split; auto; lia.
Qed.

Lemma for_each_cons {A} (x : A) xs body st :
  for_each (x :: xs) body st
  = match body x st with
    | (Ok _, st') => for_each xs body st'
    | (Raise e, st') => (Raise e, st')
    end.
Proof. reflexivity. Qed.

Lemma do_push_run E c st :
  exists st', do_push E c st = (Ok tt, st')
              /\ alerts st' = stored (new_entry E (call_type c) (call_severity c)
                                                (call_title c) (call_body c) st)
                                     (alerts st)
              /\ frame st st'
              /\ (tick st + 2 <= tick st')%nat.
Proof. apply push_alert_run. Qed.

(** C1: the store never holds more than [MAX_ALERTS] = 500 entries.  For
    every sequence of appends run from a store within capacity, all the
    appends return, the store is still within capacity, and it holds the
    newest 500 of the inserted and earlier entries, newest first; an
    append made at capacity drops exactly the tail entry and keeps the
    others in their order. *)
Theorem alert_store_bounded (E : env) (calls : list push_call) (st : state) :
  (length (alerts st) <= MAX_ALERTS)%nat ->
  let st' := exec (for_each calls (do_push E)) st in
  outcome (for_each calls (do_push E)) st = Ok tt
  /\ (length (alerts st') <= MAX_ALERTS)%nat
  /\ alerts st' = firstn MAX_ALERTS (appended E calls st ++ alerts st)
  /\ forall c, length (alerts st') = MAX_ALERTS ->
       alerts (exec (do_push E c) st')
       = new_entry E (call_type c) (call_severity c) (call_title c) (call_body c) st'
         :: removelast (alerts st').
Proof.
  intros Hcap. cbv zeta.
  assert (Hrun : outcome (for_each calls (do_push E)) st = Ok tt
                 /\ alerts (exec (for_each calls (do_push E)) st)
                    = firstn MAX_ALERTS (appended E calls st ++ alerts st)).
  { revert st Hcap. induction calls as [|c rest IH]; intros st Hcap.
    - split; [reflexivity|].
      cbn [appended app]. symmetry. apply firstn_all2. exact Hcap.
    - destruct (do_push_run E c st) as (st1 & Hpush & Halerts & _ & _).
      assert (Hcap1 : (length (alerts st1) <= MAX_ALERTS)%nat).
      { rewrite Halerts. apply stored_length, Hcap. }
      destruct (IH st1 Hcap1) as [Hok Hst].
      unfold outcome, exec in *. rewrite for_each_cons, Hpush.
      split; [exact Hok|].
      rewrite Hst. cbn [appended]. unfold exec. rewrite Hpush. cbn [snd].
      rewrite Halerts, stored_firstn by exact Hcap.
      rewrite firstn_app_firstn by lia.
      rewrite <- app_assoc. reflexivity. }
  destruct Hrun as [Hok Hst].
  split; [exact Hok|]. split; [rewrite Hst; apply firstn_le_length|].
  split; [exact Hst|].
  intros c Hfull.
  destruct (do_push_run E c (exec (for_each calls (do_push E)) st))
    as (st2 & Hpush & Halerts & _ & _).
  unfold exec at 1. rewrite Hpush. cbn [snd].
  rewrite Halerts. apply stored_at_capacity, Hfull.
Qed.

Lemma alert_store_bounded_witness :
  (length (alerts initial_state) <= MAX_ALERTS)%nat
  /\ (length (alerts (exec (for_each [info_call; info_call] (do_push demo_env))
                           initial_state)) <= MAX_ALERTS)%nat.
Proof.
  split; [vm_compute; lia|].
  apply (alert_store_bounded demo_env [info_call; info_call] initial_state).
  vm_compute; lia.
Defined.

(** ** Identifiers *)

Lemma Forall_removelast {A} (P : A -> Prop) (l : list A) :
  Forall P l -> Forall P (removelast l).
Proof.
  rewrite !List.Forall_forall. intros H x Hx. apply H, In_removelast, Hx.
Qed.

Lemma StronglySorted_removelast {A} (R : A -> A -> Prop) (l : list A) :
  StronglySorted R l -> StronglySorted R (removelast l).
Proof.
  induction 1 as [|a l Hs IH Hall]; [constructor|].
  destruct l as [|b l]; [constructor|].
  change (removelast (a :: b :: l)) with (a :: removelast (b :: l)).
  constructor; [exact IH | apply Forall_removelast, Hall].
Qed.

Lemma ids_from_clock_push E c st st' :
  (forall i j, (i <= j)%nat -> time_time_ms E i <= time_time_ms E j) ->
  ids_from_clock E st ->
  do_push E c st = (Ok tt, st') ->
  ids_from_clock E st'.
Proof.
  intros Hmono [Hsorted Hall] Hpush.
  destruct (do_push_run E c st) as (st1 & Hpush1 & Halerts & _ & Htick).
  rewrite Hpush in Hpush1. injection Hpush1 as <-.
  set (e := new_entry E (call_type c) (call_severity c) (call_title c)
                      (call_body c) st) in *.
  assert (Hall' : Forall (fun a => exists k, (k < tick st')%nat
                                             /\ alert_id a = time_time_ms E k)
                         (e :: alerts st)).
  { constructor.
    - exists (S (tick st)). split; [lia | reflexivity].
    - eapply List.Forall_impl; [|exact Hall].
      intros a (k & Hk & Ha). exists k. split; [lia | exact Ha]. }
  assert (Hsorted' : StronglySorted (fun newer older => alert_id older <= alert_id newer)
                                    (e :: alerts st)).
  { constructor; [exact Hsorted|].
    eapply List.Forall_impl; [|exact Hall].
    intros a (k & Hk & Ha). rewrite Ha. cbn. apply Hmono. lia. }
  unfold ids_from_clock. rewrite Halerts. unfold stored.
  destruct (MAX_ALERTS <? length (e :: alerts st))%nat.
  - split; [apply StronglySorted_removelast, Hsorted'
           | apply Forall_removelast, Hall'].
  - split; assumption.
Qed.

(** C7, as the code has it: an identifier is the millisecond clock
    reading taken when the entry is built.  When the clock never runs
    backwards, the identifiers of the store are ordered, newest first,
    but only weakly: a later entry has an identifier greater than or
    equal to that of every earlier one. *)
Theorem alert_ids_nondecreasing (E : env) (calls : list push_call) :
  (forall i j, (i <= j)%nat -> time_time_ms E i <= time_time_ms E j) ->
  let st' := exec (for_each calls (do_push E)) initial_state in
  StronglySorted (fun newer older => alert_id older <= alert_id newer) (alerts st')
  /\ Forall (fun a => exists k, alert_id a = time_time_ms E k) (alerts st').
Proof.
  intros Hmono. cbv zeta.
  assert (Hinv : ids_from_clock E (exec (for_each calls (do_push E)) initial_state)).
  { assert (H0 : ids_from_clock E initial_state) by (split; constructor).
    revert H0. generalize initial_state.
    induction calls as [|c rest IH]; intros st Hst; [exact Hst|].
    destruct (do_push_run E c st) as (st1 & Hpush & _).
    unfold exec. rewrite for_each_cons, Hpush.
    apply IH. eapply ids_from_clock_push; eauto. }
  destruct Hinv as [Hs Ha]. split; [exact Hs|].
  eapply List.Forall_impl; [|exact Ha]. intros a (k & _ & Hk). eauto.
Qed.

Lemma alert_ids_nondecreasing_witness :
  (forall i j, (i <= j)%nat -> time_time_ms demo_env i <= time_time_ms demo_env j)
  /\ StronglySorted (fun newer older => alert_id older <= alert_id newer)
       (alerts (exec (for_each [info_call; info_call] (do_push demo_env))
                     initial_state)).
Proof.
  assert (H : forall i j, (i <= j)%nat ->
                time_time_ms demo_env i <= time_time_ms demo_env j).
  { intros i j Hij. cbn. lia. }
  split; [exact H|].
  apply (alert_ids_nondecreasing demo_env [info_call; info_call] H).
Defined.

(** C7, as the claim has it, fails: two entries appended within the same
    millisecond carry the same identifier, so the later one is not
    strictly greater. *)
Lemma alert_ids_not_strict :
  exists later earlier,
    alerts (exec (for_each [info_call; info_call] (do_push same_ms_env))
                 initial_state) = [later; earlier]
    /\ ~ (alert_id earlier < alert_id later).
Proof.
  eexists _, _. split; [vm_compute; reflexivity|].
  cbn. lia.
Qed.

(** ** Alert-save automation *)

Lemma gates_pass_inv st device :
  gates_pass st device = true ->
  alert_save_enabled (automations st) = true
  /\ negb (save_device_details (automations st))
     && negb (save_device_traffic (automations st)) = false
  /\ save_watched_only (automations st) && attached device
     && negb (bool_decide (is_Some
          (watched_devices st
             !! dict_get (device ≫= kismet_device_base_macaddr) (PStr ""))))
     = false.
Proof.
  unfold gates_pass. cbv zeta.
  intros [[H1 H2]%andb_prop H3]%andb_prop.
  split; [exact H1|]. split.
  - destruct (save_device_details (automations st)),
             (save_device_traffic (automations st)); auto.
  - apply negb_true_iff in H3. exact H3.
Qed.




(** C6 fails on the failure path: the success branch cuts the log back to
    100 records, the [except] branch inserts its record and does not.
    With 100 records in the log and a write that fails, the log holds 101
    records after the attempt. *)
Theorem save_log_grows_on_failure :
  gates_pass full_log_state (Some mavic) = true
  /\ length (alert_saves full_log_state) = 100%nat
  /\ outcome (_save_alert_device disk_full_env drone_alert (Some mavic))
             full_log_state = Ok tt
  /\ length (alert_saves
               (exec (_save_alert_device disk_full_env drone_alert (Some mavic))
                     full_log_state)) = 101%nat.
Proof. repeat split; vm_compute; reflexivity. Qed.

(** ** Watch policy *)

Lemma auto_watch_exec E atype d st :
  let mac := dict_get (kismet_device_base_macaddr d) (PStr "") in
  let phy := dict_get (kismet_device_base_phyname d) (PStr "") in
  let name := py_or (dict_get (kismet_device_base_name d) (PStr "")) mac in
  _auto_watch_device E atype (Some d) st
  = (Ok tt,
     if negb (truthy mac) || bool_decide (is_Some (watched_devices st !! mac))
     then st
     else if should_watch (auto_watch_rules (automations st)) atype phy
          then set_watched_devices
                 (<[mac := WatchEntry mac name phy
                             (datetime_now_isoformat E (tick st)) (Some true)]>
                    (watched_devices st))
                 (set_tick (S (tick st)) st)
          else st).
Proof.
  cbv zeta. unfold _auto_watch_device. run_monad.
  repeat match goal with
         | |- context [if ?b then _ else _] => destruct b
         end; reflexivity.
Qed.

Lemma filter_length_perm {A} (f : A -> bool) (l l' : list A) :
  Permutation l l' -> length (List.filter f l) = length (List.filter f l').
Proof.
  induction 1 as [|x l l' _ IH|x y l|l l' l'' _ IH1 _ IH2]; cbn [List.filter].
  - reflexivity.
  - destruct (f x); cbn [length]; congruence.
  - destruct (f x), (f y); reflexivity.
  - congruence.
Qed.

Lemma entries_for_length mac (w : gmap pyval watch_entry) :
  length (entries_for mac w)
  = match w !! mac with Some _ => 1%nat | None => 0%nat end.
Proof.
  unfold entries_for.
  induction w as [|k v w Hk IH] using map_ind.
  - rewrite map_to_list_empty, lookup_empty. reflexivity.
  - rewrite (filter_length_perm _ _ ((k, v) :: map_to_list w))
      by (apply map_to_list_insert, Hk).
    cbn [List.filter fst].
    destruct (decide (k = mac)) as [->|Hne].
    + rewrite bool_decide_eq_true_2 by reflexivity.
      rewrite lookup_insert_eq. cbn [length]. rewrite IH, Hk. reflexivity.
    + rewrite bool_decide_eq_false_2 by exact Hne.
      rewrite lookup_insert_ne by exact Hne. exact IH.
Qed.

(** C5: the watch policy is idempotent per device identifier.  Without a
    device, or with the identifier of the device already in the
    watchlist, the call changes nothing; calling it again any number of
    times gives the state of the first call; the watchlist never holds
    more than one entry for the identifier, and holds exactly one once
    the policy applies to the device (a rule fires for it, or it was
    watched before). *)
Theorem auto_watch_idempotent (E : env) (atype : string) (d : device) (st : state) :
  let mac := dict_get (kismet_device_base_macaddr d) (PStr "") in
  let phy := dict_get (kismet_device_base_phyname d) (PStr "") in
  let watch := exec (_auto_watch_device E atype (Some d)) in
  _auto_watch_device E atype None st = (Ok tt, st)
  /\ (is_Some (watched_devices st !! mac) ->
      _auto_watch_device E atype (Some d) st = (Ok tt, st))
  /\ (forall n, Nat.iter (S n) watch st = watch st)
  /\ (forall n, (length (entries_for mac (watched_devices (Nat.iter n watch st)))
                 <= 1)%nat)
  /\ (truthy mac = true ->
      should_watch (auto_watch_rules (automations st)) atype phy = true
      \/ is_Some (watched_devices st !! mac) ->
      forall n, length (entries_for mac
                          (watched_devices (Nat.iter (S n) watch st))) = 1%nat).
Proof.
  cbv zeta.
  set (mac := dict_get (kismet_device_base_macaddr d) (PStr "")).
  set (phy := dict_get (kismet_device_base_phyname d) (PStr "")).
  set (watch := exec (_auto_watch_device E atype (Some d))).
  assert (Hnoop : forall s, is_Some (watched_devices s !! mac) ->
                            _auto_watch_device E atype (Some d) s = (Ok tt, s)).
  { intros s Hs. rewrite auto_watch_exec. fold mac.
    rewrite (bool_decide_eq_true_2 _ Hs), orb_true_r. reflexivity. }
  assert (Htwice : forall s, watch (watch s) = watch s).
  { intros s. unfold watch at 2 3. unfold exec. rewrite auto_watch_exec.
    fold mac phy. cbn [snd].
    destruct (negb (truthy mac) || bool_decide (is_Some (watched_devices s !! mac)))
      eqn:Hc.
    - unfold watch, exec. rewrite auto_watch_exec. fold mac. rewrite Hc. reflexivity.
    - destruct (should_watch (auto_watch_rules (automations s)) atype phy) eqn:Hw.
      + unfold watch, exec. rewrite Hnoop; [reflexivity|].
        state_fields. rewrite lookup_insert_eq. eauto.
      + unfold watch, exec. rewrite auto_watch_exec. fold mac phy.
        rewrite Hc, Hw. reflexivity. }
  assert (Hiter : forall n, Nat.iter (S n) watch st = watch st).
  { induction n as [|n IH]; [reflexivity|].
    change (Nat.iter (S (S n)) watch st) with (watch (Nat.iter (S n) watch st)).
    rewrite IH. apply Htwice. }
  split; [reflexivity|]. split; [apply Hnoop|]. split; [exact Hiter|]. split.
  - intros n. rewrite entries_for_length.
    destruct (watched_devices (Nat.iter n watch st) !! mac); lia.
  - intros Hmac Happlies n. rewrite Hiter, entries_for_length.
    unfold watch, exec. rewrite auto_watch_exec. fold mac phy. cbn [snd].
    rewrite Hmac. cbn [negb orb].
    destruct (bool_decide (is_Some (watched_devices st !! mac))) eqn:Hin.
    + apply bool_decide_eq_true_1 in Hin. destruct Hin as [w ->]. reflexivity.
    + destruct Happlies as [Hw|Hs].
      * rewrite Hw. state_fields. rewrite lookup_insert_eq. reflexivity.
      * apply bool_decide_eq_false_1 in Hin. contradiction.
Qed.

Lemma auto_watch_idempotent_witness :
  truthy (dict_get (kismet_device_base_macaddr mavic) (PStr "")) = true
  /\ (should_watch (auto_watch_rules (automations initial_state)) "drone"
                   (dict_get (kismet_device_base_phyname mavic) (PStr "")) = true
      \/ is_Some (watched_devices initial_state
                    !! dict_get (kismet_device_base_macaddr mavic) (PStr "")))
  /\ length (entries_for (dict_get (kismet_device_base_macaddr mavic) (PStr ""))
               (watched_devices
                  (Nat.iter 3 (exec (_auto_watch_device demo_env "drone" (Some mavic)))
                            initial_state))) = 1%nat.
Proof.
  assert (T : truthy (dict_get (kismet_device_base_macaddr mavic) (PStr "")) = true)
    by reflexivity.
  assert (R : should_watch (auto_watch_rules (automations initial_state)) "drone"
                (dict_get (kismet_device_base_phyname mavic) (PStr "")) = true
              \/ is_Some (watched_devices initial_state
                            !! dict_get (kismet_device_base_macaddr mavic) (PStr "")))
    by (left; reflexivity).
  split; [exact T|]. split; [exact R|].
  exact (proj2 (proj2 (proj2 (proj2
           (auto_watch_idempotent demo_env "drone" mavic initial_state)))) T R 2%nat).
Defined.

(** ** Detector set *)

Lemma contains_skip a sub s :
  PyStr.contains sub s = true -> PyStr.contains sub (a +:+ s) = true.
Proof.
  intros H. induction a as [|c a IH]; [exact H|].
  change (PyStr.startswith sub (String c (a +:+ s))
          || PyStr.contains sub (a +:+ s) = true).
  rewrite IH. apply orb_true_r.
Qed.

Lemma keyword_loop_find combined alert keywords :
  keyword_loop combined alert keywords
  = match List.find (fun kw => PyStr.contains kw combined) keywords with
    | Some kw => alert kw
    | None => mret tt
    end.
Proof.
  induction keywords as [|kw rest IH]; [reflexivity|].
  cbn [keyword_loop List.find].
  destruct (PyStr.contains kw combined); [reflexivity | exact IH].
Qed.

Lemma find_first {A} (f : A -> bool) (l : list A) (x : A) :
  List.find f l = Some x ->
  exists before after,
    l = before ++ x :: after /\ f x = true
    /\ Forall (fun y => f y = false) before.
Proof.
  induction l as [|a l IH]; [discriminate|].
  cbn [List.find]. destruct (f a) eqn:Hfa.
  - intros [= ->]. exists [], l. repeat split; [exact Hfa | constructor].
  - intros H. destruct (IH H) as (before & after & -> & Hx & Hall).
    exists (a :: before), after. repeat split; [exact Hx | constructor; assumption].
Qed.

Lemma find_none_all {A} (f : A -> bool) (l : list A) :
  List.find f l = None -> forall y, In y l -> f y = false.
Proof. intros H y Hy. exact (find_none f l H y Hy). Qed.

(** A record whose name and manufacturer read as text and whose signal
    read returns is analysed by the three rules in turn. *)
Lemma analyze_device_rules E d name manuf last_signal st :
  dict_get (kismet_device_base_name d) (PStr "") = PStr name ->
  dict_get (kismet_device_base_manuf d) (PStr "") = PStr manuf ->
  signal_get (default (SigDict None) (kismet_device_base_signal d)) (PInt (-100))
  = Ok last_signal ->
  let mac := dict_get (kismet_device_base_macaddr d) (PStr "") in
  let phy := dict_get (kismet_device_base_phyname d) (PStr "") in
  analyze_device E (RDict d) st
  = (keyword_rule E d (PStr name) mac phy (PStr manuf) last_signal
                  (combined_of name manuf);;
     phy_rule E d (PStr name) mac phy (PStr manuf) last_signal;;
     signal_rule E d (PStr name) mac phy last_signal) st.
Proof.
  intros Hn Hm Hs. cbv zeta. unfold analyze_device.
  rewrite Hn, Hm. run_monad. rewrite Hs. reflexivity.
Qed.

(** The keyword and PHY rules always return, and add drone events only. *)
Lemma keyword_rule_run E d ssid_map mac phy manuf last_signal combined st :
  exists st', keyword_rule E d ssid_map mac phy manuf last_signal combined st
              = (Ok tt, st')
              /\ forall e, In e (alerts st') ->
                   In e (alerts st) \/ alert_type e = "drone"%string.
Proof.
  unfold keyword_rule. rewrite keyword_loop_find.
  destruct (List.find _ DRONE_KEYWORDS) as [kw|].
  - match goal with
    | |- context [push_alert E ?t ?s ?ti ?b ?dv st] =>
        destruct (push_alert_run E t s ti b dv st) as (st' & Hrun & Ha & _)
    end.
    exists st'. split; [exact Hrun|].
    intros e He. rewrite Ha in He. apply stored_incl in He.
    destruct He as [->|He]; [right; reflexivity | left; exact He].
  - exists st. split; [reflexivity | auto].
Qed.

Lemma phy_rule_run E d ssid_map mac phy manuf last_signal st :
  exists st', phy_rule E d ssid_map mac phy manuf last_signal st = (Ok tt, st')
              /\ forall e, In e (alerts st') ->
                   In e (alerts st) \/ alert_type e = "drone"%string.
Proof.
  unfold phy_rule. destruct (py_eq_str phy "UAV").
  - match goal with
    | |- context [push_alert E ?t ?s ?ti ?b ?dv st] =>
        destruct (push_alert_run E t s ti b dv st) as (st' & Hrun & Ha & _)
    end.
    exists st'. split; [exact Hrun|].
    intros e He. rewrite Ha in He. apply stored_incl in He.
    destruct He as [->|He]; [right; reflexivity | left; exact He].
  - exists st. split; [reflexivity | auto].
Qed.

(** C3, as the code has it: the keyword detector.  For a record whose
    name and manufacturer are text, the analysis joins them with a single
    blank between them (not by plain concatenation), lower-cases the
    result and runs the keyword rule on it.  If some keyword of the fixed
    list occurs in that text, the rule is exactly one [push_alert] of a
    drone / critical event for the first such keyword in list order, and
    the body of the event contains that keyword; if none occurs, the rule
    returns with the state untouched. *)
Theorem keyword_detector (E : env) (d : device) (name manuf : string)
        (last_signal : pyval) (st : state) :
  dict_get (kismet_device_base_name d) (PStr "") = PStr name ->
  dict_get (kismet_device_base_manuf d) (PStr "") = PStr manuf ->
  signal_get (default (SigDict None) (kismet_device_base_signal d)) (PInt (-100))
  = Ok last_signal ->
  let mac := dict_get (kismet_device_base_macaddr d) (PStr "") in
  let phy := dict_get (kismet_device_base_phyname d) (PStr "") in
  let combined := PyStr.lower ((name +:+ " ") +:+ manuf) in
  let rule := keyword_rule E d (PStr name) mac phy (PStr manuf) last_signal combined in
  analyze_device E (RDict d) st
  = (rule;;
     phy_rule E d (PStr name) mac phy (PStr manuf) last_signal;;
     signal_rule E d (PStr name) mac phy last_signal) st
  /\ match first_keyword combined with
     | Some kw =>
         (exists before after,
            DRONE_KEYWORDS = before ++ kw :: after
            /\ PyStr.contains kw combined = true
            /\ Forall (fun k => PyStr.contains k combined = false) before)
         /\ exists title body,
              PyStr.contains kw body = true
              /\ forall s,
                   rule s = push_alert E "drone" "critical" (PStr title) (PStr body)
                                       (Some d) s
                   /\ outcome rule s = Ok tt
                   /\ alerts (exec rule s)
                      = stored (new_entry E "drone" "critical" (PStr title)
                                          (PStr body) s)
                               (alerts s)
     | None =>
         (forall kw, In kw DRONE_KEYWORDS -> PyStr.contains kw combined = false)
         /\ forall s, rule s = (Ok tt, s)
     end.
Proof.
  intros Hn Hm Hs. cbv zeta.
  split; [apply (analyze_device_rules E d name manuf last_signal st Hn Hm Hs)|].
  unfold first_keyword, keyword_rule.
  destruct (List.find _ DRONE_KEYWORDS) as [kw|] eqn:Hfind.
  - split; [apply find_first in Hfind; exact Hfind|].
    eexists _, _. split; [|intros s; rewrite keyword_loop_find, Hfind].
    2:{ cbv beta iota. split; [reflexivity|].
        match goal with
        | |- context [push_alert E ?t ?sv ?ti ?b ?dv] =>
            destruct (push_alert_run E t sv ti b dv s) as (s' & Hrun & Ha & _)
        end.
        unfold outcome, exec. rewrite Hrun. split; [reflexivity | exact Ha]. }
    do 9 apply contains_skip. apply contains_startswith, startswith_app.
  - split; [apply find_none_all, Hfind|].
    intros s. rewrite keyword_loop_find, Hfind. reflexivity.
Qed.

Lemma keyword_detector_witness :
  dict_get (kismet_device_base_name mavic) (PStr "") = PStr "DJI-Mavic-3-Pro"
  /\ dict_get (kismet_device_base_manuf mavic) (PStr "") = PStr "DJI Technology"
  /\ signal_get (default (SigDict None) (kismet_device_base_signal mavic))
                (PInt (-100)) = Ok (PInt (-38))
  /\ first_keyword (PyStr.lower (("DJI-Mavic-3-Pro" +:+ " ") +:+ "DJI Technology"))
     = Some "dji"%string
  /\ exists title body,
       PyStr.contains "dji" body = true
       /\ keyword_rule demo_env mavic (PStr "DJI-Mavic-3-Pro")
            (PStr "60:60:1F:AA:BB:CC") (PStr "IEEE802.11") (PStr "DJI Technology")
            (PInt (-38))
            (PyStr.lower (("DJI-Mavic-3-Pro" +:+ " ") +:+ "DJI Technology"))
            initial_state
          = push_alert demo_env "drone" "critical" (PStr title) (PStr body)
                       (Some mavic) initial_state.
Proof.
  assert (N : dict_get (kismet_device_base_name mavic) (PStr "")
              = PStr "DJI-Mavic-3-Pro") by reflexivity.
  assert (F : dict_get (kismet_device_base_manuf mavic) (PStr "")
              = PStr "DJI Technology") by reflexivity.
  assert (S : signal_get (default (SigDict None) (kismet_device_base_signal mavic))
                         (PInt (-100)) = Ok (PInt (-38))) by reflexivity.
  assert (K : first_keyword
                (PyStr.lower (("DJI-Mavic-3-Pro" +:+ " ") +:+ "DJI Technology"))
              = Some "dji"%string) by (vm_compute; reflexivity).
  repeat (split; [assumption|]).
  pose proof (proj2 (keyword_detector demo_env mavic _ _ _ initial_state N F S)) as H.
  cbv zeta in H. try rewrite K in H.
  destruct H as (_ & title & body & Hbody & Hrule).
  exists title, body. split; [exact Hbody|].
  exact (proj1 (Hrule initial_state)).
Defined.

(** C3 fails as it is worded: name and manufacturer are not concatenated
    as they are, a blank is put between them.  For the name "DJ" and the
    manufacturer "I Corp" the plain concatenation, lower-cased, contains
    the keyword "dji"; the text the code searches, "dj i corp", contains
    no keyword, and the analysis of the record raises no alert. *)
Theorem keyword_detector_joins_with_blank :
  first_keyword (concatenated "DJ" "I Corp") = Some "dji"%string
  /\ combined_of "DJ" "I Corp" = "dj i corp"%string
  /\ first_keyword (combined_of "DJ" "I Corp") = None
  /\ outcome (analyze_devices demo_env (JList [RDict dj_i_corp])) initial_state = Ok tt
  /\ alerts (exec (analyze_devices demo_env (JList [RDict dj_i_corp])) initial_state)
     = [].
Proof. repeat split; vm_compute; reflexivity. Qed.

Lemma run_three (m1 m2 m3 : M unit) st s1 s2 :
  m1 st = (Ok tt, s1) -> m2 s1 = (Ok tt, s2) ->
  (m1;; m2;; m3) st = m3 s2.
Proof.
  intros H1 H2. unfold mbind, M_bind, bind. rewrite H1, H2. reflexivity.
Qed.

(** C4: the signal-strength detector.  For a record carrying a last
    signal [z] (and whose name and manufacturer are text), the analysis
    returns and ends with the signal rule.  When [z] is strictly above
    -60 the rule is one [push_alert] of a signal / warning event, which is
    then the newest entry of the store; when [z] is -60 or below the rule
    leaves the state untouched and the analysis adds no signal event. *)
Theorem signal_detector (E : env) (d : device) (name manuf : string) (z : Z)
        (st : state) :
  dict_get (kismet_device_base_name d) (PStr "") = PStr name ->
  dict_get (kismet_device_base_manuf d) (PStr "") = PStr manuf ->
  kismet_device_base_signal d = Some (SigDict (Some (PInt z))) ->
  let mac := dict_get (kismet_device_base_macaddr d) (PStr "") in
  let phy := dict_get (kismet_device_base_phyname d) (PStr "") in
  let rule := signal_rule E d (PStr name) mac phy (PInt z) in
  let st' := exec (analyze_device E (RDict d)) st in
  analyze_device E (RDict d) st
  = (keyword_rule E d (PStr name) mac phy (PStr manuf) (PInt z)
                  (combined_of name manuf);;
     phy_rule E d (PStr name) mac phy (PStr manuf) (PInt z);;
     rule) st
  /\ outcome (analyze_device E (RDict d)) st = Ok tt
  /\ (INTERESTING_SIGNAL < z ->
      (exists title body, forall s,
          rule s = push_alert E "signal" "warning" (PStr title) (PStr body) (Some d) s)
      /\ exists e, hd_error (alerts st') = Some e
                   /\ alert_type e = "signal"%string
                   /\ alert_severity e = "warning"%string)
  /\ (z <= INTERESTING_SIGNAL ->
      (forall s, rule s = (Ok tt, s))
      /\ forall e, In e (alerts st') -> alert_type e = "signal"%string ->
                   In e (alerts st)).
Proof.
  intros Hn Hm Hsig. cbv zeta.
  assert (Hs : signal_get (default (SigDict None) (kismet_device_base_signal d))
                          (PInt (-100)) = Ok (PInt z)) by (rewrite Hsig; reflexivity).
  pose proof (analyze_device_rules E d name manuf (PInt z) st Hn Hm Hs) as Hshape.
  cbv zeta in Hshape.
  set (mac := dict_get (kismet_device_base_macaddr d) (PStr "")) in *.
  set (phy := dict_get (kismet_device_base_phyname d) (PStr "")) in *.
  destruct (keyword_rule_run E d (PStr name) mac phy (PStr manuf) (PInt z)
                             (combined_of name manuf) st) as (s1 & Hk & Hk').
  destruct (phy_rule_run E d (PStr name) mac phy (PStr manuf) (PInt z) s1)
    as (s2 & Hp & Hp').
  rewrite (run_three _ _ _ st s1 s2 Hk Hp) in Hshape.
  split; [rewrite Hshape; symmetry; apply (run_three _ _ _ st s1 s2 Hk Hp)|].
  unfold outcome, exec. rewrite Hshape.
  unfold signal_rule, INTERESTING_SIGNAL. run_monad. cbn [py_gt].
  destruct (Z.ltb_spec (-60) z) as [Hgt|Hle].
  - match goal with
    | |- context [push_alert E ?t ?sv ?ti ?b ?dv] =>
        destruct (push_alert_run E t sv ti b dv s2) as (s3 & Hrun & Ha & _)
    end.
    rewrite Hrun. cbn [fst snd].
    split; [reflexivity|]. split.
    + intros _. split; [eexists _, _; intros s; reflexivity|].
      eexists. split; [rewrite Ha; apply stored_head|]. split; reflexivity.
    + intros Hle. lia.
  - cbn [fst snd]. split; [reflexivity|]. split; [intros Hgt; lia|].
    intros _. split; [reflexivity|].
    intros e He Htype.
    destruct (Hp' e He) as [He1|Hd]; [|rewrite Htype in Hd; discriminate].
    destruct (Hk' e He1) as [He0|Hd]; [exact He0|rewrite Htype in Hd; discriminate].
Qed.

Lemma signal_detector_witness :
  dict_get (kismet_device_base_name ring_doorbell) (PStr "") = PStr "Ring-Doorbell"
  /\ dict_get (kismet_device_base_manuf ring_doorbell) (PStr "") = PStr "Amazon"
  /\ kismet_device_base_signal ring_doorbell = Some (SigDict (Some (PInt (-60))))
  /\ -60 <= INTERESTING_SIGNAL
  /\ forall e,
       In e (alerts (exec (analyze_device demo_env (RDict ring_doorbell)) initial_state)) ->
       alert_type e = "signal"%string -> In e (alerts initial_state).
Proof.
  assert (N : dict_get (kismet_device_base_name ring_doorbell) (PStr "")
              = PStr "Ring-Doorbell") by reflexivity.
  assert (F : dict_get (kismet_device_base_manuf ring_doorbell) (PStr "")
              = PStr "Amazon") by reflexivity.
  assert (S : kismet_device_base_signal ring_doorbell
              = Some (SigDict (Some (PInt (-60))))) by reflexivity.
  assert (L : -60 <= INTERESTING_SIGNAL) by (unfold INTERESTING_SIGNAL; lia).
  repeat (split; [assumption|]).
  exact (proj2 (proj2 (proj2 (proj2
           (signal_detector demo_env ring_doorbell _ _ _ initial_state N F S))) L)).
Defined.

Lemma signal_rule_quiet E d ssid_map mac phy st :
  signal_rule E d ssid_map mac phy (PInt (-100)) st = (Ok tt, st).
Proof. reflexivity. Qed.

(** The keyword rule followed by the PHY rule, seen from the store: the
    alerts they raise are put in front of the earlier ones, the PHY alert
    on top, and the store is cut to its capacity. *)
Lemma drone_rules_views E d name manuf last_signal st :
  let mac := dict_get (kismet_device_base_macaddr d) (PStr "") in
  let phy := dict_get (kismet_device_base_phyname d) (PStr "") in
  (length (alerts st) <= MAX_ALERTS)%nat ->
  exists s1 s2,
    keyword_rule E d (PStr name) mac phy (PStr manuf) last_signal
                 (combined_of name manuf) st = (Ok tt, s1)
    /\ phy_rule E d (PStr name) mac phy (PStr manuf) last_signal s1 = (Ok tt, s2)
    /\ (length (alerts s2) <= MAX_ALERTS)%nat
    /\ List.map view (alerts s2)
       = firstn MAX_ALERTS
           (uav_views name mac phy manuf last_signal
              ++ keyword_views name mac phy manuf last_signal
              ++ List.map view (alerts st)).
Proof.
  cbv zeta. intros Hcap.
  set (mac := dict_get (kismet_device_base_macaddr d) (PStr "")).
  set (phy := dict_get (kismet_device_base_phyname d) (PStr "")).
  assert (Hk : exists s1,
             keyword_rule E d (PStr name) mac phy (PStr manuf) last_signal
                          (combined_of name manuf) st = (Ok tt, s1)
             /\ (length (alerts s1) <= MAX_ALERTS)%nat
             /\ List.map view (alerts s1)
                = firstn MAX_ALERTS
                    (keyword_views name mac phy manuf last_signal
                       ++ List.map view (alerts st))).
  { unfold keyword_rule, keyword_views, first_keyword.
    rewrite keyword_loop_find.
    destruct (List.find _ DRONE_KEYWORDS) as [kw|].
    - match goal with
      | |- context [push_alert E ?t ?sv ?ti ?b ?dv st] =>
          destruct (push_alert_run E t sv ti b dv st) as (s1 & Hrun & Ha & _)
      end.
      exists s1. split; [exact Hrun|]. rewrite Ha.
      split; [apply stored_length, Hcap|].
      rewrite stored_firstn by exact Hcap. rewrite <- firstn_map. reflexivity.
    - exists st. split; [reflexivity|]. split; [exact Hcap|].
      cbn [app]. rewrite firstn_all2 by (rewrite length_map; exact Hcap).
      reflexivity. }
  destruct Hk as (s1 & Hk & Hcap1 & Hv1).
  exists s1. unfold phy_rule, uav_views.
  destruct (py_eq_str phy "UAV").
  - match goal with
    | |- context [push_alert E ?t ?sv ?ti ?b ?dv s1] =>
        destruct (push_alert_run E t sv ti b dv s1) as (s2 & Hrun & Ha & _)
    end.
    exists s2. split; [exact Hk|]. split; [exact Hrun|]. rewrite Ha.
    split; [apply stored_length, Hcap1|].
    rewrite stored_firstn by exact Hcap1. rewrite <- firstn_map.
    cbn [List.map]. rewrite Hv1.
    match goal with
    | |- firstn _ (?x :: firstn _ ?l) = _ =>
        change (x :: firstn MAX_ALERTS l) with ([x] ++ firstn MAX_ALERTS l)
    end.
    rewrite firstn_app_firstn by lia. reflexivity.
  - exists s1. split; [exact Hk|]. split; [reflexivity|].
    split; [exact Hcap1 | exact Hv1].
Qed.

(** C10: a record without a signal block, or whose block lacks the
    last-signal key, is analysed with a last signal of -100 dBm.  The
    signal read returns -100 instead of raising, and the analysis adds no
    signal event, whatever else the record holds.  When the name and
    manufacturer are text the record is not treated as malformed: the
    analysis returns normally and is the keyword rule followed by the PHY
    rule, both run with -100, and the store shows it: a drone / critical
    alert for the first keyword that occurs in the joined text and one
    for a "UAV" link-layer tag are put on top of the earlier entries,
    each reporting "Signal: -100 dBm" in its body, and nothing else is
    added. *)
Theorem absent_signal_is_minus_100 (E : env) (d : device) (st : state) :
  signal_absent d ->
  let mac := dict_get (kismet_device_base_macaddr d) (PStr "") in
  let phy := dict_get (kismet_device_base_phyname d) (PStr "") in
  let st' := exec (analyze_device E (RDict d)) st in
  signal_get (default (SigDict None) (kismet_device_base_signal d)) (PInt (-100))
  = Ok (PInt (-100))
  /\ (forall e, In e (alerts st') -> alert_type e = "signal"%string ->
                In e (alerts st))
  /\ (forall name manuf,
        dict_get (kismet_device_base_name d) (PStr "") = PStr name ->
        dict_get (kismet_device_base_manuf d) (PStr "") = PStr manuf ->
        outcome (analyze_device E (RDict d)) st = Ok tt
        /\ analyze_device E (RDict d) st
           = (keyword_rule E d (PStr name) mac phy (PStr manuf) (PInt (-100))
                           (combined_of name manuf);;
              phy_rule E d (PStr name) mac phy (PStr manuf) (PInt (-100))) st
        /\ ((length (alerts st) <= MAX_ALERTS)%nat ->
            List.map view (alerts st')
            = firstn MAX_ALERTS
                (uav_views name mac phy manuf (PInt (-100))
                   ++ keyword_views name mac phy manuf (PInt (-100))
                   ++ List.map view (alerts st)))).
Proof.
  intros Habsent. cbv zeta.
  assert (Hs : signal_get (default (SigDict None) (kismet_device_base_signal d))
                          (PInt (-100)) = Ok (PInt (-100))).
  { destruct Habsent as [-> | ->]; reflexivity. }
  set (mac := dict_get (kismet_device_base_macaddr d) (PStr "")).
  set (phy := dict_get (kismet_device_base_phyname d) (PStr "")).
  assert (Hwf : forall name manuf,
             dict_get (kismet_device_base_name d) (PStr "") = PStr name ->
             dict_get (kismet_device_base_manuf d) (PStr "") = PStr manuf ->
             exists s1 s2,
               keyword_rule E d (PStr name) mac phy (PStr manuf) (PInt (-100))
                            (combined_of name manuf) st = (Ok tt, s1)
               /\ phy_rule E d (PStr name) mac phy (PStr manuf) (PInt (-100)) s1
                  = (Ok tt, s2)
               /\ analyze_device E (RDict d) st = (Ok tt, s2)
               /\ forall e, In e (alerts s2) -> alert_type e = "signal"%string ->
                            In e (alerts st)).
  { intros name manuf Hn Hm.
    destruct (keyword_rule_run E d (PStr name) mac phy (PStr manuf) (PInt (-100))
                               (combined_of name manuf) st) as (s1 & Hk & Hk').
    destruct (phy_rule_run E d (PStr name) mac phy (PStr manuf) (PInt (-100)) s1)
      as (s2 & Hp & Hp').
    exists s1, s2. split; [exact Hk|]. split; [exact Hp|]. split.
    - rewrite (analyze_device_rules E d name manuf (PInt (-100)) st Hn Hm Hs).
      cbv zeta. fold mac phy. rewrite (run_three _ _ _ st s1 s2 Hk Hp).
      apply signal_rule_quiet.
    - intros e He Htype.
      destruct (Hp' e He) as [He1|Hd]; [|rewrite Htype in Hd; discriminate].
      destruct (Hk' e He1) as [He0|Hd]; [exact He0|rewrite Htype in Hd; discriminate]. }
  split; [exact Hs|]. split.
  - destruct (dict_get (kismet_device_base_name d) (PStr "")) as [|zn|name] eqn:Hn;
      [| |destruct (dict_get (kismet_device_base_manuf d) (PStr ""))
           as [|zm|manuf] eqn:Hm].
    5:{ destruct (Hwf name manuf eq_refl eq_refl) as (s1 & s2 & _ & _ & Hrun & Hin).
        unfold exec. rewrite Hrun. exact Hin. }
    all: unfold exec, analyze_device; rewrite Hn; try rewrite Hm;
      run_monad; rewrite Hs; cbn [py_add]; intros e He _; exact He.
  - intros name manuf Hn Hm.
    destruct (Hwf name manuf Hn Hm) as (s1 & s2 & Hk & Hp & Hrun & _).
    unfold outcome. rewrite Hrun. split; [reflexivity|]. split.
    + unfold mbind, M_bind, bind. rewrite Hk. symmetry. exact Hp.
    + intros Hcap.
      destruct (drone_rules_views E d name manuf (PInt (-100)) st Hcap)
        as (t1 & t2 & Hk2 & Hp2 & _ & Hviews).
      fold mac phy in Hk2, Hp2, Hviews.
      rewrite Hk in Hk2. injection Hk2 as <-.
      rewrite Hp in Hp2. injection Hp2 as <-.
      unfold exec. rewrite Hrun. exact Hviews.
Qed.

(** The two alerts of the record without a signal block, newest first. *)
Lemma absent_signal_is_minus_100_witness :
  signal_absent parrot_no_signal
  /\ outcome (analyze_device demo_env (RDict parrot_no_signal)) initial_state = Ok tt
  /\ (forall e,
        In e (alerts (exec (analyze_device demo_env (RDict parrot_no_signal))
                           initial_state)) ->
        alert_type e = "signal"%string -> In e (alerts initial_state))
  /\ List.map view (alerts (exec (analyze_device demo_env (RDict parrot_no_signal))
                                 initial_state))
     = [("drone"%string, "critical"%string,
         PStr "🚁 UAV PHY device: Parrot-ANAFI",
         PStr "MAC: 90:3A:E6:DD:EE:FF | Manuf: Parrot SA | Signal: -100 dBm");
        ("drone"%string, "critical"%string,
         PStr "🚁 Drone detected: Parrot-ANAFI",
         PStr ("MAC: 90:3A:E6:DD:EE:FF | PHY: UAV | Manuf: Parrot SA"
               +:+ " | Signal: -100 dBm | Keyword matched: 'parrot'"))].
Proof.
  assert (A : signal_absent parrot_no_signal) by (left; reflexivity).
  pose proof (absent_signal_is_minus_100 demo_env parrot_no_signal initial_state A)
    as (_ & Hquiet & Hruns).
  destruct (Hruns "Parrot-ANAFI"%string "Parrot SA"%string eq_refl eq_refl)
    as (Hok & _ & Hviews).
  split; [exact A|]. split; [exact Hok|]. split; [exact Hquiet|].
  rewrite Hviews by (vm_compute; lia). vm_compute. reflexivity.
Defined.

(** ** Mirror poll *)

Lemma mirror_alert_run E a st :
  mirrorable a ->
  exists st' e,
    mirror_alert E a st = (Ok tt, st')
    /\ view e = mirrored a
    /\ alerts st' = stored e (alerts st).
Proof.
  intros Hok. destruct a as [severity header text|v]; [|destruct Hok].
  unfold mirror_alert. run_monad.
  assert (Hsev : exists z, dict_get severity (PInt 5) = PInt z).
  { destruct severity as [[|z|s]|]; try destruct Hok; eauto. }
  destruct Hsev as [z Hz]. rewrite Hz. cbn [py_lt].
  match goal with
  | |- context [push_alert E ?t ?sv ?ti ?b ?dv] =>
      destruct (push_alert_run E t sv ti b dv st) as (st' & Hrun & Ha & _)
  end.
  eexists _, _. split; [exact Hrun|]. split; [|exact Ha].
  unfold view, mirrored, new_entry. cbn. rewrite Hz. reflexivity.
Qed.

Lemma for_each_mirror E l st :
  Forall mirrorable l ->
  (length (alerts st) <= MAX_ALERTS)%nat ->
  exists st',
    for_each l (mirror_alert E) st = (Ok tt, st')
    /\ (length (alerts st') <= MAX_ALERTS)%nat
    /\ List.map view (alerts st')
       = firstn MAX_ALERTS (rev (List.map mirrored l) ++ List.map view (alerts st)).
Proof.
  intros Hall. revert st. induction Hall as [|a l Ha _ IH]; intros st Hcap.
  - exists st. split; [reflexivity|]. split; [exact Hcap|].
    cbn [List.map rev app]. symmetry. apply firstn_all2.
    rewrite length_map. exact Hcap.
  - destruct (mirror_alert_run E a st Ha) as (s1 & e & Hrun & Hview & Halerts).
    assert (Hcap1 : (length (alerts s1) <= MAX_ALERTS)%nat).
    { rewrite Halerts. apply stored_length, Hcap. }
    destruct (IH s1 Hcap1) as (st' & Hrest & Hcap' & Hviews).
    exists st'. rewrite for_each_cons, Hrun.
    split; [exact Hrest|]. split; [exact Hcap'|].
    rewrite Hviews, Halerts, stored_firstn by exact Hcap.
    rewrite <- firstn_map. cbn [List.map rev]. rewrite Hview.
    rewrite firstn_app_firstn by lia.
    rewrite <- app_assoc. reflexivity.
Qed.

Lemma slice_last_length {A} (n : nat) (l : list A) :
  length (slice_last n l) = Nat.min n (length l).
Proof. unfold slice_last. rewrite length_skipn. lia. Qed.

Lemma Forall_slice_last {A} (P : A -> Prop) (n : nat) (l : list A) :
  Forall P l -> Forall P (slice_last n l).
Proof.
  intros H. unfold slice_last.
  rewrite <- (firstn_skipn (length l - n) l) in H.
  apply Forall_app in H. exact (proj2 H).
Qed.

(** C8, as the code has it: a mirror poll whose fetch returns a list of
    well-formed records returns normally and appends one kismet-category
    event for each of the last 20 records of the batch, in feed order
    (the newest entry of the store is the last record); records before
    the last 20 are not mirrored.  The severity of an event is warning
    when the ordinal of its record is below 10 or absent, info
    otherwise. *)
Theorem mirror_poll_last_20 (E : env) (batch : list upstream_alert) (st : state) :
  kismet_get_alerts E (tick st) = Ok (JList batch) ->
  Forall mirrorable batch ->
  (length (alerts st) <= MAX_ALERTS)%nat ->
  let st' := exec (poll_kismet_alerts E) st in
  outcome (poll_kismet_alerts E) st = Ok tt
  /\ List.map view (alerts st')
     = firstn MAX_ALERTS
         (rev (List.map mirrored (slice_last 20 batch)) ++ List.map view (alerts st))
  /\ length (slice_last 20 batch) = Nat.min 20 (length batch)
  /\ forall severity header text,
       In (ADict severity header text) batch ->
       match dict_get severity (PInt 5) with
       | PInt z =>
           fst (fst (mirrored (ADict severity header text)))
           = ("kismet"%string, if z <? 10 then "warning"%string else "info"%string)
       | _ => False
       end.
Proof.
  intros Hfetch Hall Hcap. cbv zeta.
  destruct (for_each_mirror E (slice_last 20 batch) (set_tick (S (tick st)) st)
              (Forall_slice_last _ _ _ Hall) Hcap)
    as (st' & Hrun & _ & Hviews).
  assert (Hpoll : poll_kismet_alerts E st = (Ok tt, st')).
  { unfold poll_kismet_alerts. run_monad. rewrite Hfetch, Hrun. reflexivity. }
  unfold outcome, exec. rewrite Hpoll. cbn [fst snd].
  split; [reflexivity|]. split; [exact Hviews|]. split; [apply slice_last_length|].
  intros severity header text Hin.
  rewrite List.Forall_forall in Hall. specialize (Hall _ Hin).
  destruct severity as [[|z|s]|]; try destruct Hall; reflexivity.
Qed.

Lemma batch21_mirrorable : Forall mirrorable batch21.
Proof. unfold batch21. cbn [seq List.map]. repeat constructor. Qed.

Lemma mirror_poll_last_20_witness :
  kismet_get_alerts batch21_env (tick initial_state) = Ok (JList batch21)
  /\ Forall mirrorable batch21
  /\ (length (alerts initial_state) <= MAX_ALERTS)%nat
  /\ outcome (poll_kismet_alerts batch21_env) initial_state = Ok tt.
Proof.
  assert (F : kismet_get_alerts batch21_env (tick initial_state) = Ok (JList batch21))
    by reflexivity.
  assert (C : (length (alerts initial_state) <= MAX_ALERTS)%nat)
    by (vm_compute; lia).
  split; [exact F|]. split; [exact batch21_mirrorable|]. split; [exact C|].
  exact (proj1 (mirror_poll_last_20 batch21_env batch21 initial_state
                  F batch21_mirrorable C)).
Defined.

(** C8, as the claim has it, fails: of a fetched batch of 21 well-formed
    records only 20 are mirrored.  The store holds the events of records
    20 down to 1; the first record of the batch (number 0) has none. *)
Lemma mirror_poll_skips_older_records :
  length batch21 = 21%nat
  /\ length (alerts (exec (poll_kismet_alerts batch21_env) initial_state)) = 20%nat
  /\ List.map alert_body (alerts (exec (poll_kismet_alerts batch21_env) initial_state))
     = List.map (fun n => PStr ("alert " +:+ pretty n)) (rev (seq 1 20))
  /\ length (alerts (exec (poll_kismet_alerts batch21_env) initial_state))
     <> length batch21.
Proof.
  assert (H20 : length (alerts (exec (poll_kismet_alerts batch21_env) initial_state))
                = 20%nat) by (vm_compute; reflexivity).
  split; [reflexivity|]. split; [exact H20|].
  split; [vm_compute; reflexivity|].
  rewrite H20. discriminate.
Qed.

(** ** Worked examples *)

Example sanitize_keeps_safe_text :
  _sanitize_filename "DJI-Mavic-3-Pro" = "DJI-Mavic-3-Pro"%string.
Proof. vm_compute. reflexivity. Qed.

Example sanitize_replaces_colons :
  _sanitize_filename "60:60:1F:AA:BB:CC" = "60_60_1F_AA_BB_CC"%string.
Proof. vm_compute. reflexivity. Qed.

(** The scenario of the specification: the Mavic record yields one drone
    event (keyword "dji") and one strong-signal event, adds the device
    to the watchlist and starts two save threads. *)
Example mavic_scenario :
  let st' := exec (analyze_devices demo_env (JList [RDict mavic])) initial_state in
  List.map (fun e => (alert_type e, alert_severity e)) (alerts st')
  = [("signal", "warning"); ("drone", "critical")]%string
  /\ List.map alert_body (alerts st')
     = [PStr "MAC: 60:60:1F:AA:BB:CC | Signal: -38 dBm | PHY: IEEE802.11";
        PStr ("MAC: 60:60:1F:AA:BB:CC | PHY: IEEE802.11 | Manuf: DJI Technology"
              +:+ " | Signal: -38 dBm | Keyword matched: 'dji'")]
  /\ length (entries_for (PStr "60:60:1F:AA:BB:CC") (watched_devices st')) = 1%nat
  /\ length (threads st') = 2%nat.
Proof. vm_compute. repeat split. Qed.

(** A record whose name is not text raises inside the [try] block and is
    skipped; the next record is still analysed. *)
Example malformed_record_is_skipped :
  let bad := Device (Some (PInt 7)) None None None None [] in
  List.map alert_type
    (alerts (exec (analyze_devices demo_env (JList [RDict bad; RVal PNone; RDict mavic]))
                  initial_state))
  = ["signal"; "drone"]%string.
Proof. vm_compute. reflexivity. Qed.

(** A successful save at a full log keeps the log at 100 records. *)
Example save_log_trimmed_on_success :
  length (alert_saves (exec (_save_alert_device demo_env drone_alert (Some mavic))
                            full_log_state)) = 100%nat.
Proof. vm_compute. reflexivity. Qed.

(** * Further properties of the engine *)

(** ** Detector runs only grow the state *)

Lemma engine_grows_refl st : engine_grows st st.
Proof.
  unfold engine_grows. repeat split; auto.
  exists []. rewrite app_nil_r. reflexivity.
Qed.

Lemma engine_grows_trans st1 st2 st3 :
  engine_grows st1 st2 -> engine_grows st2 st3 -> engine_grows st1 st3.
Proof.
  unfold engine_grows.
  intros (a1 & b1 & c1 & d1 & e1 & (t1 & f1) & g1)
         (a2 & b2 & c2 & d2 & e2 & (t2 & f2) & g2).
  repeat split; try congruence; try lia; auto.
  - etransitivity; eassumption.
  - exists (t1 ++ t2). rewrite f2, f1, app_assoc. reflexivity.
Qed.

Ltac unchanged :=
  split; [reflexivity | split; [reflexivity | apply engine_grows_refl]].

Lemma auto_watch_grows E atype device st :
  exists st', _auto_watch_device E atype device st = (Ok tt, st')
              /\ alerts st' = alerts st
              /\ threads st' = threads st
              /\ engine_grows st st'.
Proof.
  destruct device as [d|].
  - rewrite auto_watch_exec. eexists. split; [reflexivity|]. cbv zeta.
    destruct (negb (truthy (dict_get (kismet_device_base_macaddr d) (PStr "")))
              || bool_decide (is_Some (watched_devices st
                   !! dict_get (kismet_device_base_macaddr d) (PStr "")))) eqn:Hc;
      [unchanged|].
    destruct (should_watch _ _ _); [|unchanged].
    apply orb_false_elim in Hc as [_ Hin].
    apply bool_decide_eq_false_1 in Hin.
    split; [reflexivity|]. split; [reflexivity|].
    unfold engine_grows. state_fields. repeat split; auto.
    + apply insert_subseteq.
      destruct (watched_devices st !! _) eqn:Hl; [exfalso; eauto | reflexivity].
    + exists []. rewrite app_nil_r. reflexivity.
  - exists st. split; [reflexivity | unchanged].
Qed.

(** One call of [push_alert]: the stored entry, the save thread started
    when a device is attached, and the frame. *)
Lemma push_alert_grows E atype severity title body device st :
  exists st',
    push_alert E atype severity title body device st = (Ok tt, st')
    /\ alerts st' = stored (new_entry E atype severity title body st) (alerts st)
    /\ threads st'
       = threads st
         ++ match device with
            | Some d => [(new_entry E atype severity title body st, d)]
            | None => []
            end
    /\ (device = None -> watched_devices st' = watched_devices st)
    /\ engine_grows st st'.
Proof.
  unfold push_alert. run_monad.
  match goal with
  | |- context [_auto_watch_device E atype device ?s] =>
      destruct (auto_watch_grows E atype device s) as (st3 & Heq & Ha & Ht & Hg);
      pose proof (auto_watch_run E atype device s) as Hrun0;
      rewrite Heq
  end.
  destruct Hg as (g1 & g2 & g3 & g4 & g5 & _ & _). state_fields.
  assert (Hnone : device = None -> watched_devices st3 = watched_devices st).
  { intros ->. cbn in Heq. injection Heq as <-. reflexivity. }
  destruct device as [d|]; eexists; (split; [reflexivity|]); state_fields;
    rewrite ?Ha, ?Ht; unfold new_entry;
    (split; [reflexivity|]); (split; [rewrite ?app_nil_r; reflexivity|]);
    (split; [exact Hnone|]);
    unfold engine_grows; state_fields; rewrite ?Ha, ?Ht;
    repeat split; auto; try lia;
    try (eexists; reflexivity);
    try (exists []; rewrite app_nil_r; reflexivity);
    intros Hcap; apply stored_length, Hcap.
Qed.

Lemma detector_run_nil st : detector_run st st [].
Proof.
  split; [apply engine_grows_refl|]. split; [rewrite app_nil_r; reflexivity|].
  intros Hcap. cbn [List.map rev app]. symmetry. apply firstn_all2, Hcap.
Qed.

Lemma detector_run_app st1 st2 st3 a b :
  detector_run st1 st2 a -> detector_run st2 st3 b -> detector_run st1 st3 (a ++ b).
Proof.
  intros (G1 & T1 & A1) (G2 & T2 & A2).
  split; [eapply engine_grows_trans; eassumption|].
  split; [rewrite T2, T1, app_assoc; reflexivity|].
  intros Hcap.
  assert (Hcap2 : (length (alerts st2) <= MAX_ALERTS)%nat).
  { destruct G1 as (_ & _ & _ & _ & _ & _ & Hc). apply Hc, Hcap. }
  rewrite (A2 Hcap2), (A1 Hcap).
  rewrite firstn_app_firstn by lia.
  rewrite List.map_app, rev_app_distr, <- app_assoc. reflexivity.
Qed.

Lemma push_detector_run E atype severity title body d st :
  exists st',
    push_alert E atype severity title body (Some d) st = (Ok tt, st')
    /\ detector_run st st' [(new_entry E atype severity title body st, d)].
Proof.
  destruct (push_alert_grows E atype severity title body (Some d) st)
    as (st' & Hrun & Ha & Ht & _ & Hg).
  exists st'. split; [exact Hrun|]. split; [exact Hg|]. split; [exact Ht|].
  intros Hcap. rewrite Ha. cbn [List.map rev app fst].
  apply stored_firstn, Hcap.
Qed.

Lemma keyword_rule_detects E d ssid_map mac phy manuf last_signal combined st :
  exists st' started,
    keyword_rule E d ssid_map mac phy manuf last_signal combined st = (Ok tt, st')
    /\ detector_run st st' started
    /\ Forall (fun t => snd t = d /\ alert_type (fst t) = "drone"%string) started.
Proof.
  unfold keyword_rule. rewrite keyword_loop_find.
  destruct (List.find _ DRONE_KEYWORDS) as [kw|].
  - match goal with
    | |- context [push_alert E ?t ?s ?ti ?b (Some d) st] =>
        destruct (push_detector_run E t s ti b d st) as (st' & Hrun & Hd)
    end.
    eexists _, _. split; [exact Hrun|]. split; [exact Hd|].
    repeat constructor.
  - exists st, []. split; [reflexivity|]. split; [apply detector_run_nil|constructor].
Qed.

Lemma phy_rule_detects E d ssid_map mac phy manuf last_signal st :
  exists st' started,
    phy_rule E d ssid_map mac phy manuf last_signal st = (Ok tt, st')
    /\ detector_run st st' started
    /\ Forall (fun t => snd t = d /\ alert_type (fst t) = "drone"%string) started.
Proof.
  unfold phy_rule. destruct (py_eq_str phy "UAV").
  - match goal with
    | |- context [push_alert E ?t ?s ?ti ?b (Some d) st] =>
        destruct (push_detector_run E t s ti b d st) as (st' & Hrun & Hd)
    end.
    eexists _, _. split; [exact Hrun|]. split; [exact Hd|].
    repeat constructor.
  - exists st, []. split; [reflexivity|]. split; [apply detector_run_nil|constructor].
Qed.

Lemma signal_rule_detects E d ssid_map mac phy last_signal st :
  exists r st' started,
    signal_rule E d ssid_map mac phy last_signal st = (r, st')
    /\ detector_run st st' started
    /\ Forall (fun t => snd t = d /\ alert_type (fst t) = "signal"%string) started.
Proof.
  unfold signal_rule. run_monad.
  destruct (py_gt last_signal INTERESTING_SIGNAL) as [[|]|e].
  - match goal with
    | |- context [push_alert E ?t ?s ?ti ?b (Some d) st] =>
        destruct (push_detector_run E t s ti b d st) as (st' & Hrun & Hd)
    end.
    eexists _, _, _. split; [exact Hrun|]. split; [exact Hd|].
    repeat constructor.
  - exists (Ok tt), st, []. split; [reflexivity|].
    split; [apply detector_run_nil|constructor].
  - exists (Raise e), st, []. split; [reflexivity|].
    split; [apply detector_run_nil|constructor].
Qed.

(** The [try] body on one element: whatever its outcome, the state only
    grows, and the threads started carry that element. *)
Lemma analyze_device_detects E dev st :
  exists r st' started,
    analyze_device E dev st = (r, st')
    /\ detector_run st st' started
    /\ Forall (fun t => dev = RDict (snd t)) started.
Proof.
  destruct dev as [d|v].
  2:{ eexists _, st, []. split; [reflexivity|].
      split; [apply detector_run_nil|constructor]. }
  unfold analyze_device. run_monad.
  destruct (signal_get _ _) as [last_signal|e].
  2:{ eexists _, st, []. split; [reflexivity|].
      split; [apply detector_run_nil|constructor]. }
  destruct (py_add (dict_get (kismet_device_base_name d) (PStr "")) (PStr " "))
    as [joined|e].
  2:{ eexists _, st, []. split; [reflexivity|].
      split; [apply detector_run_nil|constructor]. }
  destruct (py_add joined _) as [joined2|e].
  2:{ eexists _, st, []. split; [reflexivity|].
      split; [apply detector_run_nil|constructor]. }
  destruct (py_lower joined2) as [combined|e].
  2:{ eexists _, st, []. split; [reflexivity|].
      split; [apply detector_run_nil|constructor]. }
  match goal with
  | |- context [keyword_rule E d ?a ?b ?c ?m ?l ?k st] =>
      destruct (keyword_rule_detects E d a b c m l k st)
        as (s1 & t1 & Hk & Hd1 & Hf1);
      rewrite Hk;
      destruct (phy_rule_detects E d a b c m l s1) as (s2 & t2 & Hp & Hd2 & Hf2);
      rewrite Hp;
      destruct (signal_rule_detects E d a b c l s2) as (r & s3 & t3 & Hs & Hd3 & Hf3)
  end.
  unfold signal_rule in Hs. run_monad.
  exists r, s3, (t1 ++ t2 ++ t3). split; [exact Hs|]. split.
  - eapply detector_run_app; [exact Hd1|]. eapply detector_run_app; eassumption.
  - rewrite !Forall_app. repeat split;
      (eapply List.Forall_impl; [|eassumption]); intros t [Ht _]; rewrite Ht;
      reflexivity.
Qed.

Lemma analyze_devices_detects E l st :
  exists st' started,
    analyze_devices E (JList l) st = (Ok tt, st')
    /\ detector_run st st' started
    /\ Forall (fun t => In (RDict (snd t)) l) started.
Proof.
  unfold analyze_devices. revert st.
  induction l as [|dev l IH]; intros st.
  - exists st, []. split; [reflexivity|]. split; [apply detector_run_nil|constructor].
  - destruct (analyze_device_detects E dev st) as (r & s1 & t1 & Hrun & Hd1 & Hf1).
    destruct (IH s1) as (s2 & t2 & Hrest & Hd2 & Hf2).
    exists s2, (t1 ++ t2). rewrite for_each_cons.
    unfold try_except at 1. rewrite Hrun.
    split; [destruct r; exact Hrest|].
    split; [eapply detector_run_app; eassumption|].
    rewrite Forall_app. split.
    + eapply List.Forall_impl; [|exact Hf1]. intros t ->. left. reflexivity.
    + eapply List.Forall_impl; [|exact Hf2]. intros t Ht. right. exact Ht.
Qed.

(** X1: [analyze_devices] is contained.  For every feed it returns
    normally; it leaves the save log, the files and the automation
    settings alone, never removes or replaces a watchlist entry, only
    starts threads, and keeps a store that is within capacity within it; a
    feed that is not a list changes nothing at all. *)
Theorem analyze_devices_contained (E : env) (feed : json_doc record) (st : state) :
  outcome (analyze_devices E feed) st = Ok tt
  /\ engine_grows st (exec (analyze_devices E feed) st)
  /\ (feed = JOther -> exec (analyze_devices E feed) st = st).
Proof.
  destruct feed as [l|].
  - destruct (analyze_devices_detects E l st) as (st' & started & Hrun & Hd & _).
    unfold outcome, exec. rewrite Hrun.
    split; [reflexivity|]. split; [exact (proj1 Hd) | discriminate].
  - split; [reflexivity|]. split; [apply engine_grows_refl | reflexivity].
Qed.

Lemma analyze_devices_contained_witness :
  exec (analyze_devices demo_env JOther) initial_state = initial_state.
Proof.
  exact (proj2 (proj2 (analyze_devices_contained demo_env JOther initial_state))
               eq_refl).
Defined.

(** X2: every alert raised by the detectors is handed to exactly one
    save thread.  After a batch, the threads started are those of before
    followed by one thread per alert raised, oldest first, each carrying
    the stored entry and the record of the batch that raised it; the
    store holds the entries of these threads, newest first, in front of
    the earlier entries, cut to the capacity. *)
Theorem detector_alerts_reach_save_threads (E : env) (batch : list record)
        (st : state) :
  (length (alerts st) <= MAX_ALERTS)%nat ->
  let st' := exec (analyze_devices E (JList batch)) st in
  exists started,
    threads st' = threads st ++ started
    /\ alerts st' = firstn MAX_ALERTS (rev (List.map fst started) ++ alerts st)
    /\ Forall (fun t => In (RDict (snd t)) batch) started.
Proof.
  intros Hcap. cbv zeta.
  destruct (analyze_devices_detects E batch st) as (st' & started & Hrun & Hd & Hf).
  unfold exec. rewrite Hrun. exists started.
  destruct Hd as (_ & Ht & Ha). auto.
Qed.

Lemma detector_alerts_reach_save_threads_witness :
  (length (alerts initial_state) <= MAX_ALERTS)%nat
  /\ exists started,
       threads (exec (analyze_devices demo_env (JList [RDict mavic])) initial_state)
       = threads initial_state ++ started
       /\ alerts (exec (analyze_devices demo_env (JList [RDict mavic])) initial_state)
          = firstn MAX_ALERTS (rev (List.map fst started) ++ alerts initial_state)
       /\ Forall (fun t => In (RDict (snd t)) [RDict mavic]) started.
Proof.
  assert (C : (length (alerts initial_state) <= MAX_ALERTS)%nat)
    by (vm_compute; lia).
  split; [exact C|].
  exact (detector_alerts_reach_save_threads demo_env [RDict mavic] initial_state C).
Defined.

Lemma analyze_devices_cons E dev l st :
  analyze_devices E (JList (dev :: l)) st
  = analyze_devices E (JList l)
      (exec (try_except (analyze_device E dev) (fun _ => mret tt)) st).
Proof.
  unfold analyze_devices. rewrite for_each_cons.
  destruct (analyze_device_detects E dev st) as (r & s1 & t1 & Hrun & _).
  unfold exec, try_except. rewrite Hrun. destruct r; reflexivity.
Qed.

Lemma analyze_devices_app E l1 l2 st :
  analyze_devices E (JList (l1 ++ l2)) st
  = analyze_devices E (JList l2) (exec (analyze_devices E (JList l1)) st).
Proof.
  revert st. induction l1 as [|dev l1 IH]; intros st; [reflexivity|].
  cbn [app]. rewrite analyze_devices_cons, IH.
  f_equal. unfold exec at 3. rewrite analyze_devices_cons. reflexivity.
Qed.

(** X3: analysing a batch is analysing its parts in turn: the state
    after [l1 ++ l2] is the state after [l2] run from the state after
    [l1]. *)
Theorem analyze_devices_append (E : env) (l1 l2 : list record) (st : state) :
  analyze_devices E (JList (l1 ++ l2)) st
  = analyze_devices E (JList l2) (exec (analyze_devices E (JList l1)) st).
Proof. apply analyze_devices_app. Qed.

Lemma unreadable_raises E dev st :
  readable dev = false -> exists e, analyze_device E dev st = (Raise e, st).
Proof.
  destruct dev as [d|v]; [|eexists; reflexivity].
  unfold readable, reads_as_text, analyze_device. run_monad.
  destruct (kismet_device_base_signal d) as [[last|v]|]; cbn [default signal_get];
    [| intros _; eexists; reflexivity |];
    (destruct (dict_get (kismet_device_base_name d) (PStr "")) as [|zn|name];
     [intros _; eexists; reflexivity | intros _; eexists; reflexivity |];
     destruct (dict_get (kismet_device_base_manuf d) (PStr "")) as [|zm|manuf];
     [intros _; eexists; reflexivity | intros _; eexists; reflexivity |];
     cbn; discriminate).
Qed.

(** X4: fault isolation per record.  An element of the feed that is not
    a dict, or whose name or manufacturer does not read as text, or whose
    signal entry is not a dict, raises no alert and does not disturb the
    rest of the batch: the batch is analysed as if the element were not
    there. *)
Theorem unreadable_record_is_skipped (E : env) (dev : record)
        (before after : list record) (st : state) :
  readable dev = false ->
  analyze_devices E (JList (before ++ dev :: after)) st
  = analyze_devices E (JList (before ++ after)) st.
Proof.
  intros Hbad. rewrite !analyze_devices_app. rewrite analyze_devices_cons.
  destruct (unreadable_raises E dev (exec (analyze_devices E (JList before)) st) Hbad)
    as (e & Hraise).
  unfold exec at 1, try_except. rewrite Hraise. reflexivity.
Qed.

Lemma unreadable_record_is_skipped_witness :
  readable (RDict numeric_name) = false
  /\ analyze_devices demo_env (JList ([RDict ring_doorbell] ++ RDict numeric_name
                                       :: [RDict mavic])) initial_state
     = analyze_devices demo_env (JList ([RDict ring_doorbell] ++ [RDict mavic]))
                       initial_state.
Proof.
  assert (B : readable (RDict numeric_name) = false) by reflexivity.
  split; [exact B|].
  exact (unreadable_record_is_skipped demo_env (RDict numeric_name)
           [RDict ring_doorbell] [RDict mavic] initial_state B).
Defined.

(** X5: a failure late in the [try] block keeps the alerts already
    raised.  For a record whose name and manufacturer are text and whose
    last signal is null or text, the comparison with the threshold raises
    a type error after the keyword and PHY rules have run; the exception
    is swallowed, the batch returns normally, and the store holds the
    drone alerts of these two rules on top of the earlier entries and
    nothing else: no signal alert is raised. *)
Theorem late_failure_keeps_drone_alerts (E : env) (d : device) (name manuf : string)
        (v : pyval) (st : state) :
  dict_get (kismet_device_base_name d) (PStr "") = PStr name ->
  dict_get (kismet_device_base_manuf d) (PStr "") = PStr manuf ->
  signal_get (default (SigDict None) (kismet_device_base_signal d)) (PInt (-100))
  = Ok v ->
  v = PNone \/ (exists text, v = PStr text) ->
  (length (alerts st) <= MAX_ALERTS)%nat ->
  let mac := dict_get (kismet_device_base_macaddr d) (PStr "") in
  let phy := dict_get (kismet_device_base_phyname d) (PStr "") in
  outcome (analyze_device E (RDict d)) st = Raise (not_supported ">" v)
  /\ outcome (analyze_devices E (JList [RDict d])) st = Ok tt
  /\ List.map view (alerts (exec (analyze_devices E (JList [RDict d])) st))
     = firstn MAX_ALERTS
         (uav_views name mac phy manuf v
            ++ keyword_views name mac phy manuf v
            ++ List.map view (alerts st)).
Proof.
  intros Hn Hm Hs Hv Hcap. cbv zeta.
  set (mac := dict_get (kismet_device_base_macaddr d) (PStr "")).
  set (phy := dict_get (kismet_device_base_phyname d) (PStr "")).
  destruct (drone_rules_views E d name manuf v st Hcap)
    as (s1 & s2 & Hk & Hp & _ & Hviews).
  fold mac phy in Hk, Hp, Hviews.
  assert (Hraise : signal_rule E d (PStr name) mac phy v s2
                   = (Raise (not_supported ">" v), s2)).
  { unfold signal_rule. run_monad.
    destruct Hv as [-> | (text & ->)]; reflexivity. }
  assert (Hrun : analyze_device E (RDict d) st = (Raise (not_supported ">" v), s2)).
  { rewrite (analyze_device_rules E d name manuf v st Hn Hm Hs). cbv zeta.
    fold mac phy. rewrite (run_three _ _ _ st s1 s2 Hk Hp). exact Hraise. }
  split; [unfold outcome; rewrite Hrun; reflexivity|].
  assert (Hbatch : analyze_devices E (JList [RDict d]) st = (Ok tt, s2)).
  { rewrite analyze_devices_cons. unfold exec, try_except. rewrite Hrun.
    reflexivity. }
  unfold outcome, exec. rewrite Hbatch.
  split; [reflexivity | exact Hviews].
Qed.

Lemma late_failure_keeps_drone_alerts_witness :
  dict_get (kismet_device_base_name mavic_text_signal) (PStr "")
  = PStr "DJI-Mavic-3-Pro"
  /\ dict_get (kismet_device_base_manuf mavic_text_signal) (PStr "")
     = PStr "DJI Technology"
  /\ signal_get (default (SigDict None) (kismet_device_base_signal mavic_text_signal))
                (PInt (-100)) = Ok (PStr "-38")
  /\ (PStr "-38" = PNone \/ (exists text, PStr "-38" = PStr text))
  /\ (length (alerts initial_state) <= MAX_ALERTS)%nat
  /\ List.map view
       (alerts (exec (analyze_devices demo_env (JList [RDict mavic_text_signal]))
                     initial_state))
     = [("drone"%string, "critical"%string,
         PStr "🚁 Drone detected: DJI-Mavic-3-Pro",
         PStr ("MAC: 60:60:1F:AA:BB:CC | PHY: IEEE802.11 | Manuf: DJI Technology"
               +:+ " | Signal: -38 dBm | Keyword matched: 'dji'"))].
Proof.
  assert (N : dict_get (kismet_device_base_name mavic_text_signal) (PStr "")
              = PStr "DJI-Mavic-3-Pro") by reflexivity.
  assert (F : dict_get (kismet_device_base_manuf mavic_text_signal) (PStr "")
              = PStr "DJI Technology") by reflexivity.
  assert (S : signal_get (default (SigDict None)
                            (kismet_device_base_signal mavic_text_signal))
                         (PInt (-100)) = Ok (PStr "-38")) by reflexivity.
  assert (V : PStr "-38" = PNone \/ (exists text, PStr "-38" = PStr text))
    by (right; eexists; reflexivity).
  assert (C : (length (alerts initial_state) <= MAX_ALERTS)%nat)
    by (vm_compute; lia).
  repeat (split; [assumption|]).
  pose proof (late_failure_keeps_drone_alerts demo_env mavic_text_signal _ _ _
                initial_state N F S V C) as H.
  cbv zeta in H. destruct H as (_ & _ & H). rewrite H.
  vm_compute. reflexivity.
Defined.

Lemma stored_keeps_previous e e' l :
  In e (stored e' (stored e l)).
Proof.
  unfold stored at 1.
  destruct (Nat.ltb_spec MAX_ALERTS (length (e' :: stored e l))) as [Hlt|_].
  - pose proof (stored_head e l) as Hhd.
    destruct (stored e l) as [|x [|y rest]] eqn:Hst; [discriminate Hhd | |].
    + cbn [length] in Hlt. unfold MAX_ALERTS in Hlt. lia.
    + injection Hhd as ->.
      change (removelast (e' :: e :: y :: rest))
        with (e' :: e :: removelast (y :: rest)).
      right. left. reflexivity.
  - pose proof (stored_head e l) as Hhd.
    destruct (stored e l) as [|x rest]; [discriminate Hhd|].
    injection Hhd as ->. right. left. reflexivity.
Qed.

(** X6: the PHY rule.  For a record whose name and manufacturer are text
    and whose last signal is an integer, a link-layer tag equal to "UAV"
    makes the PHY rule one [push_alert] of a drone / critical event, with
    or without a keyword match, and that event is in the store after the
    analysis; any other tag makes the rule leave the state untouched. *)
Theorem uav_phy_detector (E : env) (d : device) (name manuf : string) (z : Z)
        (st : state) :
  dict_get (kismet_device_base_name d) (PStr "") = PStr name ->
  dict_get (kismet_device_base_manuf d) (PStr "") = PStr manuf ->
  signal_get (default (SigDict None) (kismet_device_base_signal d)) (PInt (-100))
  = Ok (PInt z) ->
  let mac := dict_get (kismet_device_base_macaddr d) (PStr "") in
  let phy := dict_get (kismet_device_base_phyname d) (PStr "") in
  let rule := phy_rule E d (PStr name) mac phy (PStr manuf) (PInt z) in
  let st' := exec (analyze_device E (RDict d)) st in
  (phy = PStr "UAV" ->
   exists title body,
     (forall s, rule s = push_alert E "drone" "critical" (PStr title) (PStr body)
                                    (Some d) s)
     /\ PyStr.startswith "🚁 UAV PHY device: " title = true
     /\ exists e, In e (alerts st')
                  /\ alert_type e = "drone"%string
                  /\ alert_severity e = "critical"%string
                  /\ alert_title e = PStr title)
  /\ (py_eq_str phy "UAV" = false -> forall s, rule s = (Ok tt, s)).
Proof.
  intros Hn Hm Hs. cbv zeta.
  set (mac := dict_get (kismet_device_base_macaddr d) (PStr "")).
  set (phy := dict_get (kismet_device_base_phyname d) (PStr "")).
  split.
  - intros Hphy. unfold phy_rule. rewrite Hphy.
    change (py_eq_str (PStr "UAV") "UAV") with true. cbv iota.
    set (title := "🚁 UAV PHY device: " +:+ py_str (py_or (PStr name) mac)).
    set (body := "MAC: " +:+ py_str mac +:+ " | Manuf: " +:+ py_str (PStr manuf)
                 +:+ " | Signal: " +:+ py_str (PInt z) +:+ " dBm").
    exists title, body. split; [intros s; reflexivity|].
    split; [apply startswith_app|].
    destruct (keyword_rule_run E d (PStr name) mac (PStr "UAV") (PStr manuf) (PInt z)
                               (combined_of name manuf) st) as (s1 & Hk & _).
    destruct (push_alert_run E "drone" "critical" (PStr title) (PStr body)
                             (Some d) s1) as (s2 & Hp & Ha2 & _).
    exists (new_entry E "drone" "critical" (PStr title) (PStr body) s1).
    split; [|repeat split].
    unfold exec.
    rewrite (analyze_device_rules E d name manuf (PInt z) st Hn Hm Hs). cbv zeta.
    fold mac phy. rewrite Hphy.
    assert (Hp' : phy_rule E d (PStr name) mac (PStr "UAV") (PStr manuf) (PInt z) s1
                  = (Ok tt, s2)) by exact Hp.
    rewrite (run_three _ _ _ st s1 s2 Hk Hp').
    unfold signal_rule. run_monad. cbn [py_gt].
    destruct (INTERESTING_SIGNAL <? z).
    + match goal with
      | |- context [push_alert E ?t ?sv ?ti ?b ?dv s2] =>
          destruct (push_alert_run E t sv ti b dv s2) as (s3 & Hrun & Ha3 & _)
      end.
      rewrite Hrun. cbn [snd]. rewrite Ha3, Ha2. apply stored_keeps_previous.
    + cbn [snd]. rewrite Ha2.
      pose proof (stored_head (new_entry E "drone" "critical" (PStr title)
                                         (PStr body) s1) (alerts s1)) as Hhd.
      destruct (stored _ (alerts s1)) as [|x rest]; [discriminate Hhd|].
      injection Hhd as ->. left. reflexivity.
  - intros Hphy s. unfold phy_rule. rewrite Hphy. reflexivity.
Qed.

Lemma uav_phy_detector_witness :
  dict_get (kismet_device_base_name remote_id_beacon) (PStr "")
  = PStr "RemoteID-0x4F2A"
  /\ dict_get (kismet_device_base_manuf remote_id_beacon) (PStr "") = PStr "Unknown"
  /\ signal_get (default (SigDict None) (kismet_device_base_signal remote_id_beacon))
                (PInt (-100)) = Ok (PInt (-71))
  /\ dict_get (kismet_device_base_phyname remote_id_beacon) (PStr "") = PStr "UAV"
  /\ first_keyword (combined_of "RemoteID-0x4F2A" "Unknown") = None
  /\ exists e, In e (alerts (exec (analyze_device demo_env (RDict remote_id_beacon))
                                  initial_state))
               /\ alert_type e = "drone"%string.
Proof.
  assert (N : dict_get (kismet_device_base_name remote_id_beacon) (PStr "")
              = PStr "RemoteID-0x4F2A") by reflexivity.
  assert (F : dict_get (kismet_device_base_manuf remote_id_beacon) (PStr "")
              = PStr "Unknown") by reflexivity.
  assert (S : signal_get (default (SigDict None)
                            (kismet_device_base_signal remote_id_beacon))
                         (PInt (-100)) = Ok (PInt (-71))) by reflexivity.
  assert (P : dict_get (kismet_device_base_phyname remote_id_beacon) (PStr "")
              = PStr "UAV") by reflexivity.
  assert (K : first_keyword (combined_of "RemoteID-0x4F2A" "Unknown") = None)
    by (vm_compute; reflexivity).
  repeat (split; [assumption|]).
  destruct (proj1 (uav_phy_detector demo_env remote_id_beacon _ _ _ initial_state
                     N F S) P)
    as (title & body & _ & _ & e & Hin & Ht & _).
  exists e. split; assumption.
Defined.

(** ** The mirror poll is contained *)

Lemma mirror_run_refl st : mirror_run st st.
Proof. split; [reflexivity | split; [reflexivity | apply engine_grows_refl]]. Qed.

Lemma mirror_run_trans st1 st2 st3 :
  mirror_run st1 st2 -> mirror_run st2 st3 -> mirror_run st1 st3.
Proof.
  intros (w1 & t1 & g1) (w2 & t2 & g2).
  split; [congruence|]. split; [congruence|].
  eapply engine_grows_trans; eassumption.
Qed.

Lemma push_without_device E atype severity title body st :
  exists st',
    push_alert E atype severity title body None st = (Ok tt, st')
    /\ alerts st' = stored (new_entry E atype severity title body st) (alerts st)
    /\ mirror_run st st'.
Proof.
  destruct (push_alert_grows E atype severity title body None st)
    as (st' & Hrun & Ha & Ht & Hw & Hg).
  exists st'. split; [exact Hrun|]. split; [exact Ha|].
  split; [apply Hw; reflexivity|]. split; [|exact Hg].
  rewrite Ht, app_nil_r. reflexivity.
Qed.

Lemma mirror_alert_contained E a st :
  exists r st', mirror_alert E a st = (r, st') /\ mirror_run st st'.
Proof.
  destruct a as [severity header text|v];
    [|eexists _, st; split; [reflexivity | apply mirror_run_refl]].
  unfold mirror_alert. run_monad.
  destruct (py_lt _ 10) as [low|e];
    [|eexists _, st; split; [reflexivity | apply mirror_run_refl]].
  match goal with
  | |- context [push_alert E ?t ?sv ?ti ?b None st] =>
      destruct (push_without_device E t sv ti b st) as (st' & Hrun & _ & Hm)
  end.
  eexists _, st'. split; [exact Hrun | exact Hm].
Qed.

Lemma for_each_mirror_contained E l st :
  exists r st', for_each l (mirror_alert E) st = (r, st') /\ mirror_run st st'.
Proof.
  revert st. induction l as [|a l IH]; intros st.
  - eexists _, st. split; [reflexivity | apply mirror_run_refl].
  - destruct (mirror_alert_contained E a st) as (r & s1 & Hrun & Hm).
    rewrite for_each_cons, Hrun. destruct r as [[]|e].
    + destruct (IH s1) as (r2 & s2 & Hrest & Hm2).
      eexists _, s2. split; [exact Hrest|]. eapply mirror_run_trans; eassumption.
    + eexists _, s1. split; [reflexivity | exact Hm].
Qed.

Lemma tick_mirror_run st : mirror_run st (set_tick (S (tick st)) st).
Proof.
  split; [reflexivity|]. split; [reflexivity|].
  unfold engine_grows. state_fields. repeat split; auto.
  exists []. rewrite app_nil_r. reflexivity.
Qed.

Lemma poll_run E st :
  exists st', poll_kismet_alerts E st = (Ok tt, st')
              /\ mirror_run st st'
              /\ (kismet_get_alerts E (tick st) = Ok JOther ->
                  alerts st' = alerts st).
Proof.
  unfold poll_kismet_alerts. run_monad.
  pose proof (tick_mirror_run st) as Htick.
  destruct (kismet_get_alerts E (tick st)) as [[l|]|e].
  - destruct (for_each_mirror_contained E (slice_last 20 l)
                (set_tick (S (tick st)) st)) as (r & s1 & Hloop & Hm).
    rewrite Hloop. destruct r as [[]|e].
    + exists s1. split; [reflexivity|].
      split; [eapply mirror_run_trans; eassumption | discriminate].
    + match goal with
      | |- context [push_alert E ?t ?sv ?ti ?b None s1] =>
          destruct (push_without_device E t sv ti b s1) as (s2 & Hpush & _ & Hm2)
      end.
      exists s2. split; [exact Hpush|]. split; [|discriminate].
      eapply mirror_run_trans; [exact Htick|].
      eapply mirror_run_trans; eassumption.
  - eexists. split; [reflexivity|]. split; [exact Htick | reflexivity].
  - match goal with
    | |- context [push_alert E ?t ?sv ?ti ?b None ?s] =>
        destruct (push_without_device E t sv ti b s) as (s2 & Hpush & _ & Hm2)
    end.
    exists s2. split; [exact Hpush|]. split; [|discriminate].
    eapply mirror_run_trans; eassumption.
Qed.

(** X7: the mirror poll is contained.  Whatever the feed answers, the
    poll returns normally; it never changes the watchlist and never
    starts a save thread, leaves the save log, the files and the
    automation settings alone, and keeps a store that is within capacity
    within it.  When the fetched document is not a list, the store is
    unchanged as well. *)
Theorem poll_is_contained (E : env) (st : state) :
  let st' := exec (poll_kismet_alerts E) st in
  outcome (poll_kismet_alerts E) st = Ok tt
  /\ watched_devices st' = watched_devices st
  /\ threads st' = threads st
  /\ engine_grows st st'
  /\ (kismet_get_alerts E (tick st) = Ok JOther -> alerts st' = alerts st).
Proof.
  cbv zeta.
  destruct (poll_run E st) as (st' & Hrun & (Hw & Ht & Hg) & Hother).
  unfold outcome, exec. rewrite Hrun. cbn [fst snd]. auto.
Qed.

Lemma poll_is_contained_witness :
  kismet_get_alerts feed_object_env (tick initial_state) = Ok JOther
  /\ alerts (exec (poll_kismet_alerts feed_object_env) initial_state)
     = alerts initial_state.
Proof.
  split; [reflexivity|].
  pose proof (poll_is_contained feed_object_env initial_state) as H.
  cbv zeta in H. destruct H as (_ & _ & _ & _ & H). exact (H eq_refl).
Defined.

(** X8: a failed fetch becomes an alert.  When the request to the feed
    raises, the poll returns normally and the store receives exactly one
    entry, of category and severity error, titled "Kismet alert poll
    failed", whose body is the text of the exception. *)
Theorem poll_fetch_failure_is_an_alert (E : env) (e : exn) (st : state) :
  kismet_get_alerts E (tick st) = Raise e ->
  outcome (poll_kismet_alerts E) st = Ok tt
  /\ alerts (exec (poll_kismet_alerts E) st)
     = stored (new_entry E "error" "error" (PStr "Kismet alert poll failed")
                         (PStr (exn_str e)) (set_tick (S (tick st)) st))
              (alerts st).
Proof.
  intros Hfetch.
  destruct (push_without_device E "error" "error" (PStr "Kismet alert poll failed")
              (PStr (exn_str e)) (set_tick (S (tick st)) st))
    as (s2 & Hpush & Ha & _).
  assert (Hrun : poll_kismet_alerts E st = (Ok tt, s2)).
  { unfold poll_kismet_alerts. run_monad. rewrite Hfetch. exact Hpush. }
  unfold outcome, exec. rewrite Hrun. split; [reflexivity | exact Ha].
Qed.

Lemma poll_fetch_failure_is_an_alert_witness :
  kismet_get_alerts feed_down_env (tick initial_state)
  = Raise (Exn "ConnectionError" "Connection refused")
  /\ List.map view (alerts (exec (poll_kismet_alerts feed_down_env) initial_state))
     = [poll_failed_view "Connection refused"].
Proof.
  assert (F : kismet_get_alerts feed_down_env (tick initial_state)
              = Raise (Exn "ConnectionError" "Connection refused")) by reflexivity.
  split; [exact F|].
  rewrite (proj2 (poll_fetch_failure_is_an_alert feed_down_env _ initial_state F)).
  vm_compute. reflexivity.
Defined.

Lemma for_each_app {A} (l1 l2 : list A) body st :
  for_each (l1 ++ l2) body st
  = match for_each l1 body st with
    | (Ok _, st') => for_each l2 body st'
    | (Raise e, st') => (Raise e, st')
    end.
Proof.
  revert st. induction l1 as [|x l1 IH]; intros st; [reflexivity|].
  cbn [app]. rewrite !for_each_cons.
  destruct (body x st) as [[[]|e] s1]; [apply IH | reflexivity].
Qed.

Lemma mirror_alert_raises E a st :
  unmirrorable a -> exists e, mirror_alert E a st = (Raise e, st).
Proof.
  intros Hbad. destruct a as [[[|z|s]|] header text|v];
    try (eexists; reflexivity); destruct Hbad.
Qed.

(** X9: the mirror loop stops at the first malformed record.  When the
    last 20 records of the fetched batch are some well-formed records
    followed by one on which the loop body raises (a record that is not
    a dict, or a dict whose severity is null or text), the well-formed
    ones before it are mirrored, the failure is reported as one error
    alert, the records after it are not mirrored, and the poll returns
    normally. *)
Theorem poll_stops_at_malformed_record (E : env) (batch good rest : list upstream_alert)
        (bad : upstream_alert) (st : state) :
  kismet_get_alerts E (tick st) = Ok (JList batch) ->
  slice_last 20 batch = good ++ bad :: rest ->
  Forall mirrorable good ->
  unmirrorable bad ->
  (length (alerts st) <= MAX_ALERTS)%nat ->
  outcome (poll_kismet_alerts E) st = Ok tt
  /\ exists text,
       List.map view (alerts (exec (poll_kismet_alerts E) st))
       = firstn MAX_ALERTS
           (poll_failed_view text
              :: rev (List.map mirrored good) ++ List.map view (alerts st)).
Proof.
  intros Hfetch Hslice Hgood Hbad Hcap.
  destruct (for_each_mirror E good (set_tick (S (tick st)) st) Hgood Hcap)
    as (s1 & Hloop & Hcap1 & Hviews).
  destruct (mirror_alert_raises E bad s1 Hbad) as (e & Hraise).
  destruct (push_without_device E "error" "error" (PStr "Kismet alert poll failed")
              (PStr (exn_str e)) s1) as (s2 & Hpush & Ha & _).
  assert (Hrun : poll_kismet_alerts E st = (Ok tt, s2)).
  { unfold poll_kismet_alerts. run_monad. rewrite Hfetch, Hslice.
    rewrite for_each_app, Hloop, for_each_cons, Hraise. exact Hpush. }
  unfold outcome, exec. rewrite Hrun. split; [reflexivity|].
  exists (exn_str e). cbn [snd].
  rewrite Ha, stored_firstn by exact Hcap1.
  rewrite <- firstn_map. cbn [List.map]. rewrite Hviews.
  change (view (new_entry E "error" "error" (PStr "Kismet alert poll failed")
                          (PStr (exn_str e)) s1))
    with (poll_failed_view (exn_str e)).
  state_fields.
  change (poll_failed_view (exn_str e)
            :: firstn MAX_ALERTS (rev (List.map mirrored good) ++ List.map view (alerts st)))
    with ([poll_failed_view (exn_str e)]
            ++ firstn MAX_ALERTS (rev (List.map mirrored good)
                                  ++ List.map view (alerts st))).
  rewrite firstn_app_firstn by lia. reflexivity.
Qed.

Lemma poll_stops_at_malformed_record_witness :
  kismet_get_alerts batch_null_severity_env (tick initial_state)
  = Ok (JList batch_null_severity)
  /\ slice_last 20 batch_null_severity
     = [ADict (Some (PInt 3)) (Some (PStr "APSPOOF")) (Some (PStr "first"))]
       ++ ADict (Some PNone) (Some (PStr "BADRECORD")) (Some (PStr "second"))
       :: [ADict (Some (PInt 15)) (Some (PStr "PROBECHAN")) (Some (PStr "third"))]
  /\ Forall mirrorable
       [ADict (Some (PInt 3)) (Some (PStr "APSPOOF")) (Some (PStr "first"))]
  /\ unmirrorable (ADict (Some PNone) (Some (PStr "BADRECORD")) (Some (PStr "second")))
  /\ (length (alerts initial_state) <= MAX_ALERTS)%nat
  /\ outcome (poll_kismet_alerts batch_null_severity_env) initial_state = Ok tt.
Proof.
  assert (F : kismet_get_alerts batch_null_severity_env (tick initial_state)
              = Ok (JList batch_null_severity)) by reflexivity.
  assert (S : slice_last 20 batch_null_severity
              = [ADict (Some (PInt 3)) (Some (PStr "APSPOOF")) (Some (PStr "first"))]
                ++ ADict (Some PNone) (Some (PStr "BADRECORD")) (Some (PStr "second"))
                :: [ADict (Some (PInt 15)) (Some (PStr "PROBECHAN"))
                          (Some (PStr "third"))]) by reflexivity.
  assert (G : Forall mirrorable
                [ADict (Some (PInt 3)) (Some (PStr "APSPOOF")) (Some (PStr "first"))])
    by (repeat constructor).
  assert (B : unmirrorable (ADict (Some PNone) (Some (PStr "BADRECORD"))
                                  (Some (PStr "second")))) by exact I.
  assert (C : (length (alerts initial_state) <= MAX_ALERTS)%nat)
    by (vm_compute; lia).
  repeat (split; [assumption|]).
  exact (proj1 (poll_stops_at_malformed_record batch_null_severity_env _ _ _ _
                  initial_state F S G B C)).
Defined.

(** ** Querying and clearing the store *)

Lemma filter_filter_andb {A} (p q : A -> bool) (l : list A) :
  List.filter q (List.filter p l) = List.filter (fun a => p a && q a) l.
Proof.
  induction l as [|a l IH]; [reflexivity|].
  cbn [List.filter]. destruct (p a); cbn [List.filter andb];
    [destruct (q a)|]; rewrite IH; reflexivity.
Qed.

Lemma filter_true {A} (l : list A) : List.filter (fun _ => true) l = l.
Proof. induction l as [|a l IH]; [reflexivity|]. cbn. rewrite IH. reflexivity. Qed.

Lemma api_alerts_matching severity atype limit st :
  api_alerts severity atype limit st
  = py_slice_to (default 100 limit)
                (List.filter (matches severity atype) (alerts st)).
Proof.
  unfold api_alerts, matches. cbv zeta. f_equal.
  destruct (query_arg severity) as [s|], (query_arg atype) as [t|].
  - apply filter_filter_andb.
  - apply List.filter_ext. intros a. rewrite andb_true_r. reflexivity.
  - reflexivity.
  - symmetry. apply filter_true.
Qed.

(** X10: what a query returns.  For a limit that is not negative, the
    answer is the newest [limit] entries of the store that match both
    filters, in store order: every entry returned is in the store and
    has the requested severity and category, at most [limit] entries are
    returned, and an entry that matches is left out only behind [limit]
    newer matches.  An empty filter is no filter, and an absent limit is
    100. *)
Theorem api_alerts_newest_matches (severity atype : option string) (limit : Z)
        (st : state) :
  0 <= limit ->
  let result := api_alerts severity atype (Some limit) st in
  let matching := List.filter (matches severity atype) (alerts st) in
  (exists older, matching = result ++ older
                 /\ (older <> [] -> length result = Z.to_nat limit))
  /\ (length result <= Z.to_nat limit)%nat
  /\ (forall a, In a result ->
        In a (alerts st)
        /\ (forall s, severity = Some s -> s <> ""%string -> alert_severity a = s)
        /\ (forall t, atype = Some t -> t <> ""%string -> alert_type a = t))
  /\ api_alerts (Some ""%string) atype (Some limit) st
     = api_alerts None atype (Some limit) st
  /\ api_alerts severity atype None st = api_alerts severity atype (Some 100) st.
Proof.
  intros Hlimit. cbv zeta. rewrite !api_alerts_matching.
  change (default 100 (Some limit)) with limit.
  change (default 100 (@None Z)) with 100.
  change (default 100 (Some 100)) with 100.
  unfold py_slice_to.
  destruct (Z.leb_spec 0 limit) as [_|Hneg]; [|lia].
  set (matching := List.filter (matches severity atype) (alerts st)).
  split.
  { exists (skipn (Z.to_nat limit) matching). split.
    - symmetry. apply firstn_skipn.
    - intros Hne. apply firstn_length_le.
      destruct (Nat.le_gt_cases (Z.to_nat limit) (length matching)) as [H|H];
        [exact H|].
      exfalso. apply Hne. apply skipn_all2. lia. }
  split; [apply firstn_le_length|].
  split; [|split; reflexivity].
  intros a Hin.
  assert (Hm : In a matching).
  { rewrite <- (firstn_skipn (Z.to_nat limit) matching). apply in_or_app. left.
    exact Hin. }
  apply List.filter_In in Hm. destruct Hm as [Hstore Hmatch].
  split; [exact Hstore|].
  unfold matches in Hmatch. apply andb_prop in Hmatch. destruct Hmatch as [Hs Ht].
  split.
  - intros s -> Hne. cbn [query_arg] in Hs.
    destruct (String.eqb_spec s ""); [contradiction|].
    apply String.eqb_eq. exact Hs.
  - intros t -> Hne. cbn [query_arg] in Ht.
    destruct (String.eqb_spec t ""); [contradiction|].
    apply String.eqb_eq. exact Ht.
Qed.

Lemma api_alerts_newest_matches_witness :
  0 <= 1
  /\ api_alerts (Some "critical"%string) None (Some 1) (set_alerts five_alerts initial_state)
     = [AlertEntry "t5" "drone" "critical" (PStr "fifth") PNone 5]
  /\ (length (api_alerts (Some "critical"%string) None (Some 1%Z)
                         (set_alerts five_alerts initial_state)) <= Z.to_nat 1%Z)%nat.
Proof.
  assert (L : 0 <= 1) by lia.
  split; [exact L|]. split; [vm_compute; reflexivity|].
  exact (proj1 (proj2 (api_alerts_newest_matches (Some "critical"%string) None 1
                         (set_alerts five_alerts initial_state) L))).
Defined.

(** X11: a negative limit counts from the old end.  With a limit of
    [-k] the query leaves out the [k] oldest matching entries (all of
    them when there are at most [k]) and returns the others, newest
    first. *)
Theorem api_alerts_negative_limit (severity atype : option string) (limit : Z)
        (st : state) :
  limit < 0 ->
  let result := api_alerts severity atype (Some limit) st in
  let matching := List.filter (matches severity atype) (alerts st) in
  exists dropped,
    matching = result ++ dropped
    /\ length dropped = Nat.min (Z.to_nat (- limit)) (length matching).
Proof.
  intros Hneg. cbv zeta. rewrite api_alerts_matching.
  change (default 100 (Some limit)) with limit.
  unfold py_slice_to.
  destruct (Z.leb_spec 0 limit) as [Hpos|_]; [lia|].
  set (matching := List.filter (matches severity atype) (alerts st)).
  exists (skipn (length matching - Z.to_nat (- limit)) matching).
  split; [symmetry; apply firstn_skipn|].
  rewrite length_skipn. lia.
Qed.

Lemma api_alerts_negative_limit_witness :
  -2 < 0
  /\ exists dropped,
       List.filter (matches None None) five_alerts
       = api_alerts None None (Some (-2)) (set_alerts five_alerts initial_state)
         ++ dropped
       /\ length dropped = 2%nat.
Proof.
  assert (L : -2 < 0) by lia.
  split; [exact L|].
  exact (api_alerts_negative_limit None None (-2)
           (set_alerts five_alerts initial_state) L).
Defined.

(** X12: clearing.  After [api_alerts_clear] every query is empty,
    whatever its filters and limit; the watchlist, the save log, the
    automation settings and the threads are as before; and the next
    alert pushed is the only entry of the store. *)
Theorem clear_empties_the_store (E : env) (severity atype : option string)
        (limit : option Z) (c : push_call) (st : state) :
  let cleared := api_alerts_clear st in
  api_alerts severity atype limit cleared = []
  /\ watched_devices cleared = watched_devices st
  /\ alert_saves cleared = alert_saves st
  /\ automations cleared = automations st
  /\ threads cleared = threads st
  /\ alerts (exec (do_push E c) cleared)
     = [new_entry E (call_type c) (call_severity c) (call_title c) (call_body c)
                  cleared].
Proof.
  cbv zeta. split.
  { rewrite api_alerts_matching. unfold api_alerts_clear, py_slice_to.
    state_fields. cbn [List.filter length].
    destruct (0 <=? default 100 limit); apply firstn_nil. }
  repeat (split; [reflexivity|]).
  destruct (do_push_run E c (api_alerts_clear st)) as (st' & Hrun & Ha & _).
  unfold exec. rewrite Hrun. cbn [snd]. rewrite Ha.
  apply stored_below_capacity. unfold api_alerts_clear. state_fields.
  unfold MAX_ALERTS. cbn [length]. lia.
Qed.

(** ** The watchlist routes *)

Lemma api_watchlist_add_run E upper data mac st :
  dict_get (post_mac data) (PStr "") = PStr mac ->
  upper mac <> ""%string ->
  api_watchlist_add E upper data st
  = (Ok (Watched (size (<[PStr (upper mac) :=
                           WatchEntry (PStr (upper mac))
                             (dict_get (post_name data) (PStr ""))
                             (dict_get (post_phyname data) (PStr ""))
                             (datetime_now_isoformat E (tick st)) None]>
                        (watched_devices st)))),
     set_watched_devices
       (<[PStr (upper mac) :=
            WatchEntry (PStr (upper mac))
              (dict_get (post_name data) (PStr ""))
              (dict_get (post_phyname data) (PStr ""))
              (datetime_now_isoformat E (tick st)) None]>
          (watched_devices st))
       (set_tick (S (tick st)) st)).
Proof.
  intros Hmac Hne. unfold api_watchlist_add. rewrite Hmac. run_monad.
  cbn [py_upper]. destruct (String.eqb_spec (upper mac) ""); [contradiction|].
  reflexivity.
Qed.

Lemma api_watchlist_remove_run upper mac st :
  api_watchlist_remove upper mac st
  = (Ok (Watched (size (delete (PStr (upper mac)) (watched_devices st)))),
     set_watched_devices (delete (PStr (upper mac)) (watched_devices st)) st).
Proof. reflexivity. Qed.

(** X13: a manual add.  For a request whose identifier is text that is
    not empty once upper-cased, the entry is stored under the upper-cased
    identifier, with the name and link-layer tag of the request and
    without the automatic mark; an entry already under that identifier is
    replaced, not duplicated; the entries of other identifiers are
    untouched; and the reply counts the entries of the watchlist. *)
Theorem watchlist_add_stores_entry (E : env) (upper : string -> string)
        (data : watchlist_post) (mac : string) (st : state) :
  dict_get (post_mac data) (PStr "") = PStr mac ->
  upper mac <> ""%string ->
  let key := PStr (upper mac) in
  let st' := exec (api_watchlist_add E upper data) st in
  outcome (api_watchlist_add E upper data) st
  = Ok (Watched (size (watched_devices st')))
  /\ watched_devices st' !! key
     = Some (WatchEntry key (dict_get (post_name data) (PStr ""))
                        (dict_get (post_phyname data) (PStr ""))
                        (datetime_now_isoformat E (tick st)) None)
  /\ (forall k, k <> key -> watched_devices st' !! k = watched_devices st !! k)
  /\ size (watched_devices st')
     = match watched_devices st !! key with
       | Some _ => size (watched_devices st)
       | None => S (size (watched_devices st))
       end
  /\ length (entries_for key (watched_devices st')) = 1%nat
  /\ alerts st' = alerts st
  /\ alert_saves st' = alert_saves st
  /\ automations st' = automations st.
Proof.
  intros Hmac Hne. cbv zeta. unfold outcome, exec.
  rewrite (api_watchlist_add_run E upper data mac st Hmac Hne). state_fields.
  split; [reflexivity|]. split; [apply lookup_insert_eq|].
  split; [intros k Hk; apply lookup_insert_ne; congruence|].
  split.
  { destruct (watched_devices st !! PStr (upper mac)) eqn:Hl.
    - apply map_size_insert_Some. eauto.
    - apply map_size_insert_None. exact Hl. }
  split; [rewrite entries_for_length, lookup_insert_eq; reflexivity|].
  repeat split.
Qed.

Lemma watchlist_add_stores_entry_witness :
  dict_get (post_mac watch_mavic_post) (PStr "") = PStr "60:60:1f:aa:bb:cc"
  /\ ascii_upper "60:60:1f:aa:bb:cc" <> ""%string
  /\ watch_name <$> (watched_devices
                       (exec (api_watchlist_add demo_env ascii_upper watch_mavic_post)
                             initial_state)
                     !! PStr (ascii_upper "60:60:1f:aa:bb:cc"))
     = Some (PStr "Neighbour's drone").
Proof.
  assert (M : dict_get (post_mac watch_mavic_post) (PStr "")
              = PStr "60:60:1f:aa:bb:cc") by reflexivity.
  assert (U : ascii_upper "60:60:1f:aa:bb:cc" <> ""%string)
    by (vm_compute; discriminate).
  split; [exact M|]. split; [exact U|].
  rewrite (proj1 (proj2 (watchlist_add_stores_entry demo_env ascii_upper
                           watch_mavic_post _ initial_state M U))).
  reflexivity.
Defined.

(** X14: a removal.  [api_watchlist_remove] never raises; it removes the
    entry stored under the upper-cased identifier and no other, changes
    nothing when that identifier is not watched, and nothing but the
    watchlist in any case.  In particular an add followed by the removal
    of the same identifier leaves the identifier unwatched, and leaves
    the watchlist as it was when the identifier was not watched before. *)
Theorem watchlist_remove_round_trip (E : env) (upper : string -> string)
        (data : watchlist_post) (mac : string) (st : state) :
  let key := PStr (upper mac) in
  let removed := exec (api_watchlist_remove upper mac) st in
  outcome (api_watchlist_remove upper mac) st
  = Ok (Watched (size (watched_devices removed)))
  /\ watched_devices removed !! key = None
  /\ (forall k, k <> key -> watched_devices removed !! k = watched_devices st !! k)
  /\ (watched_devices st !! key = None -> removed = st)
  /\ alerts removed = alerts st
  /\ (dict_get (post_mac data) (PStr "") = PStr mac ->
      upper mac <> ""%string ->
      let st2 := exec (api_watchlist_remove upper mac)
                      (exec (api_watchlist_add E upper data) st) in
      watched_devices st2 !! key = None
      /\ (watched_devices st !! key = None ->
          watched_devices st2 = watched_devices st)).
Proof.
  cbv zeta. unfold outcome, exec. rewrite api_watchlist_remove_run. state_fields.
  split; [reflexivity|]. split; [apply lookup_delete_eq|].
  split; [intros k Hk; apply lookup_delete_ne; congruence|].
  split.
  { intros Hnone. rewrite delete_id by exact Hnone. destruct st; reflexivity. }
  split; [reflexivity|].
  intros Hmac Hne.
  rewrite (api_watchlist_add_run E upper data mac st Hmac Hne).
  rewrite api_watchlist_remove_run. state_fields.
  split; [apply lookup_delete_eq|].
  intros Hnone. apply delete_insert_id. exact Hnone.
Qed.

Lemma watchlist_remove_round_trip_witness :
  dict_get (post_mac watch_mavic_post) (PStr "") = PStr "60:60:1f:aa:bb:cc"
  /\ ascii_upper "60:60:1f:aa:bb:cc" <> ""%string
  /\ watched_devices initial_state !! PStr (ascii_upper "60:60:1f:aa:bb:cc") = None
  /\ watched_devices
       (exec (api_watchlist_remove ascii_upper "60:60:1f:aa:bb:cc")
             (exec (api_watchlist_add demo_env ascii_upper watch_mavic_post)
                   initial_state))
     = watched_devices initial_state.
Proof.
  assert (M : dict_get (post_mac watch_mavic_post) (PStr "")
              = PStr "60:60:1f:aa:bb:cc") by reflexivity.
  assert (U : ascii_upper "60:60:1f:aa:bb:cc" <> ""%string)
    by (vm_compute; discriminate).
  assert (N : watched_devices initial_state
              !! PStr (ascii_upper "60:60:1f:aa:bb:cc") = None) by reflexivity.
  repeat (split; [assumption|]).
  pose proof (watchlist_remove_round_trip demo_env ascii_upper watch_mavic_post
                "60:60:1f:aa:bb:cc" initial_state) as (_ & _ & _ & _ & _ & H).
  exact (proj2 (H M U) N).
Defined.

(** X15: a request that is refused changes nothing.  When the identifier
    of the request is absent or is text that is empty once upper-cased,
    the reply is "MAC required" and the state is untouched; when the
    identifier is not text, the call raises and the state is untouched. *)
Theorem watchlist_add_refusal_leaves_state (E : env) (upper : string -> string)
        (data : watchlist_post) (st : state) :
  (forall mac, dict_get (post_mac data) (PStr "") = PStr mac ->
               upper mac = ""%string ->
               api_watchlist_add E upper data st = (Ok MacRequired, st))
  /\ ((forall mac, dict_get (post_mac data) (PStr "") <> PStr mac) ->
      exists e, api_watchlist_add E upper data st = (Raise e, st)).
Proof.
  split.
  - intros mac Hmac Hempty. unfold api_watchlist_add. rewrite Hmac. run_monad.
    cbn [py_upper]. rewrite Hempty. reflexivity.
  - intros Hnot. unfold api_watchlist_add. run_monad.
    destruct (dict_get (post_mac data) (PStr "")) as [|z|s] eqn:Hd;
      [eexists; reflexivity | eexists; reflexivity | destruct (Hnot s eq_refl)].
Qed.

Lemma watchlist_add_refusal_leaves_state_witness :
  dict_get (post_mac (WatchlistPost None (Some (PStr "x")) None)) (PStr "") = PStr ""
  /\ ascii_upper "" = ""%string
  /\ api_watchlist_add demo_env ascii_upper (WatchlistPost None (Some (PStr "x")) None)
                       initial_state
     = (Ok MacRequired, initial_state).
Proof.
  assert (M : dict_get (post_mac (WatchlistPost None (Some (PStr "x")) None)) (PStr "")
              = PStr "") by reflexivity.
  assert (U : ascii_upper "" = ""%string) by reflexivity.
  split; [exact M|]. split; [exact U|].
  exact (proj1 (watchlist_add_refusal_leaves_state demo_env ascii_upper
                  (WatchlistPost None (Some (PStr "x")) None) initial_state)
               ""%string M U).
Defined.

(** X16: a manual entry is kept by the watch policy and opens the
    watched-only gate.  After a manual add, for every device whose
    identifier is the upper-cased identifier of the request, the watch
    policy is a no-op whatever the alert (the manual entry is not turned
    into an automatic one), and the gates of the alert-save automation
    pass exactly when the master flag and one inclusion flag are on,
    whether or not saves are restricted to watched devices. *)
Theorem manual_watch_is_kept_and_opens_gate (E : env) (upper : string -> string)
        (data : watchlist_post) (mac : string) (d : device) (st : state) :
  dict_get (post_mac data) (PStr "") = PStr mac ->
  upper mac <> ""%string ->
  kismet_device_base_macaddr d = Some (PStr (upper mac)) ->
  let st' := exec (api_watchlist_add E upper data) st in
  (forall E' atype, _auto_watch_device E' atype (Some d) st' = (Ok tt, st'))
  /\ (watch_auto <$> watched_devices st' !! PStr (upper mac)) = Some None
  /\ gates_pass st' (Some d)
     = alert_save_enabled (automations st)
       && (save_device_details (automations st)
           || save_device_traffic (automations st)).
Proof.
  intros Hmac Hne Hd. cbv zeta.
  pose proof (api_watchlist_add_run E upper data mac st Hmac Hne) as Hrun.
  set (entry := WatchEntry (PStr (upper mac)) (dict_get (post_name data) (PStr ""))
                  (dict_get (post_phyname data) (PStr ""))
                  (datetime_now_isoformat E (tick st)) None) in *.
  assert (Hst : exec (api_watchlist_add E upper data) st
                = set_watched_devices
                    (<[PStr (upper mac) := entry]> (watched_devices st))
                    (set_tick (S (tick st)) st))
    by (unfold exec; rewrite Hrun; reflexivity).
  set (st' := exec (api_watchlist_add E upper data) st) in *.
  assert (Hlook : watched_devices st' !! PStr (upper mac) = Some entry)
    by (rewrite Hst; state_fields; apply lookup_insert_eq).
  assert (Hauto : automations st' = automations st) by (rewrite Hst; reflexivity).
  split; [|split].
  - intros E' atype. rewrite auto_watch_exec. cbv zeta. rewrite Hd.
    change (dict_get (Some (PStr (upper mac))) (PStr "")) with (PStr (upper mac)).
    rewrite (bool_decide_eq_true_2 (is_Some (watched_devices st' !! PStr (upper mac))))
      by (rewrite Hlook; eauto).
    rewrite orb_true_r. reflexivity.
  - rewrite Hlook. reflexivity.
  - unfold gates_pass. cbv zeta. rewrite Hauto.
    cbn [mbind option_bind]. rewrite Hd.
    change (dict_get (Some (PStr (upper mac))) (PStr "")) with (PStr (upper mac)).
    rewrite Hlook.
    rewrite (bool_decide_eq_true_2 (is_Some (Some _))) by eauto.
    cbn [negb]. rewrite !andb_false_r. cbn [negb]. rewrite andb_true_r.
    reflexivity.
Qed.

Lemma manual_watch_is_kept_and_opens_gate_witness :
  dict_get (post_mac watch_mavic_post) (PStr "") = PStr "60:60:1f:aa:bb:cc"
  /\ ascii_upper "60:60:1f:aa:bb:cc" <> ""%string
  /\ kismet_device_base_macaddr mavic = Some (PStr (ascii_upper "60:60:1f:aa:bb:cc"))
  /\ (watch_auto <$> watched_devices
                       (exec (api_watchlist_add demo_env ascii_upper watch_mavic_post)
                             initial_state)
                     !! PStr (ascii_upper "60:60:1f:aa:bb:cc"))
     = Some None.
Proof.
  assert (M : dict_get (post_mac watch_mavic_post) (PStr "")
              = PStr "60:60:1f:aa:bb:cc") by reflexivity.
  assert (U : ascii_upper "60:60:1f:aa:bb:cc" <> ""%string)
    by (vm_compute; discriminate).
  assert (D : kismet_device_base_macaddr mavic
              = Some (PStr (ascii_upper "60:60:1f:aa:bb:cc")))
    by (vm_compute; reflexivity).
  repeat (split; [assumption|]).
  exact (proj1 (proj2 (manual_watch_is_kept_and_opens_gate demo_env ascii_upper
                         watch_mavic_post _ mavic initial_state M U D))).
Defined.

(** ** The automation settings route *)




(** X18: the master flag round trip.  Posting a false value for the
    master flag makes every later alert save a no-op, whatever the other
    flags, the alert and the device; posting a true value afterwards
    gives back the state of before when saving was enabled then. *)
Theorem disabling_suppresses_every_save (off on : json_flag) (st : state) :
  flag_truthy off = false ->
  flag_truthy on = true ->
  let disabled := api_automations_post (only_master off) st in
  (forall E a device, _save_alert_device E a device disabled = (Ok tt, disabled))
  /\ (forall device, gates_pass disabled device = false)
  /\ (alert_save_enabled (automations st) = true ->
      api_automations_post (only_master on) disabled = st).
Proof.
  intros Hoff Hon. cbv zeta.
  assert (Hflag : alert_save_enabled
                    (automations (api_automations_post (only_master off) st)) = false).
  { cbn. exact Hoff. }
  split; [|split].
  - intros E a device.
    unfold _save_alert_device. run_monad. rewrite Hflag. reflexivity.
  - intros device. unfold gates_pass. cbv zeta. rewrite Hflag. reflexivity.
  - intros Hen. unfold api_automations_post, only_master, set_automations.
    cbn. rewrite Hon.
    destruct st as [a s w [e d t o [r1 r2 r3]] dk th tk]. cbn in *.
    rewrite Hen. reflexivity.
Qed.

Lemma disabling_suppresses_every_save_witness :
  flag_truthy (FBool false) = false
  /\ flag_truthy (FBool true) = true
  /\ _save_alert_device demo_env drone_alert (Some mavic)
       (api_automations_post (only_master (FBool false)) initial_state)
     = (Ok tt, api_automations_post (only_master (FBool false)) initial_state).
Proof.
  split; [reflexivity|]. split; [reflexivity|].
  exact (proj1 (disabling_suppresses_every_save (FBool false) (FBool true)
                  initial_state eq_refl eq_refl) demo_env drone_alert (Some mavic)).
Defined.

(** ** More on the alert-save automation *)

Lemma save_run E a device label st :
  gates_pass st device = true ->
  mkdir_raises E (tick st) = None ->
  dev_name_of device = PStr label ->
  let ts_str := datetime_now_strftime E (S (tick st)) in
  let out_file := artifact_path E (alert_type a) label ts_str in
  let st2 := set_tick (S (S (S (tick st)))) st in
  _save_alert_device E a device st
  = (Ok tt,
     match write_raises E (S (S (tick st))) with
     | None =>
         set_alert_saves
           (slice_to 100
              (SaveRecord ts_str out_file (alert_type a) (PStr label) true None
                 :: alert_saves st))
           (set_disk (disk st ++ [(out_file, payload_of (automations st) ts_str a device)])
                     st2)
     | Some e =>
         set_alert_saves
           (SaveRecord ts_str out_file (alert_type a) (PStr label) false
                       (Some (exn_str e))
              :: alert_saves st)
           st2
     end).
Proof.
  intros Hgates Hmk Hlabel. cbv zeta.
  apply gates_pass_inv in Hgates. destruct Hgates as (G1 & G2 & G3).
  unfold _save_alert_device. run_monad.
  rewrite G1. cbn [negb]. rewrite G2, G3, Hmk, Hlabel.
  cbn [sanitize_value]. state_fields.
  destruct (write_raises E (S (S (tick st)))) as [e|]; reflexivity.
Qed.

Lemma safe_excludes c s :
  PyStr.forallb filename_safe s = true ->
  filename_safe c = false ->
  PyStr.char_in c s = false.
Proof.
  intros Hs Hc. induction s as [|a s IH]; [reflexivity|].
  cbn [PyStr.forallb] in Hs. apply andb_prop in Hs. destruct Hs as [Ha Hs].
  cbn [PyStr.char_in]. rewrite (IH Hs), orb_false_r.
  destruct (Ascii.eqb_spec c a) as [->|_]; [congruence | reflexivity].
Qed.

Lemma sanitize_length s : (String.length (_sanitize_filename s) <= 80)%nat.
Proof. unfold _sanitize_filename. rewrite str_length_take. lia. Qed.

(** X19: the file name of an alert save is built from sanitised parts.
    When the gates pass, whether the write succeeds or fails the record
    logged names the path [SAVE_DIR / file_name] as [pathlib] joins it,
    where the file name is [alert_<category>_<label>_<timestamp>.json]
    and category and label are the sanitised alert category and device
    label: each is at most 80 characters long and holds no slash,
    backslash, dot or blank, whatever the device is called, so that the
    name of a device cannot bring a path separator or a step to a parent
    directory into the file name. *)
Theorem save_artifact_name_is_sanitised (E : env) (a : alert_entry)
        (device : option device) (label : string) (st : state) :
  gates_pass st device = true ->
  mkdir_raises E (tick st) = None ->
  dev_name_of device = PStr label ->
  let st' := exec (_save_alert_device E a device) st in
  let category := _sanitize_filename (alert_type a) in
  let name := _sanitize_filename label in
  exists r rest,
    alert_saves st' = r :: rest
    /\ save_file r
       = join_path E (SAVE_DIR E)
           ("alert_" +:+ category +:+ "_" +:+ name +:+ "_"
              +:+ datetime_now_strftime E (S (tick st)) +:+ ".json")
    /\ save_ts r = datetime_now_strftime E (S (tick st))
    /\ (String.length category <= 80)%nat
    /\ (String.length name <= 80)%nat
    /\ (forall c, In c ["/"; "."; " "; "\"]%char ->
          PyStr.char_in c category = false /\ PyStr.char_in c name = false).
Proof.
  intros Hgates Hmk Hlabel. cbv zeta. unfold exec.
  rewrite (save_run E a device label st Hgates Hmk Hlabel). cbv zeta. cbn [snd].
  assert (Hsafe : forall s c, In c ["/"; "."; " "; "\"]%char ->
                    PyStr.char_in c (_sanitize_filename s) = false).
  { intros s c Hc. apply safe_excludes; [apply sanitize_safe|].
    cbn in Hc. destruct Hc as [<-|[<-|[<-|[<-|[]]]]]; vm_compute; reflexivity. }
  destruct (write_raises E (S (S (tick st)))) as [e|]; state_fields;
    eexists _, _; (split; [reflexivity|]); cbn [save_file save_ts];
    (split; [reflexivity|]); (split; [reflexivity|]);
    (split; [apply sanitize_length|]);
    (split; [apply sanitize_length|]);
    intros c Hc; split; apply Hsafe, Hc.
Qed.

Lemma save_artifact_name_is_sanitised_witness :
  gates_pass initial_state (Some path_climber) = true
  /\ mkdir_raises demo_env (tick initial_state) = None
  /\ dev_name_of (Some path_climber) = PStr "../../etc/cron.d/x"
  /\ exists r rest,
       alert_saves (exec (_save_alert_device demo_env drone_alert (Some path_climber))
                         initial_state) = r :: rest
       /\ save_file r = "kismet_saves/alert_drone_______etc_cron_d_x_20260224_14001.json"%string.
Proof.
  assert (G : gates_pass initial_state (Some path_climber) = true)
    by (vm_compute; reflexivity).
  assert (K : mkdir_raises demo_env (tick initial_state) = None) by reflexivity.
  assert (L : dev_name_of (Some path_climber) = PStr "../../etc/cron.d/x")
    by (vm_compute; reflexivity).
  repeat (split; [assumption|]).
  destruct (save_artifact_name_is_sanitised demo_env drone_alert (Some path_climber)
              _ initial_state G K L) as (r & rest & Hlog & Hfile & _).
  exists r, rest. split; [exact Hlog|]. rewrite Hfile. vm_compute. reflexivity.
Defined.

(** X20: the payload obeys the inclusion flags.  After a successful
    write, the file written carries the alert handed in and the time
    stamp of the record; it carries the device block exactly when device
    details are switched on and a device is attached, and the traffic
    block exactly when traffic is switched on and a device is attached;
    the raw part of the traffic block holds fields of the device only,
    each with a key containing "packet", "data" or "crypt". *)
Theorem save_payload_obeys_flags (E : env) (a : alert_entry)
        (device : option device) (label : string) (st : state) :
  gates_pass st device = true ->
  mkdir_raises E (tick st) = None ->
  dev_name_of device = PStr label ->
  write_raises E (S (S (tick st))) = None ->
  let st' := exec (_save_alert_device E a device) st in
  let auto := automations st in
  exists file p,
    disk st' = disk st ++ [(file, p)]
    /\ (exists r rest, alert_saves st' = r :: rest /\ save_file r = file
                       /\ save_ts r = payload_saved_at p)
    /\ payload_alert p = a
    /\ payload_device p
       = (if save_device_details auto && attached device then device else None)
    /\ (save_device_traffic auto && attached device = false ->
        payload_traffic p = None)
    /\ (forall d, save_device_traffic auto = true -> device = Some d ->
                  device_truthy d = true ->
        exists raw, payload_traffic p = Some raw
                    /\ forall k v, In (k, v) raw <->
                                   In (k, v) (other_fields d) /\ traffic_key k = true).
Proof.
  intros Hgates Hmk Hlabel Hw. cbv zeta. unfold exec.
  rewrite (save_run E a device label st Hgates Hmk Hlabel). cbv zeta.
  rewrite Hw. cbn [snd]. state_fields.
  eexists _, _. split; [reflexivity|].
  split; [eexists _, _; split; [reflexivity|]; split; reflexivity|].
  split; [reflexivity|]. split; [reflexivity|]. split.
  - intros Hoff. cbn [payload_of payload_traffic]. rewrite Hoff. reflexivity.
  - intros d Hon -> Htruthy. cbn [payload_of payload_traffic attached].
    rewrite Hon, Htruthy. cbn [andb fmap option_fmap option_map].
    eexists. split; [reflexivity|].
    intros k v. rewrite List.filter_In. cbn [fst]. reflexivity.
Qed.

Lemma save_payload_obeys_flags_witness :
  gates_pass initial_state (Some path_climber) = true
  /\ mkdir_raises demo_env (tick initial_state) = None
  /\ dev_name_of (Some path_climber) = PStr "../../etc/cron.d/x"
  /\ write_raises demo_env (S (S (tick initial_state))) = None
  /\ exists file p,
       disk (exec (_save_alert_device demo_env drone_alert (Some path_climber))
                  initial_state) = disk initial_state ++ [(file, p)]
       /\ payload_alert p = drone_alert.
Proof.
  assert (G : gates_pass initial_state (Some path_climber) = true)
    by (vm_compute; reflexivity).
  assert (K : mkdir_raises demo_env (tick initial_state) = None) by reflexivity.
  assert (L : dev_name_of (Some path_climber) = PStr "../../etc/cron.d/x")
    by (vm_compute; reflexivity).
  assert (W : write_raises demo_env (S (S (tick initial_state))) = None)
    by reflexivity.
  repeat (split; [assumption|]).
  destruct (save_payload_obeys_flags demo_env drone_alert (Some path_climber)
              _ initial_state G K L W) as (file & p & Hdisk & _ & Halert & _).
  exists file, p. split; assumption.
Defined.

(** ** More on the watch policy *)

(** X21: what the watch policy adds, and when it adds nothing.  When a
    rule applies to an alert for a device whose identifier is not empty
    and not yet watched, the watchlist gains exactly one entry, under
    that identifier: it carries the identifier, the name of the device
    (the identifier when the name is empty), its link-layer tag and the
    automatic mark, and the other entries are untouched.  For an alert
    category other than drone, signal and kismet, and with the three
    rules switched off, the policy changes nothing. *)
Theorem auto_watch_adds_marked_entry (E : env) (atype : string) (d : device)
        (st : state) :
  let mac := dict_get (kismet_device_base_macaddr d) (PStr "") in
  let phy := dict_get (kismet_device_base_phyname d) (PStr "") in
  let name := py_or (dict_get (kismet_device_base_name d) (PStr "")) mac in
  let st' := exec (_auto_watch_device E atype (Some d)) st in
  (truthy mac = true ->
   watched_devices st !! mac = None ->
   should_watch (auto_watch_rules (automations st)) atype phy = true ->
   watched_devices st' !! mac
   = Some (WatchEntry mac name phy (datetime_now_isoformat E (tick st)) (Some true))
   /\ (forall k, k <> mac -> watched_devices st' !! k = watched_devices st !! k)
   /\ size (watched_devices st') = S (size (watched_devices st)))
  /\ (atype <> "drone"%string -> atype <> "signal"%string -> atype <> "kismet"%string ->
      st' = st)
  /\ (auto_watch_rules (automations st) = WatchRules false false false -> st' = st).
Proof.
  cbv zeta. unfold exec. rewrite auto_watch_exec. cbv zeta. cbn [snd].
  set (mac := dict_get (kismet_device_base_macaddr d) (PStr "")).
  set (phy := dict_get (kismet_device_base_phyname d) (PStr "")).
  split; [|split].
  - intros Hmac Hnone Hrule. rewrite Hmac, Hnone, Hrule.
    rewrite (bool_decide_eq_false_2 (is_Some None)) by (intros [? ?]; discriminate).
    cbn [negb orb]. state_fields.
    split; [apply lookup_insert_eq|].
    split; [intros k Hk; apply lookup_insert_ne; congruence|].
    apply map_size_insert_None, Hnone.
  - intros H1 H2 H3.
    assert (Hno : should_watch (auto_watch_rules (automations st)) atype phy = false).
    { unfold should_watch.
      apply String.eqb_neq in H1, H2, H3. rewrite H1, H2, H3.
      rewrite !andb_false_r. reflexivity. }
    rewrite Hno. destruct (_ || _); reflexivity.
  - intros Hoff. rewrite Hoff. unfold should_watch. cbn.
    destruct (_ || _); reflexivity.
Qed.

Lemma auto_watch_adds_marked_entry_witness :
  truthy (dict_get (kismet_device_base_macaddr mavic) (PStr "")) = true
  /\ watched_devices initial_state
     !! dict_get (kismet_device_base_macaddr mavic) (PStr "") = None
  /\ should_watch (auto_watch_rules (automations initial_state)) "drone"
                  (dict_get (kismet_device_base_phyname mavic) (PStr "")) = true
  /\ size (watched_devices (exec (_auto_watch_device demo_env "drone" (Some mavic))
                                 initial_state))
     = S (size (watched_devices initial_state)).
Proof.
  assert (T : truthy (dict_get (kismet_device_base_macaddr mavic) (PStr "")) = true)
    by reflexivity.
  assert (N : watched_devices initial_state
              !! dict_get (kismet_device_base_macaddr mavic) (PStr "") = None)
    by reflexivity.
  assert (R : should_watch (auto_watch_rules (automations initial_state)) "drone"
                (dict_get (kismet_device_base_phyname mavic) (PStr "")) = true)
    by reflexivity.
  repeat (split; [assumption|]).
  exact (proj2 (proj2 (proj1 (auto_watch_adds_marked_entry demo_env "drone" mavic
                                initial_state) T N R))).
Defined.

(** ** Batch saves *)

Ltac app_fields :=
  cbn [engine kismet_url api_key username password schedules jobs last_save
       save_log last_error batch_files set_engine set_kismet_url set_api_key
       set_username set_password set_schedules set_jobs set_last_save
       set_save_log set_last_error set_batch_files fst snd] in *.

Ltac run_app :=
  unfold mbind, MA_bind, app_bind, mret, MA_ret, app_ret, app_modify, app_get,
         app_lift, app_raise in *;
  app_fields.

Lemma set_tick_twice a b st : set_tick a (set_tick b st) = set_tick a st.
Proof. reflexivity. Qed.

Lemma set_engine_twice e1 e2 s : set_engine e1 (set_engine e2 s) = set_engine e1 s.
Proof. reflexivity. Qed.

Lemma on_engine_ask {A} (oracle : nat -> A) s :
  on_engine (ask oracle) s
  = (Ok (oracle (tick (engine s))),
     set_engine (set_tick (S (tick (engine s))) (engine s)) s).
Proof. reflexivity. Qed.

Lemma on_engine_may_raise oracle s :
  on_engine (ask_may_raise oracle) s
  = (match oracle (tick (engine s)) with Some e => Raise e | None => Ok tt end,
     set_engine (set_tick (S (tick (engine s))) (engine s)) s).
Proof.
  unfold on_engine, ask_may_raise. run_monad.
  destruct (oracle (tick (engine s))); reflexivity.
Qed.

Lemma on_engine_push E atype severity title body s :
  on_engine (push_alert E atype severity title body None) s
  = (Ok tt, set_engine (exec (push_alert E atype severity title body None) (engine s)) s)
    /\ alerts (exec (push_alert E atype severity title body None) (engine s))
       = stored (new_entry E atype severity title body (engine s)) (alerts (engine s))
    /\ mirror_run (engine s) (exec (push_alert E atype severity title body None) (engine s)).
Proof.
  destruct (push_without_device E atype severity title body (engine s))
    as (st' & Hrun & Ha & Hm).
  unfold on_engine, exec. rewrite Hrun. cbn [fst snd]. auto.
Qed.

Lemma on_engine_analyze E devices s :
  on_engine (analyze_devices E devices) s
  = (Ok tt, set_engine (exec (analyze_devices E devices) (engine s)) s).
Proof.
  destruct devices as [l|]; [|reflexivity].
  destruct (analyze_devices_detects E l (engine s)) as (st' & started & Hrun & _).
  unfold on_engine, exec. rewrite Hrun. reflexivity.
Qed.

(** The failure branch of [do_save], run in a state [s1] with stamp [ts]
    and path [file]. *)
Lemma do_save_handler E ts file err s1 :
  exists s2,
    (app_modify (set_last_error (Some err));;
     app_modify (fun s =>
       set_save_log (insert0 (BatchRecord ts file 0 false (Some err)) (save_log s)) s);;
     on_engine (push_alert E "error" "error" (PStr "Batch save failed") (PStr err) None)) s1
    = (Ok tt, s2)
    /\ last_error s2 = Some err
    /\ save_log s2 = BatchRecord ts file 0 false (Some err) :: save_log s1
    /\ last_save s2 = last_save s1
    /\ batch_files s2 = batch_files s1
    /\ schedules s2 = schedules s1
    /\ jobs s2 = jobs s1
    /\ alerts (engine s2)
       = stored (new_entry E "error" "error" (PStr "Batch save failed") (PStr err)
                           (engine s1)) (alerts (engine s1))
    /\ mirror_run (engine s1) (engine s2).
Proof.
  run_app.
  match goal with
  | |- context [on_engine ?m ?s] =>
      destruct (on_engine_push E "error" "error" (PStr "Batch save failed")
                               (PStr err) s) as (Hrun & Ha & Hm);
      rewrite Hrun
  end.
  app_fields. eexists. split; [reflexivity|]. app_fields.
  do 6 (split; [reflexivity|]). split; [exact Ha | exact Hm].
Qed.

(** X22: a batch save that goes through.  When the save directory can
    be made, the device list is fetched and the file is written,
    [do_save] returns normally; it records the stamp as the last save,
    puts a success record with the number of devices at the head of the
    batch log and cuts the log to 50, writes the stamp and the fetched
    document to the file, leaves the last error as it was, and appends
    an alert of category save and severity info whose body is the path,
    on top of what the analysis of the fetched devices detected. *)
Theorem batch_save_success (AE : app_env) (label : pyval)
        (devices : json_doc record) (s : app_state) :
  let E := engine_env AE in
  let ts := batch_stamp AE s in
  let file := batch_path AE label s in
  let st := scanned AE devices s in
  let s' := app_exec (do_save AE label) s in
  mkdir_raises E (tick (engine s)) = None ->
  kismet_get_devices AE (fetch_tick s) = Ok devices ->
  batch_write_raises AE (tick st) = None ->
  app_outcome (do_save AE label) s = Ok tt
  /\ last_save s' = Some ts
  /\ save_log s'
     = firstn 50 (BatchRecord ts file (batch_count devices) true None :: save_log s)
  /\ (length (save_log s') <= 50)%nat
  /\ batch_files s' = batch_files s ++ [(file, (ts, devices))]
  /\ last_error s' = last_error s
  /\ alerts (engine s')
     = stored (new_entry E "save" "info"
                 (PStr ("💾 Batch save complete: " +:+ pretty (batch_count devices)
                        +:+ " devices"))
                 (PStr file) (set_tick (S (tick st)) st))
              (alerts st).
Proof.
  intros E ts file st s' Hmk Hfetch Hwrite.
  assert (Hrun : exists s2, do_save AE label s = (Ok tt, s2)
            /\ last_save s2 = Some ts
            /\ save_log s2
               = firstn 50 (BatchRecord ts file (batch_count devices) true None
                            :: save_log s)
            /\ batch_files s2 = batch_files s ++ [(file, (ts, devices))]
            /\ last_error s2 = last_error s
            /\ alerts (engine s2)
               = stored (new_entry E "save" "info"
                           (PStr ("💾 Batch save complete: "
                                  +:+ pretty (batch_count devices) +:+ " devices"))
                           (PStr file) (set_tick (S (tick st)) st))
                        (alerts st)).
  { unfold do_save. unfold mbind at 1 2, MA_bind at 1 2, app_bind at 1 2.
    rewrite on_engine_may_raise. fold E. rewrite Hmk.
    rewrite on_engine_ask. app_fields. state_fields.
    unfold app_try_except.
    unfold mbind at 1 2 3 4, MA_bind at 1 2 3 4, app_bind at 1 2 3 4.
    rewrite on_engine_ask. app_fields. state_fields.
    change (S (S (tick (engine s)))) with (fetch_tick s). rewrite Hfetch.
    unfold app_lift at 1. rewrite on_engine_analyze. app_fields.
    rewrite !set_tick_twice, !set_engine_twice.
    change (exec (analyze_devices E devices) (set_tick (S (fetch_tick s)) (engine s)))
      with st.
    unfold mbind at 1, MA_bind at 1, app_bind at 1.
    rewrite on_engine_may_raise. app_fields. rewrite Hwrite.
    run_app.
    match goal with
    | |- context [on_engine (push_alert ?E' ?t ?sv ?ti ?b None) ?s0] =>
        destruct (on_engine_push E' t sv ti b s0) as (Hrun & Ha & _);
        rewrite Hrun
    end.
    app_fields. eexists. split; [reflexivity|]. app_fields.
    do 4 (split; [reflexivity|]). exact Ha. }
  destruct Hrun as (s2 & Hrun & H1 & H2 & H3 & H4 & H5).
  subst s'. unfold app_outcome, app_exec. rewrite Hrun. cbn [fst snd].
  split; [reflexivity|]. split; [exact H1|]. split; [exact H2|].
  split; [rewrite H2; apply firstn_le_length|]. auto.
Qed.

Lemma batch_save_success_witness :
  mkdir_raises (engine_env depot_env) (tick (engine depot_state)) = None
  /\ kismet_get_devices depot_env (fetch_tick depot_state)
     = Ok (JList [RDict mavic; RDict ring_doorbell])
  /\ batch_write_raises depot_env
       (tick (scanned depot_env (JList [RDict mavic; RDict ring_doorbell]) depot_state))
     = None
  /\ List.map log_count (save_log (app_exec (do_save depot_env (PStr "manual"))
                                            depot_state))
     = [2%nat].
Proof.
  assert (K : mkdir_raises (engine_env depot_env) (tick (engine depot_state)) = None)
    by reflexivity.
  assert (F : kismet_get_devices depot_env (fetch_tick depot_state)
              = Ok (JList [RDict mavic; RDict ring_doorbell])) by reflexivity.
  assert (W : batch_write_raises depot_env
                (tick (scanned depot_env (JList [RDict mavic; RDict ring_doorbell])
                               depot_state)) = None) by reflexivity.
  repeat (split; [assumption|]).
  pose proof (batch_save_success depot_env (PStr "manual") _ depot_state K F W) as H.
  cbv zeta in H. destruct H as (_ & _ & Hlog & _). rewrite Hlog. reflexivity.
Defined.

Lemma engine_grows_tick st n : (tick st <= n)%nat -> engine_grows st (set_tick n st).
Proof.
  intros Hn. unfold engine_grows. state_fields.
  do 3 (split; [reflexivity|]). split; [exact Hn|]. split; [reflexivity|].
  split; [exists []; rewrite app_nil_r; reflexivity|].
  intros H; exact H.
Qed.

(** X23: a batch save whose fetch fails.  When the save directory can
    be made and the request for the device list raises, [do_save]
    returns normally; the text of the exception becomes the last error
    and the body of an alert of category and severity error titled
    "Batch save failed"; a failure record with count 0 is put at the
    head of the batch log, which is not cut on this path and so is one
    longer than before; the last save and the files are as before. *)
Theorem batch_save_fetch_failure (AE : app_env) (label : pyval) (e : exn)
        (s : app_state) :
  let E := engine_env AE in
  let s' := app_exec (do_save AE label) s in
  mkdir_raises E (tick (engine s)) = None ->
  kismet_get_devices AE (fetch_tick s) = Raise e ->
  app_outcome (do_save AE label) s = Ok tt
  /\ last_error s' = Some (exn_str e)
  /\ save_log s'
     = BatchRecord (batch_stamp AE s) (batch_path AE label s) 0 false
                   (Some (exn_str e)) :: save_log s
  /\ last_save s' = last_save s
  /\ batch_files s' = batch_files s
  /\ alerts (engine s')
     = stored (new_entry E "error" "error" (PStr "Batch save failed")
                         (PStr (exn_str e))
                         (set_tick (S (fetch_tick s)) (engine s)))
              (alerts (engine s)).
Proof.
  intros E s' Hmk Hfetch.
  assert (Hrun : exists s2, do_save AE label s = (Ok tt, s2)
            /\ last_error s2 = Some (exn_str e)
            /\ save_log s2
               = BatchRecord (batch_stamp AE s) (batch_path AE label s) 0 false
                             (Some (exn_str e)) :: save_log s
            /\ last_save s2 = last_save s
            /\ batch_files s2 = batch_files s
            /\ alerts (engine s2)
               = stored (new_entry E "error" "error" (PStr "Batch save failed")
                                   (PStr (exn_str e))
                                   (set_tick (S (fetch_tick s)) (engine s)))
                        (alerts (engine s))).
  { unfold do_save. unfold mbind at 1 2, MA_bind at 1 2, app_bind at 1 2.
    rewrite on_engine_may_raise. fold E. rewrite Hmk.
    rewrite on_engine_ask. app_fields. state_fields.
    unfold app_try_except.
    unfold mbind at 1 2, MA_bind at 1 2, app_bind at 1 2.
    rewrite on_engine_ask. app_fields. state_fields.
    change (S (S (tick (engine s)))) with (fetch_tick s). rewrite Hfetch.
    unfold app_lift at 1.
    rewrite !set_tick_twice, !set_engine_twice.
    match goal with
    | |- context [on_engine (push_alert _ _ _ _ (PStr ?err) None)] =>
        match goal with
        | |- exists s2, ?m ?s1 = _ /\ _ =>
            destruct (do_save_handler E (batch_stamp AE s) (batch_path AE label s)
                                      err s1)
              as (s2 & Hh & H1 & H2 & H3 & H4 & _ & _ & H5 & _)
        end
    end.
    exists s2. split; [exact Hh|]. app_fields. auto. }
  destruct Hrun as (s2 & Hrun & H1 & H2 & H3 & H4 & H5).
  subst s'. unfold app_outcome, app_exec. rewrite Hrun. cbn [fst snd].
  split; [reflexivity|]. repeat (split; [assumption|]). assumption.
Qed.

Lemma batch_save_fetch_failure_witness :
  mkdir_raises (engine_env offline_env) (tick (engine depot_state)) = None
  /\ kismet_get_devices offline_env (fetch_tick depot_state)
     = Raise (Exn "ConnectionError" "Connection refused")
  /\ last_error (app_exec (do_save offline_env (PStr "manual")) depot_state)
     = Some "Connection refused"%string.
Proof.
  assert (K : mkdir_raises (engine_env offline_env) (tick (engine depot_state)) = None)
    by reflexivity.
  assert (F : kismet_get_devices offline_env (fetch_tick depot_state)
              = Raise (Exn "ConnectionError" "Connection refused")) by reflexivity.
  repeat (split; [assumption|]).
  exact (proj1 (proj2 (batch_save_fetch_failure offline_env (PStr "manual") _
                         depot_state K F))).
Defined.

(** X24: a batch save whose file cannot be written.  When the device
    list is fetched and analysed but writing the file raises, [do_save]
    returns normally; the failure record at the head of the (uncut)
    batch log has count 0 although devices were fetched, the last save
    and the recorded files are as before, and the alerts the analysis
    raised stay in the store, below the alert that reports the failed
    save. *)
Theorem batch_save_write_failure (AE : app_env) (label : pyval)
        (devices : json_doc record) (e : exn) (s : app_state) :
  let E := engine_env AE in
  let st := scanned AE devices s in
  let s' := app_exec (do_save AE label) s in
  mkdir_raises E (tick (engine s)) = None ->
  kismet_get_devices AE (fetch_tick s) = Ok devices ->
  batch_write_raises AE (tick st) = Some e ->
  app_outcome (do_save AE label) s = Ok tt
  /\ last_error s' = Some (exn_str e)
  /\ save_log s'
     = BatchRecord (batch_stamp AE s) (batch_path AE label s) 0 false
                   (Some (exn_str e)) :: save_log s
  /\ last_save s' = last_save s
  /\ batch_files s' = batch_files s
  /\ alerts (engine s')
     = stored (new_entry E "error" "error" (PStr "Batch save failed")
                         (PStr (exn_str e)) (set_tick (S (tick st)) st))
              (alerts st).
Proof.
  intros E st s' Hmk Hfetch Hwrite.
  assert (Hrun : exists s2, do_save AE label s = (Ok tt, s2)
            /\ last_error s2 = Some (exn_str e)
            /\ save_log s2
               = BatchRecord (batch_stamp AE s) (batch_path AE label s) 0 false
                             (Some (exn_str e)) :: save_log s
            /\ last_save s2 = last_save s
            /\ batch_files s2 = batch_files s
            /\ alerts (engine s2)
               = stored (new_entry E "error" "error" (PStr "Batch save failed")
                                   (PStr (exn_str e)) (set_tick (S (tick st)) st))
                        (alerts st)).
  { unfold do_save. unfold mbind at 1 2, MA_bind at 1 2, app_bind at 1 2.
    rewrite on_engine_may_raise. fold E. rewrite Hmk.
    rewrite on_engine_ask. app_fields. state_fields.
    unfold app_try_except.
    unfold mbind at 1 2 3 4, MA_bind at 1 2 3 4, app_bind at 1 2 3 4.
    rewrite on_engine_ask. app_fields. state_fields.
    change (S (S (tick (engine s)))) with (fetch_tick s). rewrite Hfetch.
    unfold app_lift at 1. rewrite on_engine_analyze. app_fields.
    rewrite !set_tick_twice, !set_engine_twice.
    change (exec (analyze_devices E devices) (set_tick (S (fetch_tick s)) (engine s)))
      with st.
    rewrite on_engine_may_raise. app_fields. rewrite Hwrite.
    match goal with
    | |- exists s2, ?m ?s1 = _ /\ _ =>
        destruct (do_save_handler E (batch_stamp AE s) (batch_path AE label s)
                                  (exn_str e) s1)
          as (s2 & Hh & H1 & H2 & H3 & H4 & _ & _ & H5 & _)
    end.
    exists s2. split; [exact Hh|]. app_fields. auto. }
  destruct Hrun as (s2 & Hrun & H1 & H2 & H3 & H4 & H5).
  subst s'. unfold app_outcome, app_exec. rewrite Hrun. cbn [fst snd].
  split; [reflexivity|]. repeat (split; [assumption|]). assumption.
Qed.

Lemma batch_save_write_failure_witness :
  mkdir_raises (engine_env full_disk_env) (tick (engine depot_state)) = None
  /\ kismet_get_devices full_disk_env (fetch_tick depot_state)
     = Ok (JList [RDict mavic; RDict ring_doorbell])
  /\ batch_write_raises full_disk_env
       (tick (scanned full_disk_env (JList [RDict mavic; RDict ring_doorbell])
                      depot_state))
     = Some (Exn "OSError" "[Errno 28] No space left on device")
  /\ List.map log_count (save_log (app_exec (do_save full_disk_env (PStr "manual"))
                                            depot_state))
     = [0%nat].
Proof.
  assert (K : mkdir_raises (engine_env full_disk_env) (tick (engine depot_state)) = None)
    by reflexivity.
  assert (F : kismet_get_devices full_disk_env (fetch_tick depot_state)
              = Ok (JList [RDict mavic; RDict ring_doorbell])) by reflexivity.
  assert (W : batch_write_raises full_disk_env
                (tick (scanned full_disk_env (JList [RDict mavic; RDict ring_doorbell])
                               depot_state))
              = Some (Exn "OSError" "[Errno 28] No space left on device"))
    by reflexivity.
  repeat (split; [assumption|]).
  pose proof (batch_save_write_failure full_disk_env (PStr "manual") _ _ depot_state
                K F W) as H.
  cbv zeta in H. destruct H as (_ & _ & Hlog & _). rewrite Hlog. reflexivity.
Defined.

(** What [do_save] does to the parts of the state other than the batch
    bookkeeping, in every case. *)
Lemma do_save_contained AE label s :
  exists s',
    do_save AE label s
    = (match mkdir_raises (engine_env AE) (tick (engine s)) with
       | Some e => Raise e
       | None => Ok tt
       end, s')
    /\ schedules s' = schedules s
    /\ jobs s' = jobs s
    /\ engine_grows (engine s) (engine s')
    /\ (is_Some (mkdir_raises (engine_env AE) (tick (engine s))) ->
        s' = set_engine (set_tick (S (tick (engine s))) (engine s)) s).
Proof.
  set (E := engine_env AE).
  unfold do_save. unfold mbind at 1 2, MA_bind at 1 2, app_bind at 1 2.
  rewrite on_engine_may_raise. fold E.
  destruct (mkdir_raises E (tick (engine s))) as [e|] eqn:Hmk.
  { eexists. split; [reflexivity|]. app_fields.
    split; [reflexivity|]. split; [reflexivity|].
    split; [apply engine_grows_tick; lia | reflexivity]. }
  rewrite on_engine_ask. app_fields. state_fields.
  unfold app_try_except.
  unfold mbind at 1 2, MA_bind at 1 2, app_bind at 1 2.
  rewrite on_engine_ask. app_fields. state_fields.
  rewrite !set_tick_twice, !set_engine_twice.
  assert (Hticks : engine_grows (engine s)
                     (set_tick (S (S (S (tick (engine s))))) (engine s)))
    by (apply engine_grows_tick; lia).
  destruct (kismet_get_devices AE (S (S (tick (engine s))))) as [devices|e].
  - unfold app_lift at 1.
    unfold mbind at 1 2, MA_bind at 1 2, app_bind at 1 2.
    rewrite on_engine_analyze. app_fields.
    rewrite !set_engine_twice.
    set (st := exec (analyze_devices E devices)
                    (set_tick (S (S (S (tick (engine s))))) (engine s))).
    assert (Hst : engine_grows (engine s) st).
    { eapply engine_grows_trans; [exact Hticks|]. subst st.
      destruct devices as [l|]; [|apply engine_grows_refl].
      destruct (analyze_devices_detects E l
                  (set_tick (S (S (S (tick (engine s))))) (engine s)))
        as (st' & started & Hrun & (Hg & _) & _).
      unfold exec. rewrite Hrun. exact Hg. }
    unfold mbind at 1, MA_bind at 1, app_bind at 1.
    rewrite on_engine_may_raise. app_fields.
    destruct (batch_write_raises AE (tick st)) as [e|].
    + match goal with
      | |- context [BatchRecord ?ts ?file 0 false (Some ?err)] =>
          match goal with
          | |- exists s2, ?m ?s1 = _ /\ _ =>
              destruct (do_save_handler E ts file err s1)
                as (sh & Hh & _ & _ & _ & _ & Hs & Hj & _ & (_ & _ & Hg))
          end
      end.
      exists sh. split; [exact Hh|]. app_fields.
      split; [exact Hs|]. split; [exact Hj|].
      split; [|intros [x Hx]; discriminate].
      eapply engine_grows_trans; [exact Hst|].
      eapply engine_grows_trans; [|exact Hg].
      apply engine_grows_tick. lia.
    + run_app.
      match goal with
      | |- context [on_engine (push_alert ?E' ?t ?sv ?ti ?b None) ?s0] =>
          destruct (on_engine_push E' t sv ti b s0) as (Hrun & _ & (_ & _ & Hg));
          rewrite Hrun
      end.
      app_fields. eexists. split; [reflexivity|]. app_fields.
      split; [reflexivity|]. split; [reflexivity|].
      split; [|intros [x Hx]; discriminate].
      eapply engine_grows_trans; [exact Hst|].
      eapply engine_grows_trans; [|exact Hg].
      apply engine_grows_tick. state_fields. lia.
  - unfold app_lift at 1.
    match goal with
    | |- context [BatchRecord ?ts ?file 0 false (Some ?err)] =>
        match goal with
        | |- exists s2, ?m ?s1 = _ /\ _ =>
            destruct (do_save_handler E ts file err s1)
              as (sh & Hh & _ & _ & _ & _ & Hs & Hj & _ & (_ & _ & Hg))
        end
    end.
    exists sh. split; [exact Hh|]. app_fields.
    split; [exact Hs|]. split; [exact Hj|].
    split; [|intros [x Hx]; discriminate].
    eapply engine_grows_trans; [exact Hticks | exact Hg].
Qed.

(** X25: what escapes a batch save.  [do_save] raises exactly when the
    save directory cannot be made, and then raises that exception; in
    that case nothing is recorded: the batch log, the last error, the
    last save, the files and the alert store are as before.  Every
    other failure is caught. *)
Theorem batch_save_raises_only_from_mkdir (AE : app_env) (label : pyval)
        (s : app_state) :
  let s' := app_exec (do_save AE label) s in
  app_outcome (do_save AE label) s
  = match mkdir_raises (engine_env AE) (tick (engine s)) with
    | Some e => Raise e
    | None => Ok tt
    end
  /\ (is_Some (mkdir_raises (engine_env AE) (tick (engine s))) ->
      save_log s' = save_log s
      /\ last_error s' = last_error s
      /\ last_save s' = last_save s
      /\ batch_files s' = batch_files s
      /\ alerts (engine s') = alerts (engine s)).
Proof.
  cbv zeta. destruct (do_save_contained AE label s) as (s' & Hrun & _ & _ & _ & Hraise).
  unfold app_outcome, app_exec. rewrite Hrun. cbn [fst snd].
  split; [reflexivity|]. intros Hmk. rewrite (Hraise Hmk).
  repeat split; reflexivity.
Qed.

Lemma batch_save_raises_only_from_mkdir_witness :
  is_Some (mkdir_raises (engine_env no_dir_env) (tick (engine depot_state)))
  /\ app_outcome (do_save no_dir_env (PStr "manual")) depot_state
     = Raise (Exn "PermissionError" "[Errno 13] Permission denied")
  /\ save_log (app_exec (do_save no_dir_env (PStr "manual")) depot_state) = [].
Proof.
  assert (K : is_Some (mkdir_raises (engine_env no_dir_env)
                                    (tick (engine depot_state)))) by (eexists; reflexivity).
  split; [exact K|].
  pose proof (batch_save_raises_only_from_mkdir no_dir_env (PStr "manual") depot_state)
    as (Hout & Hkeep).
  split; [exact Hout | exact (proj1 (Hkeep K))].
Defined.

(** ** Schedules *)

Lemma remove_schedule_run job_id s :
  remove_schedule job_id s
  = (Ok tt,
     set_schedules
       (List.filter (fun sch => negb (String.eqb (schedule_id sch) job_id))
                    (schedules s))
       (set_jobs (delete job_id (jobs s)) s)).
Proof.
  unfold remove_schedule, scheduler_remove_job, app_try_except. run_app.
  destruct (jobs s !! job_id) as [j|] eqn:Hj; run_app.
  - reflexivity.
  - rewrite delete_id by exact Hj. destruct s; reflexivity.
Qed.

Lemma filter_filter_same {A} (p : A -> bool) (l : list A) :
  List.filter p (List.filter p l) = List.filter p l.
Proof.
  induction l as [|x l IH]; [reflexivity|]. cbn [List.filter].
  destruct (p x) eqn:Hp; [|exact IH]. cbn [List.filter]. rewrite Hp, IH. reflexivity.
Qed.

Lemma ids_after_filter job_id (l : list schedule) id :
  In id (List.map schedule_id
           (List.filter (fun sch => negb (String.eqb (schedule_id sch) job_id)) l))
  <-> In id (List.map schedule_id l) /\ id <> job_id.
Proof.
  rewrite !in_map_iff. split.
  - intros (sch & <- & Hin). apply filter_In in Hin as (Hin & Hne).
    split; [exists sch; auto|].
    destruct (String.eqb_spec (schedule_id sch) job_id); [discriminate | assumption].
  - intros ((sch & <- & Hin) & Hne). exists sch. split; [reflexivity|].
    apply filter_In. split; [exact Hin|].
    destruct (String.eqb_spec (schedule_id sch) job_id); [contradiction | reflexivity].
Qed.

(** X26: removing a schedule.  [remove_schedule] returns normally for
    every identifier, known or not; afterwards neither the scheduler nor
    the schedule list holds the identifier, every entry under it is gone
    from the list, the entries and jobs of other identifiers are
    untouched and in their order, and removing again changes nothing. *)
Theorem remove_schedule_clears_id (job_id : string) (s : app_state) :
  let s' := app_exec (remove_schedule job_id) s in
  app_outcome (remove_schedule job_id) s = Ok tt
  /\ jobs s' !! job_id = None
  /\ ~ In job_id (List.map schedule_id (schedules s'))
  /\ (forall id, id <> job_id -> jobs s' !! id = jobs s !! id)
  /\ List.filter (fun sch => negb (String.eqb (schedule_id sch) job_id)) (schedules s')
     = List.filter (fun sch => negb (String.eqb (schedule_id sch) job_id)) (schedules s)
  /\ (forall sch, In sch (schedules s') <->
                  In sch (schedules s) /\ schedule_id sch <> job_id)
  /\ engine s' = engine s
  /\ app_exec (remove_schedule job_id) s' = s'.
Proof.
  cbv zeta. unfold app_outcome, app_exec. rewrite !remove_schedule_run.
  cbn [fst snd]. app_fields.
  split; [reflexivity|]. split; [apply lookup_delete_eq|].
  split; [rewrite ids_after_filter; intros [_ H]; apply H; reflexivity|].
  split; [intros id Hid; apply lookup_delete_ne; congruence|].
  split; [apply filter_filter_same|].
  split.
  { intros sch. rewrite filter_In. split; intros [Hin Hne]; (split; [exact Hin|]).
    - destruct (String.eqb_spec (schedule_id sch) job_id); [discriminate | assumption].
    - destruct (String.eqb_spec (schedule_id sch) job_id); [contradiction | reflexivity]. }
  split; [reflexivity|].
  rewrite filter_filter_same.
  rewrite (delete_id (delete job_id (jobs s))) by apply lookup_delete_eq.
  reflexivity.
Qed.

Lemma add_schedule_run AE name interval_min s :
  let t := tick (engine s) in
  let id := job_id_at (time_time_s AE t) in
  let entry := Schedule id name interval_min true
                        (datetime_now_isoformat (engine_env AE) (S (S t))) in
  add_schedule AE name interval_min s
  = match add_job_raises AE (S t) with
    | Some e => (Raise e, set_engine (set_tick (S (S t)) (engine s)) s)
    | None =>
        (Ok entry,
         set_schedules (schedules s ++ [entry])
           (set_engine (set_tick (S (S (S t))) (engine s))
              (set_jobs (<[id := Job name interval_min]> (jobs s)) s)))
    end.
Proof.
  cbv zeta. unfold add_schedule.
  unfold mbind at 1 2, MA_bind at 1 2, app_bind at 1 2.
  rewrite on_engine_ask, on_engine_may_raise. app_fields. state_fields.
  destruct (add_job_raises AE (S (tick (engine s)))) as [e|]; [reflexivity|].
  run_app. rewrite on_engine_ask. app_fields. state_fields.
  destruct s; reflexivity.
Qed.

(** X27: two schedules added within one second.  When the clock reads
    the same second for two calls of [add_schedule] and the scheduler
    accepts both, the two entries get the same identifier: the schedule
    list shows both, the scheduler holds one job under that identifier,
    that of the second call (the job of the first is replaced), and one
    [remove_schedule] of the identifier removes both entries. *)
Theorem same_second_schedules_share_a_job (AE : app_env) (name1 name2 : pyval)
        (m1 m2 : Z) (s : app_state) :
  let s1 := app_exec (add_schedule AE name1 m1) s in
  let s2 := app_exec (add_schedule AE name2 m2) s1 in
  let id := job_id_at (time_time_s AE (tick (engine s))) in
  add_job_raises AE (S (tick (engine s))) = None ->
  add_job_raises AE (S (tick (engine s1))) = None ->
  time_time_s AE (tick (engine s1)) = time_time_s AE (tick (engine s)) ->
  List.map schedule_id (schedules s2) = List.map schedule_id (schedules s) ++ [id; id]
  /\ List.map schedule_name (schedules s2)
     = List.map schedule_name (schedules s) ++ [name1; name2]
  /\ jobs s2 = <[id := Job name2 m2]> (jobs s)
  /\ (jobs s !! id = None -> size (jobs s2) = S (size (jobs s)))
  /\ schedules (app_exec (remove_schedule id) s2)
     = List.filter (fun sch => negb (String.eqb (schedule_id sch) id)) (schedules s)
  /\ jobs (app_exec (remove_schedule id) s2) = delete id (jobs s).
Proof.
  intros s1 s2 id Hadd1 Hadd2 Hsame.
  assert (H1 : s1 = set_schedules
                      (schedules s ++
                       [Schedule id name1 m1 true
                          (datetime_now_isoformat (engine_env AE)
                                                  (S (S (tick (engine s)))))])
                      (set_engine (set_tick (S (S (S (tick (engine s))))) (engine s))
                         (set_jobs (<[id := Job name1 m1]> (jobs s)) s))).
  { subst s1. unfold app_exec. rewrite add_schedule_run. cbv zeta.
    rewrite Hadd1. reflexivity. }
  assert (H2 : s2 = set_schedules
                      (schedules s1 ++
                       [Schedule id name2 m2 true
                          (datetime_now_isoformat (engine_env AE)
                                                  (S (S (tick (engine s1)))))])
                      (set_engine (set_tick (S (S (S (tick (engine s1))))) (engine s1))
                         (set_jobs (<[id := Job name2 m2]> (jobs s1)) s1))).
  { subst s2. unfold app_exec. rewrite add_schedule_run. cbv zeta.
    rewrite Hadd2, Hsame. reflexivity. }
  assert (Hs : schedules s2
               = schedules s ++
                 [Schedule id name1 m1 true
                    (datetime_now_isoformat (engine_env AE) (S (S (tick (engine s)))));
                  Schedule id name2 m2 true
                    (datetime_now_isoformat (engine_env AE) (S (S (tick (engine s1)))))]).
  { rewrite H2. app_fields. rewrite H1 at 1. app_fields.
    rewrite <- app_assoc. reflexivity. }
  assert (Hj : jobs s2 = <[id := Job name2 m2]> (jobs s)).
  { rewrite H2. app_fields. rewrite H1. app_fields. apply insert_insert_eq. }
  split; [rewrite Hs, List.map_app; reflexivity|].
  split; [rewrite Hs, List.map_app; reflexivity|].
  split; [exact Hj|].
  split; [intros Hnew; rewrite Hj; apply map_size_insert_None, Hnew|].
  unfold app_exec. rewrite remove_schedule_run. cbn [snd]. app_fields.
  split.
  - rewrite Hs, List.filter_app. cbn [List.filter schedule_id].
    rewrite String.eqb_refl. cbn [negb]. apply app_nil_r.
  - rewrite Hj. apply delete_insert_eq.
Qed.

Lemma same_second_schedules_share_a_job_witness :
  add_job_raises depot_env (S (tick (engine depot_state))) = None
  /\ add_job_raises depot_env
       (S (tick (engine (app_exec (add_schedule depot_env (PStr "Nightly") 60)
                                  depot_state)))) = None
  /\ time_time_s depot_env
       (tick (engine (app_exec (add_schedule depot_env (PStr "Nightly") 60)
                               depot_state)))
     = time_time_s depot_env (tick (engine depot_state))
  /\ List.map schedule_id
       (schedules (app_exec (add_schedule depot_env (PStr "Hourly") 5)
                     (app_exec (add_schedule depot_env (PStr "Nightly") 60)
                               depot_state)))
     = ["save_1771941600"; "save_1771941600"]%string.
Proof.
  split; [reflexivity|]. split; [reflexivity|]. split; [reflexivity|].
  exact (proj1 (same_second_schedules_share_a_job depot_env (PStr "Nightly")
                  (PStr "Hourly") 60 5 depot_state eq_refl eq_refl eq_refl)).
Defined.

(** ** Configuration *)

Lemma rstrip_cons c a s :
  rstrip c (String a s)
  = match rstrip c s with
    | EmptyString => if Ascii.eqb a c then EmptyString else String a EmptyString
    | String b r => String a (String b r)
    end.
Proof. reflexivity. Qed.

Lemma rstrip_last c s : last_char (rstrip c s) <> Some c.
Proof.
  induction s as [|a s IH]; [discriminate|].
  rewrite rstrip_cons. destruct (rstrip c s) as [|b r].
  - destruct (Ascii.eqb_spec a c); [discriminate|]. cbn. congruence.
  - exact IH.
Qed.

Lemma rstrip_decompose c s : exists n, s = rstrip c s +:+ str_repeat c n.
Proof.
  induction s as [|a s (n & IH)]; [exists 0%nat; reflexivity|].
  rewrite rstrip_cons. destruct (rstrip c s) as [|b r].
  - destruct (Ascii.eqb_spec a c) as [->|_].
    + exists (S n). cbn in *. rewrite IH at 1. reflexivity.
    + exists n. cbn in *. rewrite IH at 1. reflexivity.
  - exists n. cbn in *. rewrite IH at 1. reflexivity.
Qed.

Lemma rstrip_fixed c s : last_char s <> Some c -> rstrip c s = s.
Proof.
  induction s as [|a s IH]; [reflexivity|]. intros Hlast.
  rewrite rstrip_cons. destruct s as [|b r].
  - cbn in *. destruct (Ascii.eqb_spec a c); [congruence | reflexivity].
  - rewrite IH by exact Hlast. reflexivity.
Qed.

Lemma api_config_post_run data u s :
  cfg_kismet_url data = Some (PStr u) ->
  api_config_post data s
  = (Ok tt,
     set_password (default (password s) (cfg_password data))
       (set_username (default (username s) (cfg_username data))
          (set_api_key (default (api_key s) (cfg_api_key data))
             (set_kismet_url (rstrip "/" u) s)))).
Proof.
  intros Hurl. unfold api_config_post. rewrite Hurl. run_app.
  cbn [py_rstrip_slash].
  destruct s, (cfg_api_key data), (cfg_username data), (cfg_password data);
    reflexivity.
Qed.

(** X28: the address of the server is stored without trailing slashes.
    For a configuration request whose address is text, the request
    returns normally; the stored address does not end with a slash, and
    the posted address is the stored one followed by slashes only (an
    address without a trailing slash is stored as it is); each credential
    named in the request replaces the stored one and each one not named
    is kept; a later request is addressed to the stored address followed
    by the path, and a later GET answers the stored address, the user
    name and a mask in place of the key. *)
Theorem config_url_loses_trailing_slashes (data : config_post) (u : string)
        (s : app_state) :
  let s' := app_exec (api_config_post data) s in
  cfg_kismet_url data = Some (PStr u) ->
  app_outcome (api_config_post data) s = Ok tt
  /\ last_char (kismet_url s') <> Some "/"%char
  /\ (exists n, u = kismet_url s' +:+ str_repeat "/" n)
  /\ (last_char u <> Some "/"%char -> kismet_url s' = u)
  /\ api_key s' = default (api_key s) (cfg_api_key data)
  /\ username s' = default (username s) (cfg_username data)
  /\ password s' = default (password s) (cfg_password data)
  /\ (forall path, request_url s' path = rstrip "/" u +:+ path)
  /\ api_config_get s'
     = (rstrip "/" u,
        if truthy (default (api_key s) (cfg_api_key data)) then "***" else "",
        default (username s) (cfg_username data))%string.
Proof.
  intros s' Hurl. subst s'. unfold app_outcome, app_exec.
  rewrite (api_config_post_run data u s Hurl). cbn [fst snd].
  unfold request_url, api_config_get. app_fields.
  split; [reflexivity|]. split; [apply rstrip_last|].
  split; [apply rstrip_decompose|]. split; [apply rstrip_fixed|].
  repeat split; reflexivity.
Qed.

Lemma config_url_loses_trailing_slashes_witness :
  cfg_kismet_url (ConfigPost (Some (PStr "http://10.0.0.5:2501//"))
                             (Some (PStr "secret")) None None)
  = Some (PStr "http://10.0.0.5:2501//")
  /\ api_config_get
       (app_exec (api_config_post
                    (ConfigPost (Some (PStr "http://10.0.0.5:2501//"))
                                (Some (PStr "secret")) None None))
                 depot_state)
     = ("http://10.0.0.5:2501", "***", PStr "kismet")%string.
Proof.
  split; [reflexivity|].
  pose proof (config_url_loses_trailing_slashes
                (ConfigPost (Some (PStr "http://10.0.0.5:2501//"))
                            (Some (PStr "secret")) None None)
                "http://10.0.0.5:2501//" depot_state eq_refl) as H.
  cbv zeta in H. destruct H as (_ & _ & _ & _ & _ & _ & _ & _ & H). exact H.
Defined.

(** X29: a configuration request whose address is not text.  The
    request raises the attribute error of [rstrip] and changes nothing:
    the credentials named in the same request are not stored either. *)
Theorem config_bad_url_changes_nothing (data : config_post) (v : pyval)
        (s : app_state) :
  cfg_kismet_url data = Some v ->
  (forall u, v <> PStr u) ->
  api_config_post data s = (Raise (no_attribute v "rstrip"), s).
Proof.
  intros Hurl Hbad. unfold api_config_post. rewrite Hurl. run_app.
  destruct v as [|z|u]; [reflexivity | reflexivity |].
  exfalso. exact (Hbad u eq_refl).
Qed.

Lemma config_bad_url_changes_nothing_witness :
  cfg_kismet_url (ConfigPost (Some PNone) (Some (PStr "secret")) None None) = Some PNone
  /\ (forall u, PNone <> PStr u)
  /\ api_key (app_exec (api_config_post
                          (ConfigPost (Some PNone) (Some (PStr "secret")) None None))
                       depot_state)
     = PNone.
Proof.
  assert (B : forall u, PNone <> PStr u) by discriminate.
  split; [reflexivity|]. split; [exact B|].
  unfold app_exec.
  rewrite (config_bad_url_changes_nothing
             (ConfigPost (Some PNone) (Some (PStr "secret")) None None)
             PNone depot_state eq_refl B).
  reflexivity.
Defined.

(** ** Every reachable state *)

Lemma save_keeps_alerts E a device st :
  alerts (exec (_save_alert_device E a device) st) = alerts st.
Proof.
  unfold exec, _save_alert_device. run_monad.
  destruct (negb (alert_save_enabled (automations st))); [reflexivity|].
  destruct (negb (save_device_details (automations st))
            && negb (save_device_traffic (automations st))); [reflexivity|].
  match goal with
  | |- context [if ?c then _ else _] => destruct c; [reflexivity|]
  end.
  destruct (mkdir_raises E (tick st)); [reflexivity|].
  cbn [sanitize_value].
  destruct (sanitize_value (dev_name_of device)) as [part|e]; [|reflexivity].
  state_fields.
  destruct (write_raises E (S (S (tick st)))); reflexivity.
Qed.

Lemma watchlist_add_keeps_alerts E upper data st :
  alerts (exec (api_watchlist_add E upper data) st) = alerts st.
Proof.
  unfold exec, api_watchlist_add. run_monad.
  destruct (py_upper upper (dict_get (post_mac data) (PStr ""))) as [mac|e];
    [|reflexivity].
  destruct (String.eqb mac ""); reflexivity.
Qed.

Lemma on_engine_exec {A} (m : M A) s :
  app_exec (on_engine m) s = set_engine (exec m (engine s)) s.
Proof. unfold app_exec, on_engine, exec. destruct (m (engine s)); reflexivity. Qed.

Lemma app_exec_then_ret {A} (m : MA A) s :
  app_exec (m;; mret tt) s = app_exec m s.
Proof.
  unfold app_exec. run_app. destruct (m s) as [[a|e] s']; reflexivity.
Qed.

Lemma healthy_on_engine (st : state) s :
  healthy s ->
  ((length (alerts (engine s)) <= MAX_ALERTS)%nat ->
   (length (alerts st) <= MAX_ALERTS)%nat) ->
  healthy (set_engine st s).
Proof. intros [Hcap Hm] Hst. split; [exact (Hst Hcap) | exact Hm]. Qed.

Lemma healthy_grows s s' :
  healthy s ->
  schedules s' = schedules s ->
  jobs s' = jobs s ->
  engine_grows (engine s) (engine s') ->
  healthy s'.
Proof.
  intros [Hcap Hm] Hs Hj Hg. split.
  - destruct Hg as (_ & _ & _ & _ & _ & _ & Hc). exact (Hc Hcap).
  - unfold schedules_match_jobs. rewrite Hs, Hj. exact Hm.
Qed.

Lemma api_config_post_frame data s :
  engine (app_exec (api_config_post data) s) = engine s
  /\ schedules (app_exec (api_config_post data) s) = schedules s
  /\ jobs (app_exec (api_config_post data) s) = jobs s.
Proof.
  unfold app_exec, api_config_post. run_app.
  destruct (cfg_kismet_url data) as [v|];
    [destruct (py_rstrip_slash v) as [u|e]; [|repeat split; reflexivity]|];
    app_fields;
    destruct (cfg_api_key data), (cfg_username data), (cfg_password data);
    repeat split; reflexivity.
Qed.

Lemma add_schedule_healthy AE name interval_min s :
  healthy s -> healthy (app_exec (add_schedule AE name interval_min) s).
Proof.
  intros [Hcap Hm]. unfold app_exec. rewrite add_schedule_run. cbv zeta.
  destruct (add_job_raises AE (S (tick (engine s)))) as [e|]; cbn [snd].
  - split; [exact Hcap | exact Hm].
  - split; [exact Hcap|]. intros id. app_fields.
    rewrite List.map_app, in_app_iff. cbn [List.map schedule_id In].
    destruct (decide (job_id_at (time_time_s AE (tick (engine s))) = id)) as [->|Hne].
    + rewrite lookup_insert_eq. split; [intros _; right; left; reflexivity | eauto].
    + rewrite lookup_insert_ne by exact Hne. rewrite (Hm id).
      split; [intros H; left; exact H | intros [H|[H|[]]]; [exact H | contradiction]].
Qed.

Lemma remove_schedule_healthy job_id s :
  healthy s -> healthy (app_exec (remove_schedule job_id) s).
Proof.
  intros [Hcap Hm]. unfold app_exec. rewrite remove_schedule_run. cbn [snd].
  split; [exact Hcap|]. intros id. app_fields. rewrite ids_after_filter.
  destruct (decide (job_id = id)) as [->|Hne].
  - rewrite lookup_delete_eq. split; [intros [x Hx]; discriminate | intros [_ H]; congruence].
  - rewrite lookup_delete_ne by exact Hne. rewrite (Hm id).
    split; [intros H; split; [exact H | congruence] | intros [H _]; exact H].
Qed.

Lemma do_save_healthy AE label s :
  healthy s -> healthy (app_exec (do_save AE label) s).
Proof.
  intros Hs. destruct (do_save_contained AE label s) as (s' & Hrun & Hsch & Hj & Hg & _).
  unfold app_exec. rewrite Hrun. cbn [snd].
  exact (healthy_grows s s' Hs Hsch Hj Hg).
Qed.

Lemma perform_healthy AE upper op s :
  healthy s -> healthy (app_exec (perform AE upper op) s).
Proof.
  intros Hs. destruct op; cbn [perform].
  - apply do_save_healthy, Hs.
  - unfold app_exec, run_job. run_app.
    destruct (jobs s !! job_id) as [j|]; [|exact Hs].
    destruct (py_schedule_label (job_name j)) as [label|e]; [|exact Hs].
    apply (do_save_healthy AE (PStr label) s Hs).
  - rewrite on_engine_exec. apply healthy_on_engine; [exact Hs|].
    destruct (poll_run (engine_env AE) (engine s)) as (st' & Hrun & (_ & _ & Hg) & _).
    unfold exec. rewrite Hrun. apply Hg.
  - rewrite on_engine_exec. apply healthy_on_engine; [exact Hs|].
    destruct data as [l|]; [|intros H; exact H].
    destruct (analyze_devices_detects (engine_env AE) l (engine s))
      as (st' & started & Hrun & (Hg & _) & _).
    unfold exec. rewrite Hrun. apply Hg.
  - unfold app_exec. run_app. apply healthy_on_engine; [exact Hs|].
    intros _. cbn. lia.
  - rewrite on_engine_exec. apply healthy_on_engine; [exact Hs|].
    rewrite save_keeps_alerts. intros H; exact H.
  - rewrite app_exec_then_ret, on_engine_exec.
    apply healthy_on_engine; [exact Hs|].
    rewrite watchlist_add_keeps_alerts. intros H; exact H.
  - rewrite app_exec_then_ret, on_engine_exec.
    apply healthy_on_engine; [exact Hs|].
    unfold exec. rewrite api_watchlist_remove_run. intros H; exact H.
  - unfold app_exec. run_app. apply healthy_on_engine; [exact Hs | intros H; exact H].
  - destruct (api_config_post_frame data s) as (He & Hsch & Hj).
    apply (healthy_grows s _ Hs Hsch Hj). rewrite He. apply engine_grows_refl.
  - rewrite app_exec_then_ret. apply add_schedule_healthy, Hs.
  - apply remove_schedule_healthy, Hs.
Qed.

(** X30: what holds in every reachable state.  Starting from a state
    whose alert store is within capacity and whose schedule list names
    the jobs of the scheduler, after any sequence of operations (batch
    saves, job runs, polls, analyses, clearing, alert saves, watchlist
    and automation and configuration requests, schedules added and
    removed), whatever each one's outcome, the store is within capacity
    and the schedule list and the scheduler name the same identifiers. *)
Theorem reachable_states_are_healthy (AE : app_env) (upper : string -> string)
        (ops : list operation) (s : app_state) :
  healthy s -> healthy (perform_all AE upper ops s).
Proof.
  revert s. induction ops as [|op ops IH]; intros s Hs; [exact Hs|].
  cbn [perform_all fold_left]. apply IH, perform_healthy, Hs.
Qed.

Lemma initial_app_state_healthy url key user pass :
  healthy (initial_app_state url key user pass).
Proof.
  split; [cbn; unfold MAX_ALERTS; lia|].
  intros id. cbn. rewrite lookup_empty. split; [intros [x Hx]; discriminate | tauto].
Qed.

Lemma reachable_states_are_healthy_witness :
  healthy depot_state
  /\ healthy (perform_all depot_env ascii_upper
                [OpAddSchedule (PStr "Nightly Dump") 60; OpSave (PStr "manual");
                 OpPoll; OpRunJob "save_1771941600"; OpRemoveSchedule "save_1771941600"]
                depot_state).
Proof.
  assert (H : healthy depot_state) by apply initial_app_state_healthy.
  split; [exact H|].
  exact (reachable_states_are_healthy depot_env ascii_upper _ depot_state H).
Defined.
